(** * infi.hbaapi: the HBA API generator

    A shallow embedding of
    [src/infi/hbaapi/generators/hbaapi/__init__.py]: the translation of
    native adapter and port attributes into [Port] entities, the filter on
    discovered remote ports, the two-phase fetch of the SCSI target mapping
    table, the statistics merger and the adapter walk.

    The native library ([c_api]), the structure decoder and the constants
    of [headers], the interpreter and the platform string are collaborators
    of the module; each is a class here, and every theorem holds for all
    of their instances. *)

From Stdlib Require Import ZArith Lia.
From Stdlib.Strings Require Import Ascii String Byte.
From Stdlib.Lists Require Import List.
From stdpp Require Import base option list gmap strings sorting pretty.

Local Open Scope string_scope.
Local Open Scope list_scope.
Local Open Scope Z_scope.

(** ** Exceptions and the error monad *)

(** The exceptions the module raises, catches or lets through.
    [NotImplementedError] is a subclass of [RuntimeError] in Python, which
    [is_RuntimeError] records; [RuntimeError] carries [args[0]], the status
    code of the native call. *)
Inductive exn : Type :=
  | RuntimeError (return_code : Z)
  | NotImplementedError
  | KeyError
  | TypeError
  | ValueError
  | AttributeError (name : string).

Definition is_RuntimeError (e : exn) : bool :=
  match e with
  | RuntimeError _ | NotImplementedError => true
  | _ => false
  end.

Definition is_NotImplementedError (e : exn) : bool :=
  match e with
  | NotImplementedError => true
  | _ => false
  end.

Inductive result (A : Type) : Type :=
  | Ok (a : A)
  | Raise (e : exn).
Arguments Ok {A} a.
Arguments Raise {A} e.

Definition rbind {A B} (r : result A) (k : A -> result B) : result B :=
  match r with
  | Ok a => k a
  | Raise e => Raise e
  end.

Declare Scope result_scope.
Delimit Scope result_scope with result.
Notation "'let?' x ':=' r 'in' k" := (rbind r (fun x => k))
  (at level 10, x pattern, r at level 100, k at level 200) : result_scope.
Local Open Scope result_scope.

(** The comprehension [[f x for x in l]] when [f] may raise: the first
    exception ends it. *)
Fixpoint traverse {A B} (f : A -> result B) (l : list A) : result (list B) :=
  match l with
  | [] => Ok []
  | x :: l' =>
      let? y := f x in
      let? ys := traverse f l' in
      Ok (y :: ys)
  end.

(** ** Python primitives used by the module *)

Module Py.

Definition bytes := list byte.

(** [str] values are ASCII here: every name the module mangles is an
    ASCII identifier. *)
Definition is_lower (c : ascii) : bool :=
  let n := nat_of_ascii c in (97 <=? n)%nat && (n <=? 122)%nat.
Definition is_upper (c : ascii) : bool :=
  let n := nat_of_ascii c in (65 <=? n)%nat && (n <=? 90)%nat.
Definition to_upper (c : ascii) : ascii :=
  if is_lower c then ascii_of_nat (nat_of_ascii c - 32) else c.
Definition to_lower (c : ascii) : ascii :=
  if is_upper c then ascii_of_nat (nat_of_ascii c + 32) else c.

Fixpoint map_string (f : ascii -> ascii) (s : string) : string :=
  match s with
  | EmptyString => EmptyString
  | String c s' => String (f c) (map_string f s')
  end.

Fixpoint exists_string (p : ascii -> bool) (s : string) : bool :=
  match s with
  | EmptyString => false
  | String c s' => p c || exists_string p s'
  end.

(** [s.isupper()]: at least one cased character and no lowercase one. *)
Definition isupper (s : string) : bool :=
  exists_string is_upper s && negb (exists_string is_lower s).

(** [s.capitalize()]: first character upper-cased, the rest lower-cased. *)
Definition capitalize (s : string) : string :=
  match s with
  | EmptyString => EmptyString
  | String c s' => String (to_upper c) (map_string to_lower s')
  end.

(** [s.startswith(p)] *)
Fixpoint startswith (s p : string) {struct p} : bool :=
  match p, s with
  | EmptyString, _ => true
  | String a p', String b s' => Ascii.eqb a b && startswith s' p'
  | String _ _, EmptyString => false
  end.

(** [p in s] for strings. *)
Fixpoint contains (p s : string) : bool :=
  startswith s p ||
  match s with
  | EmptyString => false
  | String _ s' => contains p s'
  end.

(** [s.replace(old, new)] for a non-empty [old]: occurrences are taken
    from the left and do not overlap.  [skip] counts the characters of
    the current occurrence still to be dropped. *)
Fixpoint replace_from (old new : string) (skip : nat) (s : string) : string :=
  match s with
  | EmptyString => EmptyString
  | String c s' =>
      match skip with
      | S k => replace_from old new k s'
      | O =>
          if startswith s old
          then String.append new
                 (replace_from old new (String.length old - 1) s')
          else String c (replace_from old new O s')
      end
  end.
Definition replace (s old new : string) : string := replace_from old new O s.

(** [s.split(sep)] for a one-character separator; [cur] is the word
    being read.  The result is never empty. *)
Fixpoint split_from (sep : ascii) (cur : string) (s : string) : list string :=
  match s with
  | EmptyString => [cur]
  | String c s' =>
      if Ascii.eqb c sep then cur :: split_from sep "" s'
      else split_from sep (String.append cur (String c "")) s'
  end.
Definition split (s : string) (sep : ascii) : list string := split_from sep "" s.

(** [''.join(l)] *)
Definition join (l : list string) : string := fold_right String.append "" l.

(** [b.strip(chars)] with a single byte in [chars]: both ends. *)
Fixpoint lstrip (c : byte) (b : bytes) : bytes :=
  match b with
  | x :: b' => if Byte.eqb x c then lstrip c b' else b
  | [] => []
  end.
Definition strip (c : byte) (b : bytes) : bytes :=
  rev (lstrip c (rev (lstrip c b))).

(** [binascii.hexlify]: two lowercase hexadecimal digits per byte, the
    high nibble first. *)
Definition hex_digit (n : N) : ascii :=
  match n with
  | 0 => "0" | 1 => "1" | 2 => "2" | 3 => "3" | 4 => "4" | 5 => "5"
  | 6 => "6" | 7 => "7" | 8 => "8" | 9 => "9" | 10 => "a" | 11 => "b"
  | 12 => "c" | 13 => "d" | 14 => "e" | _ => "f"
  end%N%char.

Fixpoint hexlify (b : bytes) : string :=
  match b with
  | [] => ""
  | x :: b' =>
      String (hex_digit (Byte.to_N x / 16))
        (String (hex_digit (Byte.to_N x mod 16)) (hexlify b'))
  end.

(** The value of a hexadecimal digit, either case. *)
Definition hex_value (c : ascii) : option Z :=
  let n := Z.of_nat (nat_of_ascii c) in
  if (48 <=? n) && (n <=? 57) then Some (n - 48)
  else if (97 <=? n) && (n <=? 102) then Some (n - 87)
  else if (65 <=? n) && (n <=? 70) then Some (n - 55)
  else None.

Fixpoint int16_from (acc : Z) (s : string) : result Z :=
  match s with
  | EmptyString => Ok acc
  | String c s' =>
      match hex_value c with
      | Some d => int16_from (16 * acc + d) s'
      | None => Raise ValueError
      end
  end.

(** [int(s, 16)] on a string of hexadecimal digits; the empty string and
    any other character raise [ValueError].  (Signs, prefixes, blanks and
    underscores, which [int] also reads, do not occur in the output of
    [hexlify].) *)
Definition int16 (s : string) : result Z :=
  match s with
  | EmptyString => Raise ValueError
  | _ => int16_from 0 s
  end.

(** [binascii.unhexlify], the inverse of [hexlify]. *)
Fixpoint unhexlify (s : string) : result bytes :=
  match s with
  | EmptyString => Ok []
  | String a (String b s') =>
      match hex_value a, hex_value b with
      | Some h, Some l =>
          match Byte.of_N (Z.to_N (16 * h + l)) with
          | Some x => let? r := unhexlify s' in Ok (x :: r)
          | None => Raise ValueError
          end
      | _, _ => Raise ValueError
      end
  | String _ EmptyString => Raise ValueError
  end.

(** A dict literal [{k1: v1, ..., kn: vn}]: the items are inserted in
    order, so that for a repeated key the last item stands. *)
Definition dict_of_items {V} (items : list (Z * V)) : gmap Z V :=
  fold_left (fun m kv => <[kv.1 := kv.2]> m) items ∅.

(** [x or y] for optional sequences: [None] and the empty sequence are
    false. *)
Definition or_seq {A} (x y : option (list A)) : option (list A) :=
  match x with
  | Some (_ :: _) => x
  | _ => y
  end.

End Py.

(** ** The collaborators of the module *)

(** The constants of [headers] the module reads.  Their values are those
    of the native header; the module depends only on their names, so they
    are the fields of a class.  [HBA_PORTTYPE] is the table subscripted by
    [translate_port_type], a dict with string keys. *)
Class Headers : Type := {
  HBA_PORTSPEED_UNKNOWN : Z;
  HBA_PORTSPEED_1GBIT : Z;
  HBA_PORTSPEED_2GBIT : Z;
  HBA_PORTSPEED_10GBIT : Z;
  HBA_PORTSPEED_4GBIT : Z;
  HBA_PORTSPEED_8GBIT : Z;
  HBA_PORTSPEED_16GBIT : Z;
  HBA_PORTSPEED_32GBIT : Z;
  HBA_PORTSPEED_20GBIT : Z;
  HBA_PORTSPEED_40GBIT : Z;
  HBA_PORTSPEED_NOT_NEGOTIATED : Z;
  HBA_PORTSTATE_UNKNOWN : Z;
  HBA_PORTSTATE_ONLINE : Z;
  HBA_PORTSTATE_OFFLINE : Z;
  HBA_PORTSTATE_BYPASSED : Z;
  HBA_PORTSTATE_DIAGNOSTICS : Z;
  HBA_PORTSTATE_LINKDOWN : Z;
  HBA_PORTSTATE_ERROR : Z;
  HBA_PORTSTATE_LOOPBACK : Z;
  HBA_PORTTYPE : gmap string string;
  HBA_STATUS_ERROR : Z;
  HBA_STATUS_ERROR_NOT_SUPPORTED : Z;
  HBA_STATUS_ERROR_ILLEGAL_WWN : Z;
  HBA_STATUS_ERROR_MORE_DATA : Z
}.

(** What the interpreter and the host decide: [PY3] is
    [sys.version_info[0] == 3], [get_platform_string] the platform
    string of [infi.os_info]. *)
Class Host : Type := {
  PY3 : bool;
  get_platform_string : string
}.

(** [infi.dtypes.wwn.WWN], modelled by the address string it is built
    from; the validation the class applies to that string is not part of
    this module. *)
Record WWN : Type := { _address : string }.

(** ** Data model *)

(** The decoded [HBA_PortAttributes]; the fields the module reads with a
    default ([getattr(..., None)]) are optional. *)
Record HBA_PortAttributes : Type := {
  pa_NodeWWN : option Py.bytes;
  PortWWN : Py.bytes;
  PortFcId : Z;
  PortType : Z;
  PortState : Z;
  PortSpeed : Z;
  PortSymbolicName : Py.bytes;
  OSDeviceName : Py.bytes;
  PortSuggestedSpeed : Z;
  PortMaxFrameSize : option Z;
  FabricName : option Py.bytes;
  NumberOfDiscoveredPorts : nat
}.

(** The decoded [HBA_AdapterAttributes]; every field but [NumberOfPorts]
    is read with a default. *)
Record HBA_AdapterAttributes : Type := {
  aa_NodeWWN : option Py.bytes;
  DriverName : option Py.bytes;
  DriverVersion : option Py.bytes;
  Manufacturer : option Py.bytes;
  SerialNumber : option Py.bytes;
  Model : option Py.bytes;
  ModelDescription : option Py.bytes;
  HardwareVersion : option Py.bytes;
  FirmwareVersion : option Py.bytes;
  OptionROMVersion : option Py.bytes;
  NumberOfPorts : nat
}.

(** One row of the mapping table, [HBA_FcpScsiEntryV2]. *)
Record HBA_ScsiId : Type := {
  ScsiOSDeviceName : string;
  ScsiBusNumber : Z;
  ScsiTargetNumber : Z;
  ScsiOSLun : Z
}.

Record HBA_FcpId : Type := {
  FcId_PortWWN : Py.bytes
}.

Record HBA_FcpScsiEntryV2 : Type := {
  ScsiId : HBA_ScsiId;
  FcId : HBA_FcpId
}.

(** [HBA_FCPTargetMappingV2] *)
Record HBA_FCPTargetMappingV2 : Type := {
  NumberOfEntries : nat;
  entry : list HBA_FcpScsiEntryV2
}.

(** [PortStatistics]: the counters set by [setattr], by name. *)
Abbreviation PortStatistics := (gmap string Z).

(** A decoded native statistics record, read by [getattr]. *)
Abbreviation native_statistics := (gmap string Z).

(** [Port], for local and for remote ports alike. *)
#[local] Unset Elimination Schemes.
Inductive Port : Type := mkPort {
  node_wwn : WWN;
  port_wwn : WWN;
  port_fcid : Z;
  port_type : string;
  port_state : option string;
  port_speed : Z;
  port_symbolic_name : Py.bytes;
  os_device_name : option Py.bytes;
  port_supported_speeds : list Z;
  port_max_frame_size : option Z;
  fabric_name : WWN;
  driver_name : Py.bytes;
  driver_version : Py.bytes;
  manufacturer : Py.bytes;
  serial_number : Py.bytes;
  model : Py.bytes;
  model_description : Py.bytes;
  hardware_version : Py.bytes;
  firmware_version : Py.bytes;
  option_rom_version : Py.bytes;
  hct : Z * Z * Z;
  discovered_ports : list Port;
  statistics : PortStatistics;
  all_port_mappings : option HBA_FCPTargetMappingV2
}.
#[local] Set Elimination Schemes.

Definition set_hct (p : Port) (v : Z * Z * Z) : Port :=
  mkPort (node_wwn p) (port_wwn p) (port_fcid p) (port_type p) (port_state p)
    (port_speed p) (port_symbolic_name p) (os_device_name p)
    (port_supported_speeds p) (port_max_frame_size p) (fabric_name p)
    (driver_name p) (driver_version p) (manufacturer p) (serial_number p)
    (model p) (model_description p) (hardware_version p) (firmware_version p)
    (option_rom_version p) v (discovered_ports p) (statistics p)
    (all_port_mappings p).

Definition set_discovered_ports (p : Port) (v : list Port) : Port :=
  mkPort (node_wwn p) (port_wwn p) (port_fcid p) (port_type p) (port_state p)
    (port_speed p) (port_symbolic_name p) (os_device_name p)
    (port_supported_speeds p) (port_max_frame_size p) (fabric_name p)
    (driver_name p) (driver_version p) (manufacturer p) (serial_number p)
    (model p) (model_description p) (hardware_version p) (firmware_version p)
    (option_rom_version p) (hct p) v (statistics p) (all_port_mappings p).

Definition set_statistics (p : Port) (v : PortStatistics) : Port :=
  mkPort (node_wwn p) (port_wwn p) (port_fcid p) (port_type p) (port_state p)
    (port_speed p) (port_symbolic_name p) (os_device_name p)
    (port_supported_speeds p) (port_max_frame_size p) (fabric_name p)
    (driver_name p) (driver_version p) (manufacturer p) (serial_number p)
    (model p) (model_description p) (hardware_version p) (firmware_version p)
    (option_rom_version p) (hct p) (discovered_ports p) v (all_port_mappings p).

Definition set_all_port_mappings (p : Port) (v : option HBA_FCPTargetMappingV2) : Port :=
  mkPort (node_wwn p) (port_wwn p) (port_fcid p) (port_type p) (port_state p)
    (port_speed p) (port_symbolic_name p) (os_device_name p)
    (port_supported_speeds p) (port_max_frame_size p) (fabric_name p)
    (driver_name p) (driver_version p) (manufacturer p) (serial_number p)
    (model p) (model_description p) (hardware_version p) (firmware_version p)
    (option_rom_version p) (hct p) (discovered_ports p) (statistics p) v.

(** ** Constants of the module *)

Definition WELL_KNOWN_FC_ADDRESSES : list Z := [
    0xFFFFF5; (* Multicast server *)
    0xFFFFF6; (* Clock Sync server *)
    0xFFFFF7; (* KDC (key distribution) *)
    0xFFFFF8; (* Alias server (for multicast, or hunt groups) *)
    0xFFFFF9; (* QoS information *)
    0xFFFFFA; (* Management server *)
    0xFFFFFB; (* Time server *)
    0xFFFFFC; (* Directory server *)
    0xFFFFFD; (* Fabric Controller *)
    0xFFFFFE  (* Fabric Login server *)
  ].

(** ** Attribute translation *)

Section Translate.
Context {headers : Headers} {host : Host}.

(** [translate_wwn]: iterating [None] raises [TypeError]; the joined
    bytes are compared with the [str] [''], which a [bytes] value never
    equals, so only on Python 2 does an empty source become eight zero
    bytes. *)
Definition translate_wwn (source : option Py.bytes) : result WWN :=
  match source with
  | None => Raise TypeError
  | Some items =>
      let source := items in
      let source_ne_empty_str :=
        if PY3 then true else negb (bool_decide (source = [])) in
      Ok {| _address :=
              Py.hexlify (if source_ne_empty_str then source
                          else repeat x00 8) |}
  end.

Definition translate_port_type (number : Z) : result string :=
  match HBA_PORTTYPE !! pretty number with
  | Some v => Ok v
  | None => Raise KeyError
  end.

(** PortSpeed indicates the signalling bit rate at which this port is
    currently operating. *)
Definition translate_port_speed (source : Z) : Z :=
  let translation := Py.dict_of_items [
    (HBA_PORTSPEED_UNKNOWN, 0);
    (HBA_PORTSPEED_1GBIT, 1);
    (HBA_PORTSPEED_2GBIT, 2);
    (HBA_PORTSPEED_10GBIT, 10);
    (HBA_PORTSPEED_4GBIT, 4);
    (HBA_PORTSPEED_8GBIT, 8);
    (HBA_PORTSPEED_16GBIT, 16);
    (HBA_PORTSPEED_32GBIT, 32);
    (HBA_PORTSPEED_20GBIT, 20);
    (HBA_PORTSPEED_40GBIT, 40);
    (HBA_PORTSPEED_NOT_NEGOTIATED, 0)
  ] in
  default 0 (translation !! source).

Definition supported_speeds_translation : gmap Z Z :=
  Py.dict_of_items [
    (HBA_PORTSPEED_1GBIT, 1);
    (HBA_PORTSPEED_2GBIT, 2);
    (HBA_PORTSPEED_10GBIT, 10);
    (HBA_PORTSPEED_4GBIT, 4);
    (HBA_PORTSPEED_8GBIT, 8);
    (HBA_PORTSPEED_16GBIT, 16);
    (HBA_PORTSPEED_32GBIT, 32);
    (HBA_PORTSPEED_20GBIT, 20);
    (HBA_PORTSPEED_40GBIT, 40)
  ].

(** The loop of [translate_port_supported_speeds]: [key & source] is
    tested on the current [source], from which a key that matched is
    subtracted. *)
Fixpoint supported_speeds_loop (translation : gmap Z Z) (keys : list Z)
    (source : Z) (result : list Z) : list Z :=
  match keys with
  | [] => result
  | key :: keys' =>
      if negb (Z.land key source =? 0)
      then supported_speeds_loop translation keys' (source - key)
             (result ++ [default 0 (translation !! key)])
      else supported_speeds_loop translation keys' source result
  end.

(** PortSupportedSpeed indicates the signalling bit rates at which this
    port may operate. *)
Definition translate_port_supported_speeds (source : Z) : list Z :=
  let translation := supported_speeds_translation in
  let keys := (map_to_list translation).*1 in
  let keys := merge_sort Z.ge keys in
  let result := supported_speeds_loop translation keys source [] in
  merge_sort Z.le result.

Definition translate_port_state (source : Z) : result (option string) :=
  let translation : gmap Z (option string) := Py.dict_of_items [
    (HBA_PORTSTATE_UNKNOWN, None);
    (HBA_PORTSTATE_ONLINE, Some "online");
    (HBA_PORTSTATE_OFFLINE, Some "offline");
    (HBA_PORTSTATE_BYPASSED, Some "bypassed");
    (HBA_PORTSTATE_DIAGNOSTICS, Some "diagnostics");
    (HBA_PORTSTATE_LINKDOWN, Some "link down");
    (HBA_PORTSTATE_ERROR, Some "error");
    (HBA_PORTSTATE_LOOPBACK, Some "lookback")
  ] in
  match translation !! source with
  | Some v => Ok v
  | None => Raise KeyError
  end.

Definition strip_nul (b : option Py.bytes) : Py.bytes :=
  Py.strip x00 (default [] b).

(** [get_port_object]; [adapter_attributes] is [None] for a remote
    port.  The keys of [kwargs] are computed in the order of the
    source, so the first exception is the one the source raises. *)
Definition get_port_object (adapter_attributes : option HBA_AdapterAttributes)
    (port_attributes : HBA_PortAttributes) : result Port :=
  let adapter {A} (f : HBA_AdapterAttributes -> option A) : option A :=
    adapter_attributes ≫= f in
  let? node_wwn := translate_wwn (Py.or_seq (adapter aa_NodeWWN)
                                    (pa_NodeWWN port_attributes)) in
  let? port_wwn := translate_wwn (Some (PortWWN port_attributes)) in
  let port_fcid := PortFcId port_attributes in
  let? port_type := translate_port_type (PortType port_attributes) in
  let? port_state := translate_port_state (PortState port_attributes) in
  let port_speed := translate_port_speed (PortSpeed port_attributes) in
  let port_symbolic_name := Py.strip x00 (PortSymbolicName port_attributes) in
  let os_device_name := Py.strip x00 (OSDeviceName port_attributes) in
  let port_supported_speeds :=
    translate_port_supported_speeds (PortSuggestedSpeed port_attributes) in
  let port_max_frame_size := PortMaxFrameSize port_attributes in
  let? fabric_name := translate_wwn (FabricName port_attributes) in
  Ok {| node_wwn := node_wwn;
        port_wwn := port_wwn;
        port_fcid := port_fcid;
        port_type := port_type;
        port_state := port_state;
        port_speed := port_speed;
        port_symbolic_name := port_symbolic_name;
        os_device_name := Some os_device_name;
        port_supported_speeds := port_supported_speeds;
        port_max_frame_size := port_max_frame_size;
        fabric_name := fabric_name;
        driver_name := strip_nul (adapter DriverName);
        driver_version := strip_nul (adapter DriverVersion);
        manufacturer := strip_nul (adapter Manufacturer);
        serial_number := strip_nul (adapter SerialNumber);
        model := strip_nul (adapter Model);
        model_description := strip_nul (adapter ModelDescription);
        hardware_version := strip_nul (adapter HardwareVersion);
        firmware_version := strip_nul (adapter FirmwareVersion);
        option_rom_version := strip_nul (adapter OptionROMVersion);
        hct := (-1, -1, -1);
        discovered_ports := [];
        statistics := ∅;
        all_port_mappings := None |}.

End Translate.

(** The structure decoder: what the module uses of the record shapes of
    [headers].  A decode that fails raises. *)
Class Decoder : Type := {
  AdapterAttributes_create_from_string : Py.bytes -> result HBA_AdapterAttributes;
  PortAttributes_create_from_string : Py.bytes -> result HBA_PortAttributes;
  PortStatistics_create_from_string : Py.bytes -> result native_statistics;
  FC4Statistics_create_from_string : Py.bytes -> result native_statistics;
  (** [HBA_FcpScsiEntryV2.min_max_sizeof().max] *)
  FcpScsiEntryV2_max_sizeof : nat;
  FcpScsiEntryV2_create_from_string : Py.bytes -> result HBA_FcpScsiEntryV2;
  FCPTargetMappingV2_sizeof : HBA_FCPTargetMappingV2 -> nat;
  FCPTargetMappingV2_write_to_string : HBA_FCPTargetMappingV2 -> result Py.bytes;
  FCPTargetMappingV2_create_from_string : Py.bytes -> result HBA_FCPTargetMappingV2;
  FCPTargetMappingV2_create_empty : HBA_FCPTargetMappingV2;
  UNInt32_create_from_string : Py.bytes -> result nat;
  UNInt64_create_from_string : Py.bytes -> result Z;
  (** [entry.FcId.PortWWN == '']: the comparison of the decoded array
      with the empty [str], which the field type decides. *)
  PortWWN_eq_empty_str : Py.bytes -> bool
}.

Definition handle : Type := Z.

(** The native library.  Every entry point reads and changes the state of
    the outside [world], and either returns or raises; the entry points
    that fill a buffer return its raw contents.
    [HBA_GetFcpTargetMappingV2] receives the buffer the caller prepared and
    leaves its contents, also when it raises. *)
Class CApi (world : Type) : Type := {
  HBA_LoadLibrary : world -> result unit * world;
  HBA_FreeLibrary : world -> result unit * world;
  HBA_GetNumberOfAdapters : world -> result nat * world;
  HBA_GetAdapterName : nat -> world -> result Py.bytes * world;
  HBA_OpenAdapter : Py.bytes -> world -> result handle * world;
  HBA_CloseAdapter : handle -> world -> result unit * world;
  HBA_GetAdapterAttributes : handle -> world -> result Py.bytes * world;
  HBA_GetAdapterPortAttributes : handle -> nat -> world -> result Py.bytes * world;
  HBA_GetDiscoveredPortAttributes :
    handle -> nat -> nat -> world -> result Py.bytes * world;
  HBA_GetPortStatistics : handle -> nat -> world -> result Py.bytes * world;
  HBA_GetFC4Statistics : handle -> Z -> Z -> world -> result Py.bytes * world;
  HBA_GetFcpTargetMappingV2 :
    handle -> Z -> Py.bytes -> world -> (result unit * Py.bytes) * world
}.

(** The calls made to the native library, in the order they are made. *)
Inductive call : Type :=
  | LoadLibrary
  | FreeLibrary
  | GetNumberOfAdapters
  | GetAdapterName (adapter_index : nat)
  | OpenAdapter (adapter_name : Py.bytes)
  | CloseAdapter (h : handle)
  | GetAdapterAttributes (h : handle)
  | GetAdapterPortAttributes (h : handle) (port_index : nat)
  | GetDiscoveredPortAttributes (h : handle) (port_index remote_port_index : nat)
  | GetPortStatistics (h : handle) (port_index : nat)
  | GetFC4Statistics (h : handle) (wwn_buffer : Z) (fc4type : Z)
  | GetFcpTargetMappingV2 (h : handle) (wwn_buffer : Z) (buff : Py.bytes).

(** ** The state monad of the generator *)

Section Monad.
Context {world : Type}.

Record state : Type := { native : world; calls : list call }.

Definition M (A : Type) : Type := state -> result A * state.

Definition ret {A} (a : A) : M A := fun s => (Ok a, s).
Definition raise {A} (e : exn) : M A := fun s => (Raise e, s).
Definition bind {A B} (m : M A) (k : A -> M B) : M B :=
  fun s =>
    match m s with
    | (Ok a, s') => k a s'
    | (Raise e, s') => (Raise e, s')
    end.
Definition lift {A} (r : result A) : M A := fun s => (r, s).

(** [try: m except: handler]; the handler re-raises what it does not
    catch. *)
Definition try_except {A} (m : M A) (handler : exn -> M A) : M A :=
  fun s =>
    match m s with
    | (Ok a, s') => (Ok a, s')
    | (Raise e, s') => handler e s'
    end.

(** [try: m finally: f] *)
Definition try_finally {A} (m : M A) (f : M unit) : M A :=
  fun s =>
    match m s with
    | (r, s') =>
        match f s' with
        | (Ok _, s'') => (r, s'')
        | (Raise e, s'') => (Raise e, s'')
        end
    end.

(** A call of the native library, recorded. *)
Definition native_call {A} (c : call) (f : world -> result A * world) : M A :=
  fun s =>
    let '(r, w) := f (native s) in
    (r, {| native := w; calls := calls s ++ [c] |}).

End Monad.
Arguments state : clear implicits.
Arguments M : clear implicits.

Declare Scope M_scope.
Delimit Scope M_scope with M.
Notation "x <- m ;; k" := (bind m (fun x => k))
  (at level 100, m at next level, k at level 200, right associativity) : M_scope.
Notation "m ;;; k" := (bind m (fun _ => k))
  (at level 100, k at level 200, right associativity) : M_scope.

(** What the module imports from the package above it: the names of the
    canonical counters and the record [PortStatistics()] starts as. *)
Class Package : Type := {
  FC_PORT_STATISTICS : list string;
  PortStatistics_new : PortStatistics
}.

(** ** The statistics merger *)

Section Statistics.
Context {package : Package}.

(** [getattr(record, name)] *)
Definition getattr (record : native_statistics) (name : string) : result Z :=
  match record !! name with
  | Some v => Ok v
  | None => Raise (AttributeError name)
  end.

(** The field of [HBA_PortStatistics] a canonical name stands for. *)
Definition hba_port_stat_name (name : string) : string :=
  (* some names are in different formatting *)
  let alternative_name :=
    Py.replace (Py.replace (Py.replace name "nos" "NOS") "lip" "LIP")
      "crc" "CRC" in
  Py.join (map (fun item => if Py.isupper item then item
                            else Py.capitalize item)
             (Py.split alternative_name "_")).

(** The field of [HBA_FC4Statistics] a canonical name stands for. *)
Definition hba_fcp4_stat_name (name : string) : string :=
  Py.join (map Py.capitalize (Py.split (Py.replace name "fcp_" "") "_")).

Definition _merge_hba_port_stat (hba_port_stats : option native_statistics)
    (port_statistics : PortStatistics) (name : string) : result PortStatistics :=
  let hbaapi_name := hba_port_stat_name name in
  let? v := match hba_port_stats with
            | None => Ok (-1)
            | Some r => getattr r hbaapi_name
            end in
  Ok (<[name := v]> port_statistics).

Definition _merge_hba_fcp4_stat (hba_fc4_stats : option native_statistics)
    (port_statistics : PortStatistics) (name : string) : result PortStatistics :=
  let hbaapi_name := hba_fcp4_stat_name name in
  let? v := match hba_fc4_stats with
            | None => Ok (-1)
            | Some r => getattr r hbaapi_name
            end in
  Ok (<[name := v]> port_statistics).

Fixpoint _merge_statistics_loop (hba_port_stats hba_fc4_stats : option native_statistics)
    (names : list string) (port_statistics : PortStatistics) : result PortStatistics :=
  match names with
  | [] => Ok port_statistics
  | name :: names' =>
      let? port_statistics :=
        if Py.startswith name "fcp_"
        then _merge_hba_fcp4_stat hba_fc4_stats port_statistics name
        else _merge_hba_port_stat hba_port_stats port_statistics name in
      _merge_statistics_loop hba_port_stats hba_fc4_stats names' port_statistics
  end.

(** [_merge_statistics]: the record is updated counter by counter, in
    the order of [FC_PORT_STATISTICS]. *)
Definition _merge_statistics (port_statistics : PortStatistics)
    (hba_port_stats hba_fc4_stats : option native_statistics) : result PortStatistics :=
  _merge_statistics_loop hba_port_stats hba_fc4_stats FC_PORT_STATISTICS
    port_statistics.

End Statistics.

(** ** The generator [HbaApi] *)

(** The output of a generator run to its end: the values yielded, and
    how the run ended. *)
Definition G (world : Type) : Type :=
  state world -> (list Port * result unit) * state world.

Section Generator.
Context {headers : Headers} {host : Host} {decoder : Decoder}
  {package : Package}.
Context {world : Type} {c_api : CApi world}.
Local Open Scope M_scope.

Abbreviation M := (M world).
Abbreviation G := (G world).

Definition g_bind {A} (m : M A) (k : A -> G) : G :=
  fun s =>
    match m s with
    | (Ok a, s') => k a s'
    | (Raise e, s') => (([], Raise e), s')
    end.

Definition g_seq (g1 g2 : G) : G :=
  fun s =>
    match g1 s with
    | ((ys, Ok _), s') =>
        let '((zs, r), s'') := g2 s' in ((ys ++ zs, r), s'')
    | ((ys, Raise e), s') => ((ys, Raise e), s')
    end.

Definition g_yield (p : Port) : G := fun s => (([p], Ok tt), s).
Definition g_return : G := fun s => (([], Ok tt), s).

Definition g_finally (g : G) (f : M unit) : G :=
  fun s =>
    match g s with
    | ((ys, r), s') =>
        match f s' with
        | (Ok _, s'') => ((ys, r), s'')
        | (Raise e, s'') => ((ys, Raise e), s'')
        end
    end.

(** [ctypes.c_buffer(init, size)]: [init] padded with zero bytes to
    [size]; an [init] longer than [size] is refused. *)
Definition c_buffer (init : Py.bytes) (size : nat) : result Py.bytes :=
  if (length init <=? size)%nat
  then Ok (init ++ repeat x00 (size - length init))
  else Raise ValueError.

(** [exception.args[0]] as a status code: only a [RuntimeError] raised
    by the native call carries one. *)
Definition args0 (e : exn) : option Z :=
  match e with
  | RuntimeError return_code => Some return_code
  | _ => None
  end.

Definition _get_adapter_attributes (adapter_handle : handle) : M HBA_AdapterAttributes :=
  buff <- native_call (GetAdapterAttributes adapter_handle)
            (HBA_GetAdapterAttributes adapter_handle) ;;
  lift (AdapterAttributes_create_from_string buff).

Definition _get_port_attributes (adapter_handle : handle) (port_index : nat)
    : M HBA_PortAttributes :=
  buff <- native_call (GetAdapterPortAttributes adapter_handle port_index)
            (HBA_GetAdapterPortAttributes adapter_handle port_index) ;;
  lift (PortAttributes_create_from_string buff).

Definition _get_remote_port_attributes (adapter_handle : handle)
    (port_index remote_port_index : nat) : M HBA_PortAttributes :=
  buff <- native_call
            (GetDiscoveredPortAttributes adapter_handle port_index remote_port_index)
            (HBA_GetDiscoveredPortAttributes adapter_handle port_index
               remote_port_index) ;;
  lift (PortAttributes_create_from_string buff).

Fixpoint _get_remote_ports_loop (adapter_handle : handle) (port_index : nat)
    (indices : list nat) (remote_ports : list Port) : M (list Port) :=
  match indices with
  | [] => ret remote_ports
  | remote_port_index :: indices' =>
      remote_port_attributes <-
        _get_remote_port_attributes adapter_handle port_index remote_port_index ;;
      remote_port <- lift (get_port_object None remote_port_attributes) ;;
      if bool_decide (port_fcid remote_port ∈ WELL_KNOWN_FC_ADDRESSES)
      then _get_remote_ports_loop adapter_handle port_index indices' remote_ports
      else if bool_decide (port_state remote_port = Some "offline")
      then _get_remote_ports_loop adapter_handle port_index indices' remote_ports
      else _get_remote_ports_loop adapter_handle port_index indices'
             (remote_ports ++ [remote_port])
  end.

Definition _get_remote_ports (adapter_handle : handle) (port_index : nat)
    (number_of_remote_ports : nat) : M (list Port) :=
  _get_remote_ports_loop adapter_handle port_index
    (seq 0 number_of_remote_ports) [].

(** The match of [(?P<host>\d+)$] searched in a byte string: the digits
    that end it, or that end it before one final newline. *)
Definition is_digit (b : byte) : bool :=
  ((48 <=? Byte.to_N b) && (Byte.to_N b <=? 57))%N.

Fixpoint take_while {A} (p : A -> bool) (l : list A) : list A :=
  match l with
  | x :: l' => if p x then x :: take_while p l' else []
  | [] => []
  end.

Definition trailing_digits (b : Py.bytes) : Py.bytes :=
  rev (take_while is_digit (rev b)).

Definition search_host (b : Py.bytes) : option Py.bytes :=
  match trailing_digits b with
  | (_ :: _) as digits => Some digits
  | [] =>
      match rev b with
      | x0a :: before =>
          match trailing_digits (rev before) with
          | (_ :: _) as digits => Some digits
          | [] => None
          end
      | _ => None
      end
  end.

(** [int(digits)] on ASCII decimal digits. *)
Definition int10 (digits : Py.bytes) : Z :=
  fold_left (fun acc d => 10 * acc + (Z.of_N (Byte.to_N d) - 48)) digits 0.

Definition _populate_local_port_hct (port : Port) : Port :=
  match os_device_name port with
  | None =>
      (* in case we didn't get the os_device_name *)
      set_hct port (-1, -1, -1)
  | Some name =>
      match search_host (Py.strip x3a name) with
      | None =>
          (* no match *)
          set_hct port (-1, -1, -1)
      | Some host => set_hct port (int10 host, -1, -1)
      end
  end.

Definition _get_local_port_statistics (adapter_handle : handle) (port_index : nat)
    (wwn_buffer : Z) : M PortStatistics :=
  let port_statistics := PortStatistics_new in
  fun s =>
    match native_call (GetPortStatistics adapter_handle port_index)
            (HBA_GetPortStatistics adapter_handle port_index) s with
    | (Raise e, s') =>
        if is_RuntimeError e
        then (* Default QLogic drivers on Windows don't support this
                function - return defaults *)
             (Ok port_statistics, s')
        else (Raise e, s')
    | (Ok buff, s') =>
        (hba_port_stats <- lift (PortStatistics_create_from_string buff) ;;
         hba_fc4_stats <-
           try_except
             (buff <- native_call (GetFC4Statistics adapter_handle wwn_buffer 2)
                        (HBA_GetFC4Statistics adapter_handle wwn_buffer 2) ;;
              stats <- lift (FC4Statistics_create_from_string buff) ;;
              ret (Some stats))
             (fun e => if is_NotImplementedError e then ret None
                       else if is_RuntimeError e then ret None
                       else raise e) ;;
         lift (_merge_statistics port_statistics (Some hba_port_stats)
                 hba_fc4_stats)) s'
    end.

Definition get_target_number (entry : HBA_FcpScsiEntryV2) : result Z :=
  let platform := get_platform_string in
  if Py.contains "solaris" platform || Py.contains "aix" platform
  then
    let? wwn := translate_wwn (Some (FcId_PortWWN (FcId entry))) in
    Py.int16 (_address wwn)
  else Ok (ScsiTargetNumber (ScsiId entry)).

Fixpoint _mappings_to_dict_loop (entries : list HBA_FcpScsiEntryV2)
    (result' : gmap string (Z * Z)) : result (gmap string (Z * Z)) :=
  match entries with
  | [] => Ok result'
  | entry :: entries' =>
      if PortWWN_eq_empty_str (FcId_PortWWN (FcId entry))
      then _mappings_to_dict_loop entries' result'
      else
        let? key := translate_wwn (Some (FcId_PortWWN (FcId entry))) in
        let? target := get_target_number entry in
        let value := (ScsiBusNumber (ScsiId entry), target) in
        _mappings_to_dict_loop entries' (<[_address key := value]> result')
  end.

(** [_mappings_to_dict]: the dict is keyed by [WWN] values, which
    compare by address. *)
Definition _mappings_to_dict (mappings : HBA_FCPTargetMappingV2)
    : result (gmap string (Z * Z)) :=
  _mappings_to_dict_loop (entry mappings) ∅.

Definition _extract_wwn_buffer_from_port_attributes
    (port_attributes : HBA_PortAttributes) : result Z :=
  let wwn_string := PortWWN port_attributes in
  let? v := UNInt64_create_from_string wwn_string in
  Ok (v mod 2 ^ 64).

Definition _build_empty_mappings_struct (number_of_elements : nat)
    : result HBA_FCPTargetMappingV2 :=
  let element_size := FcpScsiEntryV2_max_sizeof in
  let? entry := FcpScsiEntryV2_create_from_string (repeat x00 element_size) in
  Ok {| NumberOfEntries := number_of_elements;
        entry := repeat entry number_of_elements |}.

(** The native mapping call on a prepared buffer: how it ended, and
    the contents of the buffer afterwards. *)
Definition c_api_HBA_GetFcpTargetMappingV2 (adapter_handle : handle)
    (wwn_buffer : Z) (buff : Py.bytes) : M (result unit * Py.bytes) :=
  fun s =>
    let '((r, raw), w) :=
      HBA_GetFcpTargetMappingV2 adapter_handle wwn_buffer buff (native s) in
    (Ok (r, raw),
     {| native := w;
        calls := calls s ++ [GetFcpTargetMappingV2 adapter_handle wwn_buffer buff] |}).

Definition _get_local_port_mappings_count (adapter_handle : handle)
    (wwn_buffer : Z) : M nat :=
  struct <- lift (_build_empty_mappings_struct 0) ;;
  let size := FCPTargetMappingV2_sizeof struct in
  buff <- lift (c_buffer (repeat x00 size) size) ;;
  outcome <- c_api_HBA_GetFcpTargetMappingV2 adapter_handle wwn_buffer buff ;;
  match outcome with
  | (Ok _, _) => ret 0%nat
  | (Raise exception, raw) =>
      if is_RuntimeError exception
      then
        let return_code := args0 exception in
        if bool_decide (return_code = Some HBA_STATUS_ERROR_MORE_DATA)
        then lift (UNInt32_create_from_string raw)
        else ret 0%nat
      else raise exception
  end.

Definition _get_local_port_mappings (adapter_handle : handle) (wwn_buffer : Z)
    : M HBA_FCPTargetMappingV2 :=
  outcome <-
    try_except
      (number_of_entries <- _get_local_port_mappings_count adapter_handle wwn_buffer ;;
       struct <- lift (_build_empty_mappings_struct number_of_entries) ;;
       let size := FCPTargetMappingV2_sizeof struct in
       init <- lift (FCPTargetMappingV2_write_to_string struct) ;;
       buff <- lift (c_buffer init size) ;;
       outcome <- c_api_HBA_GetFcpTargetMappingV2 adapter_handle wwn_buffer buff ;;
       match outcome with
       | (Ok _, raw) => ret (inl raw)
       | (Raise exception, _) => raise exception
       end)
      (fun exception =>
         if is_RuntimeError exception
         then
           let return_code := args0 exception in
           if bool_decide (return_code = Some HBA_STATUS_ERROR_ILLEGAL_WWN)
           then ret (inr FCPTargetMappingV2_create_empty)
           else if bool_decide (return_code = Some HBA_STATUS_ERROR_NOT_SUPPORTED)
           then ret (inr FCPTargetMappingV2_create_empty)
           else if bool_decide (return_code = Some HBA_STATUS_ERROR_MORE_DATA)
           then (* NPIV ports seem to always return this *)
                ret (inr FCPTargetMappingV2_create_empty)
           else if bool_decide (return_code = Some HBA_STATUS_ERROR)
           then (* HPT-1759 hyper-v windows throw error *)
                ret (inr FCPTargetMappingV2_create_empty)
           else raise exception
         else raise exception) ;;
  match outcome with
  | inl raw => lift (FCPTargetMappingV2_create_from_string raw)
  | inr mappings => ret mappings
  end.

(** The [hct] a kept remote port receives in [_get_local_port]. *)
Definition remote_port_hct (port : Port) (port_mappings : gmap string (Z * Z))
    (remote_port : Port) : result (Z * Z * Z) :=
  let platform := get_platform_string in
  let? channel_target :=
    if Py.contains "aix" platform
    then
      let? target := Py.int16 (_address (port_wwn remote_port)) in
      Ok (0, target)
    else
      Ok (default (-1, -1) (port_mappings !! _address (port_wwn remote_port))) in
  Ok ((hct port).1.1, channel_target.1, channel_target.2).

Definition _get_local_port (adapter_handle : handle)
    (adapter_attributes : HBA_AdapterAttributes) (port_index : nat) : M Port :=
  port_attributes <- _get_port_attributes adapter_handle port_index ;;
  port <- lift (get_port_object (Some adapter_attributes) port_attributes) ;;
  let port := _populate_local_port_hct port in
  wwn_buffer <- lift (_extract_wwn_buffer_from_port_attributes port_attributes) ;;
  let number_of_remote_ports := NumberOfDiscoveredPorts port_attributes in
  remote_ports <- _get_remote_ports adapter_handle port_index number_of_remote_ports ;;
  let port := set_discovered_ports port remote_ports in
  port_statistics <- _get_local_port_statistics adapter_handle port_index wwn_buffer ;;
  let port := set_statistics port port_statistics in
  all_port_mappings <- _get_local_port_mappings adapter_handle wwn_buffer ;;
  let port := set_all_port_mappings port (Some all_port_mappings) in
  port_mappings <- lift (_mappings_to_dict all_port_mappings) ;;
  remote_ports <-
    lift (traverse
            (fun remote_port =>
               let? hct := remote_port_hct port port_mappings remote_port in
               Ok (set_hct remote_port hct))
            (discovered_ports port)) ;;
  ret (set_discovered_ports port remote_ports).

(** [with self.hbaapi_adapter(adapter_name) as adapter_handle: body] *)
Definition hbaapi_adapter (adapter_name : Py.bytes) (body : handle -> G) : G :=
  g_bind (native_call (OpenAdapter adapter_name) (HBA_OpenAdapter adapter_name))
    (fun h =>
       g_finally (body h) (native_call (CloseAdapter h) (HBA_CloseAdapter h))).

(** [with self.hbaapi_library(): body] *)
Definition hbaapi_library (body : G) : G :=
  g_bind (native_call LoadLibrary HBA_LoadLibrary)
    (fun _ => g_finally body (native_call FreeLibrary HBA_FreeLibrary)).

Fixpoint _iter_ports_of_adapter (adapter_handle : handle)
    (adapter_attributes : HBA_AdapterAttributes) (indices : list nat) : G :=
  match indices with
  | [] => g_return
  | port_index :: indices' =>
      g_bind (_get_local_port adapter_handle adapter_attributes port_index)
        (fun local_port =>
           g_seq (g_yield local_port)
             (_iter_ports_of_adapter adapter_handle adapter_attributes indices'))
  end.

(** The body of the loop over adapters in [_iter_ports]. *)
Definition _iter_ports_adapter (adapter_name : Py.bytes) : G :=
  hbaapi_adapter adapter_name (fun adapter_handle =>
    fun s =>
      match _get_adapter_attributes adapter_handle s with
      | (Raise e, s') =>
          if is_NotImplementedError e
          then (* because of weird HBAs, like VMWare's
                  "LSI Adapter, SAS 3000 Series" *)
               g_return s'
          else (([], Raise e), s')
      | (Ok adapter_attributes, s') =>
          _iter_ports_of_adapter adapter_handle adapter_attributes
            (seq 0 (NumberOfPorts adapter_attributes)) s'
      end).

(** [for adapter_name in self._iter_adapters(): body]: the name of an
    adapter is fetched when the loop reaches it. *)
Fixpoint _iter_adapters_loop (indices : list nat) (body : Py.bytes -> G) : G :=
  match indices with
  | [] => g_return
  | adapter_index :: indices' =>
      g_bind (native_call (GetAdapterName adapter_index)
                (HBA_GetAdapterName adapter_index))
        (fun adapter_name =>
           g_seq (body adapter_name) (_iter_adapters_loop indices' body))
  end.

Definition _iter_adapters (body : Py.bytes -> G) : G :=
  g_bind (native_call GetNumberOfAdapters HBA_GetNumberOfAdapters)
    (fun n => _iter_adapters_loop (seq 0 n) body).

Definition _iter_ports : G :=
  hbaapi_library (_iter_adapters _iter_ports_adapter).

(** [iter_ports]: every port is yielded without its mapping table. *)
Definition iter_ports : G :=
  fun s =>
    let '((ports, r), s') := _iter_ports s in
    ((map (fun local_port => set_all_port_mappings local_port None) ports, r), s').

(** *** Vocabulary of the statements about the generator *)

(** [[f x for x in l]] in the state monad. *)
Fixpoint traverseM {A B} (f : A -> M B) (l : list A) : M (list B) :=
  match l with
  | [] => ret []
  | x :: l' =>
      y <- f x ;;
      ys <- traverseM f l' ;;
      ret (y :: ys)
  end.

(** The remote port discovered at one index: its attributes fetched
    and normalized. *)
Definition discovered_port (adapter_handle : handle)
    (port_index remote_port_index : nat) : M Port :=
  remote_port_attributes <-
    _get_remote_port_attributes adapter_handle port_index remote_port_index ;;
  lift (get_port_object None remote_port_attributes).

(** The buffer of the zero-capacity probe. *)
Definition probe_buffer : result Py.bytes :=
  let? struct := _build_empty_mappings_struct 0 in
  let size := FCPTargetMappingV2_sizeof struct in
  c_buffer (repeat x00 size) size.

(** The buffer of the request sized for [number_of_entries] rows: the
    serialized empty skeleton. *)
Definition sized_buffer (number_of_entries : nat) : result Py.bytes :=
  let? struct := _build_empty_mappings_struct number_of_entries in
  let? init := FCPTargetMappingV2_write_to_string struct in
  c_buffer init (FCPTargetMappingV2_sizeof struct).

(** The state after a native call [c] that left the world [w]. *)
Definition after_call (s : state world) (c : call) (w : world) : state world :=
  {| native := w; calls := calls s ++ [c] |}.

(** The four status codes [_get_local_port_mappings] recovers from. *)
Definition mapping_unavailable_codes : list Z :=
  [HBA_STATUS_ERROR_ILLEGAL_WWN; HBA_STATUS_ERROR_NOT_SUPPORTED;
   HBA_STATUS_ERROR_MORE_DATA; HBA_STATUS_ERROR].

End Generator.

(** ** A concrete host

    One instance of every collaborator, on which the functions above can
    be run: the constants of the FC-HBA header, a small byte layout for
    the records, and a native library with two adapters. *)

Module Example.

#[export] Instance headers : Headers := {|
  HBA_PORTSPEED_UNKNOWN := 0;
  HBA_PORTSPEED_1GBIT := 1;
  HBA_PORTSPEED_2GBIT := 2;
  HBA_PORTSPEED_10GBIT := 4;
  HBA_PORTSPEED_4GBIT := 8;
  HBA_PORTSPEED_8GBIT := 16;
  HBA_PORTSPEED_16GBIT := 32;
  HBA_PORTSPEED_32GBIT := 64;
  HBA_PORTSPEED_20GBIT := 128;
  HBA_PORTSPEED_40GBIT := 256;
  HBA_PORTSPEED_NOT_NEGOTIATED := 32768;
  HBA_PORTSTATE_UNKNOWN := 1;
  HBA_PORTSTATE_ONLINE := 2;
  HBA_PORTSTATE_OFFLINE := 3;
  HBA_PORTSTATE_BYPASSED := 4;
  HBA_PORTSTATE_DIAGNOSTICS := 5;
  HBA_PORTSTATE_LINKDOWN := 6;
  HBA_PORTSTATE_ERROR := 7;
  HBA_PORTSTATE_LOOPBACK := 8;
  HBA_PORTTYPE :=
    <["1" := "Unknown"]> (<["2" := "Other"]> (<["3" := "Not present"]>
    (<["5" := "N_Port"]> (<["6" := "NL_Port"]> (<["7" := "FL_Port"]>
    (<["8" := "F_Port"]> (<["9" := "E_Port"]> (<["10" := "G_Port"]>
    (<["20" := "L_Port"]> (<["21" := "Point to point"]> ∅))))))))));
  HBA_STATUS_ERROR := 1;
  HBA_STATUS_ERROR_NOT_SUPPORTED := 2;
  HBA_STATUS_ERROR_ILLEGAL_WWN := 5;
  HBA_STATUS_ERROR_MORE_DATA := 7
|}.

#[export] Instance host : Host := {|
  PY3 := true;
  get_platform_string := "windows-server2012-x64"
|}.

Definition aix_host : Host := {|
  PY3 := true;
  get_platform_string := "aix-7.1-powerpc"
|}.

#[export] Instance package : Package := {|
  FC_PORT_STATISTICS := [
    "dumped_frames"; "error_frames"; "fcp_control_requests";
    "fcp_input_megabytes"; "fcp_input_requests"; "fcp_output_megabytes";
    "fcp_output_requests"; "invalid_crc_count"; "invalid_tx_word_count";
    "link_failure_count"; "lip_count"; "loss_of_signal_count";
    "loss_of_sync_count"; "nos_count"; "prim_seq_protocol_err_count";
    "rx_frames"; "rx_words"; "seconds_since_last_reset"; "tx_frames";
    "tx_words" ];
  PortStatistics_new := ∅
|}.

Definition remote_wwn : Py.bytes := [x50; x00; x00; x00; xc9; x00; x00; x2a].
Definition local_wwn : Py.bytes := [x10; x00; x00; x00; xc9; x00; x00; x01].

Definition port_attributes (wwn : Py.bytes) (fcid state : Z) (name : Py.bytes)
    (discovered : nat) : HBA_PortAttributes := {|
  pa_NodeWWN := Some wwn;
  PortWWN := wwn;
  PortFcId := fcid;
  PortType := 5;
  PortState := state;
  PortSpeed := 16;
  PortSymbolicName := [];
  OSDeviceName := name;
  PortSuggestedSpeed := 24;
  PortMaxFrameSize := Some 2048;
  FabricName := Some wwn;
  NumberOfDiscoveredPorts := discovered
|}.

(** The local port, an online remote port, a directory server and an
    offline remote port; a record is named in a buffer by its tag. *)
Definition decode_port_attributes (raw : Py.bytes) : result HBA_PortAttributes :=
  match raw with
  | [x00] =>
      Ok (port_attributes local_wwn 0x010100 2
            [x53; x63; x73; x69; x33; x3a; x00; x00] 3)
  | [x01] => Ok (port_attributes remote_wwn 0x010200 2 [] 0)
  | [x02] => Ok (port_attributes [x20; x00; x00; x00; x00; x00; x00; xfc]
                   0xFFFFFC 2 [] 0)
  | [x03] => Ok (port_attributes [x50; x00; x00; x00; xc9; x00; x00; x2b]
                   0x010300 3 [] 0)
  | _ => Raise ValueError
  end.

Definition adapter_attributes : HBA_AdapterAttributes := {|
  aa_NodeWWN := Some local_wwn;
  DriverName := Some [x71; x6c; x00; x00];
  DriverVersion := None;
  Manufacturer := None;
  SerialNumber := None;
  Model := None;
  ModelDescription := None;
  HardwareVersion := None;
  FirmwareVersion := None;
  OptionROMVersion := None;
  NumberOfPorts := 1
|}.

(** Little-endian integers. *)
Definition le_value (raw : Py.bytes) : Z :=
  fold_right (fun b acc => Z.of_N (Byte.to_N b) + 256 * acc) 0 raw.

(** A row is the eight bytes of the peer's WWN, the bus number and the
    target number. *)
Definition decode_entry (raw : Py.bytes) : result HBA_FcpScsiEntryV2 :=
  match raw with
  | [w0; w1; w2; w3; w4; w5; w6; w7; bus; target] =>
      Ok {| ScsiId := {| ScsiOSDeviceName := "";
                         ScsiBusNumber := Z.of_N (Byte.to_N bus);
                         ScsiTargetNumber := Z.of_N (Byte.to_N target);
                         ScsiOSLun := 0 |};
            FcId := {| FcId_PortWWN := [w0; w1; w2; w3; w4; w5; w6; w7] |} |}
  | _ => Raise ValueError
  end.

Definition encode_entry (e : HBA_FcpScsiEntryV2) : Py.bytes :=
  FcId_PortWWN (FcId e) ++
  [default x00 (Byte.of_N (Z.to_N (ScsiBusNumber (ScsiId e))));
   default x00 (Byte.of_N (Z.to_N (ScsiTargetNumber (ScsiId e))))].

Fixpoint decode_entries (n : nat) (raw : Py.bytes) : result (list HBA_FcpScsiEntryV2) :=
  match n with
  | O => Ok []
  | S n' =>
      let? e := decode_entry (take 10 raw) in
      let? es := decode_entries n' (drop 10 raw) in
      Ok (e :: es)
  end.

Definition decode_mappings (raw : Py.bytes) : result HBA_FCPTargetMappingV2 :=
  let n := Z.to_nat (le_value (take 4 raw)) in
  let? es := decode_entries n (drop 4 raw) in
  Ok {| NumberOfEntries := n; entry := es |}.

Definition encode_mappings (m : HBA_FCPTargetMappingV2) : Py.bytes :=
  [default x00 (Byte.of_N (N.of_nat (NumberOfEntries m))); x00; x00; x00] ++
  concat (map encode_entry (entry m)).

#[export] Instance decoder : Decoder := {|
  AdapterAttributes_create_from_string := fun _ => Ok adapter_attributes;
  PortAttributes_create_from_string := decode_port_attributes;
  PortStatistics_create_from_string := fun _ => Ok ∅;
  FC4Statistics_create_from_string := fun _ => Ok ∅;
  FcpScsiEntryV2_max_sizeof := 10;
  FcpScsiEntryV2_create_from_string := decode_entry;
  FCPTargetMappingV2_sizeof := fun m => (4 + 10 * length (entry m))%nat;
  FCPTargetMappingV2_write_to_string := fun m => Ok (encode_mappings m);
  FCPTargetMappingV2_create_from_string := decode_mappings;
  FCPTargetMappingV2_create_empty := {| NumberOfEntries := 0; entry := [] |};
  UNInt32_create_from_string := fun raw => Ok (Z.to_nat (le_value (take 4 raw)));
  UNInt64_create_from_string := fun raw => Ok (le_value (take 8 raw));
  PortWWN_eq_empty_str := fun _ => false
|}.

(** The table the native library holds for the local port: one row,
    the online remote port at bus 0, target 3. *)
Definition native_table : Py.bytes :=
  [x01; x00; x00; x00] ++ remote_wwn ++ [x00; x03].

(** The native library; its state counts the mapping calls made.
    Adapter 0 does not implement attribute reporting; adapter 1 has one
    port.  The handle of an adapter is its index, and the mapping call
    answers by handle: on handle 1 it follows the two-phase protocol, on
    handle 2 the probe succeeds and the sized call reports an illegal
    WWN, on handle 3 the probe reports "not supported" and the sized
    call an invalid handle. *)
#[export] Instance c_api : CApi nat := {|
  HBA_LoadLibrary := fun w => (Ok tt, w);
  HBA_FreeLibrary := fun w => (Ok tt, w);
  HBA_GetNumberOfAdapters := fun w => (Ok 2%nat, w);
  HBA_GetAdapterName := fun i w =>
    (Ok [default x00 (Byte.of_N (N.of_nat i))], w);
  HBA_OpenAdapter := fun name w => (Ok (le_value name), w);
  HBA_CloseAdapter := fun _ w => (Ok tt, w);
  HBA_GetAdapterAttributes := fun h w =>
    (if h =? 0 then Raise NotImplementedError else Ok [], w);
  HBA_GetAdapterPortAttributes := fun _ _ w => (Ok [x00], w);
  HBA_GetDiscoveredPortAttributes := fun _ _ j w =>
    (Ok [default x00 (Byte.of_N (N.of_nat (S j)))], w);
  HBA_GetPortStatistics := fun _ _ w => (Raise (RuntimeError 2), w);
  HBA_GetFC4Statistics := fun _ _ _ w => (Raise NotImplementedError, w);
  HBA_GetFcpTargetMappingV2 := fun h _ buff w =>
    if h =? 1 then
      if (length buff <? length native_table)%nat
      then ((Raise (RuntimeError 7), [x01; x00; x00; x00]), S w)
      else ((Ok tt, native_table), S w)
    else if h =? 2 then
      match w with
      | O => ((Ok tt, buff), S w)
      | _ => ((Raise (RuntimeError 5), buff), S w)
      end
    else
      match w with
      | O => ((Raise (RuntimeError 2), buff), S w)
      | _ => ((Raise (RuntimeError 3), buff), S w)
      end
|}.

Definition start : state nat := {| native := O; calls := [] |}.

(** A decoded [HBA_PortStatistics]. *)
Definition link_statistics : native_statistics :=
  list_to_map [
    ("SecondsSinceLastReset", 86400); ("TxFrames", 1200); ("TxWords", 48000);
    ("RxFrames", 1100); ("RxWords", 44000); ("LIPCount", 2); ("NOSCount", 1);
    ("ErrorFrames", 0); ("DumpedFrames", 0); ("LinkFailureCount", 4);
    ("LossOfSyncCount", 5); ("LossOfSignalCount", 6);
    ("PrimSeqProtocolErrCount", 0); ("InvalidTxWordCount", 9);
    ("InvalidCRCCount", 3) ].

End Example.

(** ** Vocabulary of the statements *)

Section Vocabulary.
Context {headers : Headers}.

(** The codes [translate_port_state] and [translate_port_speed] know. *)
Definition port_state_codes : list Z :=
  [HBA_PORTSTATE_UNKNOWN; HBA_PORTSTATE_ONLINE; HBA_PORTSTATE_OFFLINE;
   HBA_PORTSTATE_BYPASSED; HBA_PORTSTATE_DIAGNOSTICS; HBA_PORTSTATE_LINKDOWN;
   HBA_PORTSTATE_ERROR; HBA_PORTSTATE_LOOPBACK].

Definition port_speed_codes : list Z :=
  [HBA_PORTSPEED_UNKNOWN; HBA_PORTSPEED_1GBIT; HBA_PORTSPEED_2GBIT;
   HBA_PORTSPEED_10GBIT; HBA_PORTSPEED_4GBIT; HBA_PORTSPEED_8GBIT;
   HBA_PORTSPEED_16GBIT; HBA_PORTSPEED_32GBIT; HBA_PORTSPEED_20GBIT;
   HBA_PORTSPEED_40GBIT; HBA_PORTSPEED_NOT_NEGOTIATED].

(** The bit flags [translate_port_supported_speeds] knows, with the
    speed each stands for. *)
Definition supported_speed_flags : list (Z * Z) :=
  [(HBA_PORTSPEED_1GBIT, 1); (HBA_PORTSPEED_2GBIT, 2);
   (HBA_PORTSPEED_10GBIT, 10); (HBA_PORTSPEED_4GBIT, 4);
   (HBA_PORTSPEED_8GBIT, 8); (HBA_PORTSPEED_16GBIT, 16);
   (HBA_PORTSPEED_32GBIT, 32); (HBA_PORTSPEED_20GBIT, 20);
   (HBA_PORTSPEED_40GBIT, 40)].

(** The keys of the translation table, highest first. *)
Definition supported_speed_keys : list Z :=
  merge_sort Z.ge (map_to_list supported_speeds_translation).*1.

(** A flag that is one bit. *)
Definition single_bit (k : Z) : Prop := exists e, 0 <= e /\ k = 2 ^ e.

(** The flags are nine different bits. *)
Definition flags_are_distinct_bits : Prop :=
  NoDup supported_speed_flags.*1 /\
  Forall single_bit supported_speed_flags.*1.

(** The speed a flag value stands for: that of the last pair of the
    table with this value. *)
Definition speed_of_flag (key : Z) : Z :=
  match last (filter (fun kv : Z * Z => kv.1 = key) supported_speed_flags) with
  | Some kv => kv.2
  | None => 0
  end.

(** One step of the walk over the flags as the specification words it: a
    flag present in what is left of the mask has its speed appended and is
    subtracted from the mask; any other flag changes nothing. *)
Definition speeds_step (state : Z * list Z) (key : Z) : Z * list Z :=
  if decide (Z.land key state.1 <> 0)
  then (state.1 - key, state.2 ++ [speed_of_flag key])
  else state.

(** The speeds collected by the walk over [keys], from a mask. *)
Definition speeds_walk (keys : list Z) (source : Z) : list Z :=
  (fold_left speeds_step keys (source, [])).2.

(** A remote port that [_get_remote_ports] keeps. *)
Definition kept (remote_port : Port) : bool :=
  negb (bool_decide (port_fcid remote_port ∈ WELL_KNOWN_FC_ADDRESSES)) &&
  negb (bool_decide (port_state remote_port = Some "offline")).

End Vocabulary.

(** What [_merge_statistics] reads for one canonical counter. *)
Definition counter_source (hba_port_stats hba_fc4_stats : option native_statistics)
    (name : string) : result Z :=
  if Py.startswith name "fcp_"
  then match hba_fc4_stats with
       | None => Ok (-1)
       | Some r => getattr r (hba_fcp4_stat_name name)
       end
  else match hba_port_stats with
       | None => Ok (-1)
       | Some r => getattr r (hba_port_stat_name name)
       end.

(** The number a byte string is read as, big end first. *)
Definition big_endian (source : Py.bytes) : Z :=
  fold_left (fun acc b => 256 * acc + Z.of_N (Byte.to_N b)) source 0.

(** A port record whose [FabricName] the native library left out. *)
Definition port_attributes_without_fabric_name : HBA_PortAttributes :=
  {| pa_NodeWWN := Some Example.remote_wwn;
     PortWWN := Example.remote_wwn;
     PortFcId := 0x010200;
     PortType := 5;
     PortState := 2;
     PortSpeed := 16;
     PortSymbolicName := [];
     OSDeviceName := [];
     PortSuggestedSpeed := 24;
     PortMaxFrameSize := None;
     FabricName := None;
     NumberOfDiscoveredPorts := 0 |}.

(** ** The rest of the module *)

(** How resolving the native entry point, [c_api.HBA_GetVersion._get_function()],
    ends when it is attempted: it returns, raises [OSError], or raises
    something else. *)
Inductive get_function_outcome : Type :=
  | Resolved
  | RaisesOSError
  | RaisesOther (e : exn).

(** A row of [iter_port_mappings]:
    [(device_name, host_wwn, target_wwn, lun)]. *)
Definition mapping_row : Type := string * WWN * WWN * Z.

Section Rest.
Context {host : Host} {decoder : Decoder}.

(** [HbaApi.is_available]; [split] never returns an empty list, so its
    first word exists. *)
Definition is_available (get_function : get_function_outcome) : result bool :=
  if negb (bool_decide (default "" (head (Py.split get_platform_string "-"))
                        ∈ ["windows"; "solaris"; "aix"]))
  then Ok false
  else
    match get_function with
    | Resolved => Ok true
    | RaisesOSError => Ok false
    | RaisesOther e => Raise e
    end.

(** The inner loop of [iter_port_mappings]: the rows yielded for the
    mapping entries of one local port. *)
Fixpoint iter_port_mappings_rows (host_wwn : WWN)
    (entries : list HBA_FcpScsiEntryV2) : result (list mapping_row) :=
  match entries with
  | [] => Ok []
  | entry :: entries' =>
      if PortWWN_eq_empty_str (FcId_PortWWN (FcId entry))
      then iter_port_mappings_rows host_wwn entries'
      else
        let? target_wwn := translate_wwn (Some (FcId_PortWWN (FcId entry))) in
        let device_name :=
          default "" (head (Py.split (ScsiOSDeviceName (ScsiId entry)) "000")) in
        let lun := ScsiOSLun (ScsiId entry) in
        let? rows := iter_port_mappings_rows host_wwn entries' in
        Ok ((device_name, host_wwn, target_wwn, lun) :: rows)
  end.

(** The body of the outer loop of [iter_port_mappings] for one local port
    of [_iter_ports]; a port without [all_port_mappings] has no such
    attribute. *)
Definition iter_port_mappings_of_port (local_port : Port) : result (list mapping_row) :=
  match all_port_mappings local_port with
  | None => Raise (AttributeError "all_port_mappings")
  | Some mappings =>
      iter_port_mappings_rows (port_wwn local_port) (entry mappings)
  end.

(** *** Vocabulary of the further statements *)

(** The address of the [WWN] that [translate_wwn] makes of a byte array. *)
Definition wwn_address (source : Py.bytes) : string :=
  Py.hexlify
    (if (if PY3 then true else negb (bool_decide (source = [])))
     then source else repeat x00 8).

(** The rows of a table [_mappings_to_dict] and [iter_port_mappings] read:
    those whose WWN does not compare equal to ['']. *)
Definition mapped_entries (entries : list HBA_FcpScsiEntryV2)
    : list HBA_FcpScsiEntryV2 :=
  List.filter (fun entry => negb (PortWWN_eq_empty_str (FcId_PortWWN (FcId entry))))
    entries.

End Rest.

(** The text of [s] before its first [sep], all of [s] when it has none. *)
Fixpoint first_word (sep : ascii) (s : string) : string :=
  match s with
  | EmptyString => EmptyString
  | String c s' =>
      if Ascii.eqb c sep then EmptyString else String c (first_word sep s')
  end.

(** What holds of a local port that a scan yields: its [hct] is a host
    number, or -1, with channel and target -1; its mapping table is
    attached; and its discovered ports are kept ports that carry its host
    number and are themselves never expanded. *)
Definition scanned_port_ok (port : Port) : Prop :=
  exists host_number,
    hct port = (host_number, -1, -1) /\
    (host_number = -1 \/ 0 <= host_number) /\
    is_Some (all_port_mappings port) /\
    Forall (fun remote_port =>
              kept remote_port = true /\
              (hct remote_port).1.1 = host_number /\
              discovered_ports remote_port = [] /\
              all_port_mappings remote_port = None)
      (discovered_ports port).

(** The speeds [translate_port_speed] can answer. *)
Definition port_speed_values : list Z := [0; 1; 2; 10; 4; 8; 16; 32; 20; 40].

(** The speeds [translate_port_supported_speeds] can list. *)
Definition supported_speed_values : list Z := [1; 2; 10; 4; 8; 16; 32; 20; 40].

(** The native calls that ask about the adapter open under
    [adapter_handle]: the six queries, made on this handle.  The others
    load or free the library, enumerate, open or close, or ask about
    another handle. *)
Definition is_query_of (adapter_handle : handle) (c : call) : bool :=
  match c with
  | GetAdapterAttributes h | GetAdapterPortAttributes h _
  | GetDiscoveredPortAttributes h _ _ | GetPortStatistics h _
  | GetFC4Statistics h _ _ | GetFcpTargetMappingV2 h _ _ =>
      bool_decide (h = adapter_handle)
  | _ => false
  end.

(** The native calls made between loading and freeing the library. *)
Definition is_adapter_call (c : call) : bool :=
  match c with
  | LoadLibrary | FreeLibrary => false
  | _ => true
  end.

Section Emits.
Context {world : Type}.

(** A computation that only adds calls satisfying [P] to the trace. *)
Definition emits (P : call -> bool) {A} (m : M world A) : Prop :=
  forall s, exists l, calls (m s).2 = calls s ++ l /\ forallb P l = true.

(** The same for a generator run to its end. *)
Definition emitsG (P : call -> bool) (g : G world) : Prop :=
  forall s, exists l, calls (g s).2 = calls s ++ l /\ forallb P l = true.

(** A generator all of whose yielded ports satisfy [P]. *)
Definition yields_only (P : Port -> Prop) (g : G world) : Prop :=
  forall s, Forall P (g s).1.1.

End Emits.

(** A port as [get_port_object] makes it of the local port record of
    [Example], before [_get_local_port] fills it in. *)
Definition example_port : Port :=
  {| node_wwn := {| _address := "10000000c9000001" |};
     port_wwn := {| _address := "10000000c9000001" |};
     port_fcid := 0x010100;
     port_type := "N_Port";
     port_state := Some "online";
     port_speed := 8;
     port_symbolic_name := [];
     os_device_name := Some [x53; x63; x73; x69; x33; x3a];
     port_supported_speeds := [4; 8];
     port_max_frame_size := Some 2048;
     fabric_name := {| _address := "10000000c9000001" |};
     driver_name := [x71; x6c];
     driver_version := [];
     manufacturer := [];
     serial_number := [];
     model := [];
     model_description := [];
     hardware_version := [];
     firmware_version := [];
     option_rom_version := [];
     hct := (-1, -1, -1);
     discovered_ports := [];
     statistics := ∅;
     all_port_mappings := None |}.

(** A mapping table of three rows; the first and the last are of the
    same peer. *)
Definition example_table : HBA_FCPTargetMappingV2 :=
  {| NumberOfEntries := 3;
     entry :=
       [ {| ScsiId := {| ScsiOSDeviceName := String "d" (String "0" (String "000" "pad"));
                         ScsiBusNumber := 0; ScsiTargetNumber := 3;
                         ScsiOSLun := 0 |};
            FcId := {| FcId_PortWWN := Example.remote_wwn |} |};
         {| ScsiId := {| ScsiOSDeviceName := "d1"; ScsiBusNumber := 0;
                         ScsiTargetNumber := 4; ScsiOSLun := 1 |};
            FcId := {| FcId_PortWWN := Example.local_wwn |} |};
         {| ScsiId := {| ScsiOSDeviceName := "d2"; ScsiBusNumber := 1;
                         ScsiTargetNumber := 7; ScsiOSLun := 2 |};
            FcId := {| FcId_PortWWN := Example.remote_wwn |} |} ] |}.

(** A header whose 2 Gbit flag shares a bit with the 1 Gbit flag. *)
Module OverlapExample.

Definition headers : Headers := {|
  HBA_PORTSPEED_UNKNOWN := 0;
  HBA_PORTSPEED_1GBIT := 1;
  HBA_PORTSPEED_2GBIT := 3;
  HBA_PORTSPEED_10GBIT := 4;
  HBA_PORTSPEED_4GBIT := 8;
  HBA_PORTSPEED_8GBIT := 16;
  HBA_PORTSPEED_16GBIT := 32;
  HBA_PORTSPEED_32GBIT := 64;
  HBA_PORTSPEED_20GBIT := 128;
  HBA_PORTSPEED_40GBIT := 256;
  HBA_PORTSPEED_NOT_NEGOTIATED := 32768;
  HBA_PORTSTATE_UNKNOWN := 1;
  HBA_PORTSTATE_ONLINE := 2;
  HBA_PORTSTATE_OFFLINE := 3;
  HBA_PORTSTATE_BYPASSED := 4;
  HBA_PORTSTATE_DIAGNOSTICS := 5;
  HBA_PORTSTATE_LINKDOWN := 6;
  HBA_PORTSTATE_ERROR := 7;
  HBA_PORTSTATE_LOOPBACK := 8;
  HBA_PORTTYPE := HBA_PORTTYPE (Headers := Example.headers);
  HBA_STATUS_ERROR := 1;
  HBA_STATUS_ERROR_NOT_SUPPORTED := 2;
  HBA_STATUS_ERROR_ILLEGAL_WWN := 5;
  HBA_STATUS_ERROR_MORE_DATA := 7
|}.

End OverlapExample.

(** A host like that of [Example] whose first adapter fails to report
    its attributes with the generic error code. *)
Module FailingExample.

Definition c_api : CApi nat := {|
  HBA_LoadLibrary := HBA_LoadLibrary (CApi := Example.c_api);
  HBA_FreeLibrary := HBA_FreeLibrary (CApi := Example.c_api);
  HBA_GetNumberOfAdapters := HBA_GetNumberOfAdapters (CApi := Example.c_api);
  HBA_GetAdapterName := HBA_GetAdapterName (CApi := Example.c_api);
  HBA_OpenAdapter := HBA_OpenAdapter (CApi := Example.c_api);
  HBA_CloseAdapter := HBA_CloseAdapter (CApi := Example.c_api);
  HBA_GetAdapterAttributes := fun h w =>
    (if h =? 0 then Raise (RuntimeError 1) else Ok [], w);
  HBA_GetAdapterPortAttributes :=
    HBA_GetAdapterPortAttributes (CApi := Example.c_api);
  HBA_GetDiscoveredPortAttributes :=
    HBA_GetDiscoveredPortAttributes (CApi := Example.c_api);
  HBA_GetPortStatistics := HBA_GetPortStatistics (CApi := Example.c_api);
  HBA_GetFC4Statistics := HBA_GetFC4Statistics (CApi := Example.c_api);
  HBA_GetFcpTargetMappingV2 := HBA_GetFcpTargetMappingV2 (CApi := Example.c_api)
|}.

End FailingExample.

(** A host like that of [Example] whose driver reports link-level
    statistics, and no protocol-level ones. *)
Module StatisticsExample.

Definition decoder : Decoder := {|
  AdapterAttributes_create_from_string :=
    AdapterAttributes_create_from_string (Decoder := Example.decoder);
  PortAttributes_create_from_string :=
    PortAttributes_create_from_string (Decoder := Example.decoder);
  PortStatistics_create_from_string := fun _ => Ok Example.link_statistics;
  FC4Statistics_create_from_string :=
    FC4Statistics_create_from_string (Decoder := Example.decoder);
  FcpScsiEntryV2_max_sizeof := FcpScsiEntryV2_max_sizeof (Decoder := Example.decoder);
  FcpScsiEntryV2_create_from_string :=
    FcpScsiEntryV2_create_from_string (Decoder := Example.decoder);
  FCPTargetMappingV2_sizeof := FCPTargetMappingV2_sizeof (Decoder := Example.decoder);
  FCPTargetMappingV2_write_to_string :=
    FCPTargetMappingV2_write_to_string (Decoder := Example.decoder);
  FCPTargetMappingV2_create_from_string :=
    FCPTargetMappingV2_create_from_string (Decoder := Example.decoder);
  FCPTargetMappingV2_create_empty :=
    FCPTargetMappingV2_create_empty (Decoder := Example.decoder);
  UNInt32_create_from_string := UNInt32_create_from_string (Decoder := Example.decoder);
  UNInt64_create_from_string := UNInt64_create_from_string (Decoder := Example.decoder);
  PortWWN_eq_empty_str := PortWWN_eq_empty_str (Decoder := Example.decoder)
|}.

Definition c_api : CApi nat := {|
  HBA_LoadLibrary := HBA_LoadLibrary (CApi := Example.c_api);
  HBA_FreeLibrary := HBA_FreeLibrary (CApi := Example.c_api);
  HBA_GetNumberOfAdapters := HBA_GetNumberOfAdapters (CApi := Example.c_api);
  HBA_GetAdapterName := HBA_GetAdapterName (CApi := Example.c_api);
  HBA_OpenAdapter := HBA_OpenAdapter (CApi := Example.c_api);
  HBA_CloseAdapter := HBA_CloseAdapter (CApi := Example.c_api);
  HBA_GetAdapterAttributes := HBA_GetAdapterAttributes (CApi := Example.c_api);
  HBA_GetAdapterPortAttributes :=
    HBA_GetAdapterPortAttributes (CApi := Example.c_api);
  HBA_GetDiscoveredPortAttributes :=
    HBA_GetDiscoveredPortAttributes (CApi := Example.c_api);
  HBA_GetPortStatistics := fun _ _ w => (Ok [], w);
  HBA_GetFC4Statistics := HBA_GetFC4Statistics (CApi := Example.c_api);
  HBA_GetFcpTargetMappingV2 := HBA_GetFcpTargetMappingV2 (CApi := Example.c_api)
|}.

End StatisticsExample.

(** * Properties *)

(** ** Dict literals *)

Lemma dict_of_items_snoc {V} (items : list (Z * V)) (k : Z) (v : V) :
  Py.dict_of_items (items ++ [(k, v)]) = <[k := v]> (Py.dict_of_items items).
Proof. unfold Py.dict_of_items. by rewrite fold_left_app. Qed.

Lemma dict_of_items_lookup_None {V} (items : list (Z * V)) (k : Z) :
  Py.dict_of_items items !! k = None <-> k ∉ items.*1.
Proof.
  induction items as [|[k' v'] items IH] using rev_ind.
  - split; [|intros _; apply lookup_empty].
    intros _ Hin. by apply elem_of_nil in Hin.
  - rewrite dict_of_items_snoc, lookup_insert_None, IH, fmap_app.
    simpl. rewrite not_elem_of_app, not_elem_of_cons, elem_of_nil.
    split; [intros [? ?]|intros [? [? _]]]; repeat split; auto.
Qed.

Lemma dict_of_items_lookup_last {V} (items : list (Z * V)) (k : Z) (v : V) :
  Py.dict_of_items (items ++ [(k, v)]) !! k = Some v.
Proof. rewrite dict_of_items_snoc. apply lookup_insert_eq. Qed.

Lemma dict_of_items_dom {V} (items : list (Z * V)) (k : Z) :
  is_Some (Py.dict_of_items items !! k) <-> k ∈ items.*1.
Proof.
  rewrite <- not_eq_None_Some, dict_of_items_lookup_None.
  split; [apply dec_stable | auto].
Qed.

(** ** Enumerated attributes *)

Section EnumProperties.
Context {headers : Headers}.

Lemma translate_port_state_KeyError (source : Z) :
  translate_port_state source = Raise KeyError <-> source ∉ port_state_codes.
Proof.
  unfold translate_port_state.
  match goal with |- context [Py.dict_of_items ?l] => set (items := l) end.
  change port_state_codes with (items.*1).
  rewrite <- dict_of_items_lookup_None.
  destruct (Py.dict_of_items items !! source); split; congruence.
Qed.

Lemma translate_port_speed_unrecognized (source : Z) :
  source ∉ port_speed_codes -> translate_port_speed source = 0.
Proof.
  unfold translate_port_speed.
  match goal with |- context [Py.dict_of_items ?l] => set (items := l) end.
  change port_speed_codes with (items.*1).
  rewrite <- dict_of_items_lookup_None. by intros ->.
Qed.

Lemma translate_port_speed_not_negotiated :
  translate_port_speed HBA_PORTSPEED_NOT_NEGOTIATED = 0.
Proof.
  unfold translate_port_speed.
  match goal with
  | |- context [Py.dict_of_items (?a :: ?b :: ?c :: ?d :: ?e :: ?f :: ?g
                                    :: ?h :: ?i :: ?j :: [?k])] =>
      change (a :: b :: c :: d :: e :: f :: g :: h :: i :: j :: [k])
        with ([a; b; c; d; e; f; g; h; i; j] ++ [k])
  end.
  by rewrite dict_of_items_lookup_last.
Qed.

Lemma translate_port_type_lookup (number : Z) :
  translate_port_type number =
    match HBA_PORTTYPE !! pretty number with
    | Some v => Ok v
    | None => Raise KeyError
    end.
Proof. reflexivity. Qed.

End EnumProperties.

(** C8, as the code has it: a [port_state] code outside the table raises
    [KeyError] and a code inside it translates; [translate_port_speed] gives
    0 for the "not negotiated" code and for every code outside its table;
    [translate_port_type] adds no default to the lookup of [str(number)] in
    [HBA_PORTTYPE]: it returns the entry when there is one and raises
    [KeyError] when there is none. *)
Theorem C8_enum_translations {headers : Headers} (source : Z) :
  (source ∉ port_state_codes -> translate_port_state source = Raise KeyError) /\
  (source ∈ port_state_codes -> exists v, translate_port_state source = Ok v) /\
  translate_port_speed HBA_PORTSPEED_NOT_NEGOTIATED = 0 /\
  (source ∉ port_speed_codes -> translate_port_speed source = 0) /\
  (HBA_PORTTYPE !! pretty source = None ->
   translate_port_type source = Raise KeyError) /\
  (forall v, HBA_PORTTYPE !! pretty source = Some v ->
   translate_port_type source = Ok v).
Proof.
  repeat split.
  - apply translate_port_state_KeyError.
  - intros Hin.
    destruct (translate_port_state source) as [v|e] eqn:E; [by exists v|].
    assert (e = KeyError) as ->.
    { unfold translate_port_state in E.
      destruct (_ !! source); congruence. }
    by apply translate_port_state_KeyError in E.
  - apply translate_port_speed_not_negotiated.
  - apply translate_port_speed_unrecognized.
  - intros E. by rewrite translate_port_type_lookup, E.
  - intros v E. by rewrite translate_port_type_lookup, E.
Qed.

Lemma C8_enum_translations_witness :
  translate_port_state (headers := Example.headers) 99 = Raise KeyError /\
  translate_port_state (headers := Example.headers) 3 = Ok (Some "offline") /\
  translate_port_speed (headers := Example.headers) 99 = 0 /\
  translate_port_type (headers := Example.headers) 99 = Raise KeyError /\
  translate_port_type (headers := Example.headers) 5 = Ok "N_Port".
Proof.
  destruct (C8_enum_translations (headers := Example.headers) 99)
    as (Hstate & _ & _ & Hspeed & Htype & _).
  destruct (C8_enum_translations (headers := Example.headers) 3)
    as (_ & Hstate3 & _).
  destruct (C8_enum_translations (headers := Example.headers) 5)
    as (_ & _ & _ & _ & _ & Htype5).
  split; [apply Hstate; apply (bool_decide_unpack _); exact I|].
  split; [reflexivity|].
  split; [apply Hspeed; apply (bool_decide_unpack _); exact I|].
  split; [apply Htype; reflexivity|].
  apply Htype5; reflexivity.
Defined.

(** C8 as stated fails: with the port types of the FC-HBA header in
    [HBA_PORTTYPE], the unrecognized code 99 makes [translate_port_type]
    raise [KeyError]; no "unknown" value is returned. *)
Lemma C8_port_type_counterexample :
  translate_port_type (headers := Example.headers) 99 = Raise KeyError /\
  ~ exists v, translate_port_type (headers := Example.headers) 99 = Ok v.
Proof. split; [reflexivity|]. intros [v Hv]. discriminate Hv. Qed.

(** ** World wide names *)

Lemma hex_value_hex_digit (b : byte) :
  Py.hex_value (Py.hex_digit (Byte.to_N b / 16)) = Some (Z.of_N (Byte.to_N b / 16)) /\
  Py.hex_value (Py.hex_digit (Byte.to_N b mod 16)) =
    Some (Z.of_N (Byte.to_N b mod 16)) /\
  Byte.of_N (Z.to_N (16 * Z.of_N (Byte.to_N b / 16) + Z.of_N (Byte.to_N b mod 16)))
    = Some b.
Proof. destruct b; vm_compute; auto. Qed.

Lemma hexlify_length (source : Py.bytes) :
  String.length (Py.hexlify source) = (2 * length source)%nat.
Proof. induction source as [|b l IH]; simpl; [done|]. rewrite IH. lia. Qed.

Lemma unhexlify_hexlify (source : Py.bytes) :
  Py.unhexlify (Py.hexlify source) = Ok source.
Proof.
  induction source as [|b l IH]; simpl; [done|].
  destruct (hex_value_hex_digit b) as (-> & -> & ->).
  by rewrite IH.
Qed.

Lemma int16_from_hexlify (source : Py.bytes) (acc : Z) :
  Py.int16_from acc (Py.hexlify source) =
    Ok (fold_left (fun acc b => 256 * acc + Z.of_N (Byte.to_N b)) source acc).
Proof.
  revert acc. induction source as [|b l IH]; intros acc; simpl; [done|].
  destruct (hex_value_hex_digit b) as (-> & -> & _).
  rewrite IH. do 2 f_equal.
  rewrite (N.div_mod' (Byte.to_N b) 16) at 3. lia.
Qed.

(** The part of C6 the code keeps: a raw WWN of eight bytes becomes the
    sixteen hexadecimal digits of those bytes, the first byte first;
    decoding the digits gives the bytes back, and read as a number they
    are the big-endian value of the bytes. *)
Lemma translate_wwn_eight_bytes {host : Host} (source : Py.bytes) :
  length source = 8%nat ->
  translate_wwn (Some source) = Ok {| _address := Py.hexlify source |} /\
  String.length (Py.hexlify source) = 16%nat /\
  Py.unhexlify (Py.hexlify source) = Ok source /\
  Py.int16 (Py.hexlify source) = Ok (big_endian source).
Proof.
  intros Hlen. repeat split.
  - unfold translate_wwn.
    destruct PY3; [done|]. rewrite bool_decide_eq_false_2; [done|].
    intros ->. discriminate Hlen.
  - rewrite hexlify_length, Hlen. reflexivity.
  - apply unhexlify_hexlify.
  - unfold Py.int16, big_endian. rewrite <- int16_from_hexlify.
    destruct source; [discriminate Hlen | reflexivity].
Qed.

(** C6, where the code departs from it: an absent source ([None], which
    [get_port_object] passes for a missing [FabricName]) makes
    [translate_wwn] raise [TypeError] on every interpreter, and so
    [get_port_object] raises too; on Python 3 an empty source gives the
    empty address, not the sixteen zeros of the all-zero WWN. *)
Theorem C6_translate_wwn_absent_or_empty :
  (forall host : Host, translate_wwn (host := host) None = Raise TypeError) /\
  get_port_object (headers := Example.headers) (host := Example.host) None
    port_attributes_without_fabric_name = Raise TypeError /\
  translate_wwn (host := Example.host) (Some []) = Ok {| _address := "" |} /\
  translate_wwn (host := Example.host) (Some (repeat x00 8)) =
    Ok {| _address := "0000000000000000" |}.
Proof. repeat split. Qed.

(** ** The statistics merger *)

Lemma merge_statistics_loop_step (hba_port_stats hba_fc4_stats : option native_statistics)
    (name : string) (names : list string) (port_statistics : PortStatistics) :
  _merge_statistics_loop hba_port_stats hba_fc4_stats (name :: names) port_statistics =
    match counter_source hba_port_stats hba_fc4_stats name with
    | Ok v => _merge_statistics_loop hba_port_stats hba_fc4_stats names
                (<[name := v]> port_statistics)
    | Raise e => Raise e
    end.
Proof.
  cbn [_merge_statistics_loop].
  unfold counter_source, _merge_hba_fcp4_stat, _merge_hba_port_stat.
  destruct (Py.startswith name "fcp_");
    [destruct hba_fc4_stats as [r|] | destruct hba_port_stats as [r|]];
    cbn [rbind]; try done; by destruct (getattr r _).
Qed.

(** When every counter has a source, the loop ends with every listed
    counter set to its source and the other counters untouched. *)
Lemma merge_statistics_loop_ok (hba_port_stats hba_fc4_stats : option native_statistics)
    (names : list string) (port_statistics : PortStatistics) :
  (forall name, name ∈ names ->
     exists v, counter_source hba_port_stats hba_fc4_stats name = Ok v) ->
  exists merged,
    _merge_statistics_loop hba_port_stats hba_fc4_stats names port_statistics
      = Ok merged /\
    (forall name, name ∈ names ->
       Ok (default 0 (merged !! name)) =
         counter_source hba_port_stats hba_fc4_stats name /\
       is_Some (merged !! name)) /\
    (forall name, name ∉ names -> merged !! name = port_statistics !! name).
Proof.
  revert port_statistics.
  induction names as [|name names IH]; intros port_statistics Hsrc.
  - exists port_statistics. split; [done|]. split; [|done].
    intros name Hin. by apply elem_of_nil in Hin.
  - rewrite merge_statistics_loop_step.
    destruct (Hsrc name) as [v Hv]; [left|]. rewrite Hv.
    destruct (IH (<[name := v]> port_statistics)) as (merged & Hm & Hin & Hout).
    { intros n Hn. apply Hsrc. by right. }
    exists merged. split; [done|]. split.
    + intros n Hn. destruct (decide (n ∈ names)) as [Hn'|Hn']; [by apply Hin|].
      apply elem_of_cons in Hn as [->|Hn]; [|done].
      rewrite (Hout name Hn'), lookup_insert_eq. by rewrite Hv.
    + intros n Hn. apply not_elem_of_cons in Hn as [Hne Hn].
      rewrite (Hout n Hn). by apply lookup_insert_ne.
Qed.





(** ** The state monad *)

Section MonadLaws.
Context {world : Type}.
Local Open Scope M_scope.

Lemma bind_Ok_inv {A B} (m : M world A) (k : A -> M world B) s b s' :
  bind m k s = (Ok b, s') ->
  exists a s1, m s = (Ok a, s1) /\ k a s1 = (Ok b, s').
Proof.
  unfold bind. destruct (m s) as [[a|e] s1]; [|discriminate].
  intros Hk. by exists a, s1.
Qed.

Lemma lift_Ok_inv {A} (r : result A) (s : state world) a s' :
  lift r s = (Ok a, s') -> r = Ok a /\ s' = s.
Proof. unfold lift. intros [= -> ->]. done. Qed.

Lemma ret_Ok_inv {A} (x : A) (s : state world) a s' :
  ret x s = (Ok a, s') -> a = x /\ s' = s.
Proof. unfold ret. intros [= -> ->]. done. Qed.

Lemma traverse_Ok_Forall2 {A B} (f : A -> result B) l l' :
  traverse f l = Ok l' -> Forall2 (fun x y => f x = Ok y) l l'.
Proof.
  revert l'. induction l as [|x l IH]; intros l'; simpl.
  - intros [= <-]. constructor.
  - destruct (f x) as [y|e] eqn:Hy; simpl; [|discriminate].
    destruct (traverse f l) as [ys|e]; simpl; [|discriminate].
    intros [= <-]. constructor; [done|]. by apply IH.
Qed.

End MonadLaws.

(** Takes a successful run of a chain of binds apart, step by step. *)
Ltac invert_run H :=
  repeat first
    [ apply bind_Ok_inv in H as (? & ? & ? & H)
    | apply lift_Ok_inv in H as [H ?]
    | apply ret_Ok_inv in H as [H ?] ].

(** ** Remote ports *)

Section RemotePorts.
Context {headers : Headers} {host : Host} {decoder : Decoder}
  {package : Package} {world : Type} {c_api : CApi world}.
Local Open Scope M_scope.

Lemma traverseM_cons_bind {A B C} (f : A -> M world B) (x : A) (l : list A)
    (k : list B -> M world C) (s : state world) :
  (ys <- traverseM f (x :: l) ;; k ys) s =
    match f x s with
    | (Ok y, s1) => (ys <- traverseM f l ;; k (y :: ys)) s1
    | (Raise e, s1) => (Raise e, s1)
    end.
Proof.
  cbn [traverseM]. unfold bind, ret.
  destruct (f x s) as [[y|e] s1]; [|done].
  by destruct (traverseM f l s1) as [[ys|e] s2].
Qed.

Lemma get_remote_ports_loop_step (h : handle) (port_index i : nat)
    (indices : list nat) (remote_ports : list Port) (s : state world) :
  _get_remote_ports_loop h port_index (i :: indices) remote_ports s =
    match discovered_port h port_index i s with
    | (Ok remote_port, s1) =>
        _get_remote_ports_loop h port_index indices
          (if kept remote_port then remote_ports ++ [remote_port]
           else remote_ports) s1
    | (Raise e, s1) => (Raise e, s1)
    end.
Proof.
  cbn [_get_remote_ports_loop]. unfold discovered_port, bind, lift.
  destruct (_get_remote_port_attributes h port_index i s) as [[attrs|e] s1];
    [|done].
  destruct (get_port_object None attrs) as [remote_port|e]; [|done].
  unfold kept.
  destruct (bool_decide (port_fcid remote_port ∈ WELL_KNOWN_FC_ADDRESSES));
    [done|].
  by destruct (bool_decide (port_state remote_port = Some "offline")).
Qed.

Lemma get_remote_ports_loop_filter (h : handle) (port_index : nat)
    (indices : list nat) (remote_ports : list Port) (s : state world) :
  _get_remote_ports_loop h port_index indices remote_ports s =
    (ports <- traverseM (discovered_port h port_index) indices ;;
     ret (remote_ports ++ List.filter kept ports)) s.
Proof.
  revert remote_ports s.
  induction indices as [|i indices IH]; intros remote_ports s.
  - unfold bind, ret. simpl. unfold ret. by rewrite app_nil_r.
  - rewrite traverseM_cons_bind, get_remote_ports_loop_step.
    destruct (discovered_port h port_index i s) as [[remote_port|e] s1];
      [|done].
    rewrite IH. unfold bind.
    destruct (traverseM _ indices s1) as [[ports|e] s2]; [|done].
    unfold ret. cbn [List.filter].
    destruct (kept remote_port); [|done].
    by rewrite <- app_assoc.
Qed.

Lemma kept_spec (remote_port : Port) :
  kept remote_port = true <->
  ((port_fcid remote_port ∉ WELL_KNOWN_FC_ADDRESSES) /\
   port_state remote_port <> Some "offline").
Proof.
  unfold kept.
  rewrite andb_true_iff, !negb_true_iff, !bool_decide_eq_false. done.
Qed.

Lemma get_remote_ports_kept (h : handle) (port_index n : nat)
    (s s' : state world) (ports : list Port) :
  _get_remote_ports h port_index n s = (Ok ports, s') ->
  Forall (fun p => kept p = true) ports.
Proof.
  unfold _get_remote_ports. rewrite get_remote_ports_loop_filter.
  intros Hrun. invert_run Hrun. injection Hrun as <-. simpl.
  apply Forall_forall. intros p Hp.
  apply list_elem_of_In, filter_In in Hp. tauto.
Qed.

(** A successful [_get_local_port], step by step. *)
Lemma get_local_port_inv (h : handle) (adapter_attributes : HBA_AdapterAttributes)
    (port_index : nat) (s s' : state world) (port : Port) :
  _get_local_port h adapter_attributes port_index s = (Ok port, s') ->
  exists port_attributes port0 wwn_buffer remote_ports port_statistics
         table port_mappings remote_ports' s1 s2 s3,
    _get_port_attributes h port_index s = (Ok port_attributes, s1) /\
    get_port_object (Some adapter_attributes) port_attributes = Ok port0 /\
    _extract_wwn_buffer_from_port_attributes port_attributes = Ok wwn_buffer /\
    _get_remote_ports h port_index (NumberOfDiscoveredPorts port_attributes) s1
      = (Ok remote_ports, s2) /\
    _get_local_port_statistics h port_index wwn_buffer s2
      = (Ok port_statistics, s3) /\
    _get_local_port_mappings h wwn_buffer s3 = (Ok table, s') /\
    _mappings_to_dict table = Ok port_mappings /\
    let local :=
      set_all_port_mappings
        (set_statistics
           (set_discovered_ports (_populate_local_port_hct port0) remote_ports)
           port_statistics) (Some table) in
    Forall2 (fun remote_port remote_port' =>
               exists v, remote_port_hct local port_mappings remote_port = Ok v /\
                         remote_port' = set_hct remote_port v)
      remote_ports remote_ports' /\
    port = set_discovered_ports local remote_ports'.
Proof.
  unfold _get_local_port. intros Hrun. invert_run Hrun.
  repeat match goal with
         | H : lift _ _ = (Ok _, _) |- _ => apply lift_Ok_inv in H as [H ->]
         end.
  subst. injection Hrun as <-.
  match goal with
  | H : traverse _ _ = Ok _ |- _ => apply traverse_Ok_Forall2 in H; rename H into Hhct
  end.
  do 11 eexists. repeat (split; [eassumption|]).
  cbn zeta. split; [|reflexivity].
  eapply Forall2_impl; [exact Hhct|].
  intros remote_port remote_port' Hstep. cbn beta in Hstep.
  destruct (remote_port_hct _ _ remote_port) as [v|e]; [|discriminate].
  injection Hstep as <-. by exists v.
Qed.

(** C1: the remote ports [_get_remote_ports] returns are the discovered
    ports that are kept, in discovery order, and it fails exactly when
    fetching or normalizing one of them fails; the ten well-known
    addresses are 0xFFFFF5 to 0xFFFFFE; and the [discovered_ports] of a
    local port that [_get_local_port] returns are those kept ports, each
    with its [hct] set, so none of them has a well-known [port_fcid] or
    is offline. *)
Theorem C1_discovered_ports_filtered (h : handle) (port_index : nat)
    (s : state world) :
  (forall n,
     _get_remote_ports h port_index n s =
       (ports <- traverseM (discovered_port h port_index) (seq 0 n) ;;
        ret (List.filter kept ports)) s) /\
  (forall a, a ∈ WELL_KNOWN_FC_ADDRESSES <-> 0xFFFFF5 <= a <= 0xFFFFFE) /\
  (forall adapter_attributes port s',
     _get_local_port h adapter_attributes port_index s = (Ok port, s') ->
     (exists port_attributes s1 discovered s2,
        _get_port_attributes h port_index s = (Ok port_attributes, s1) /\
        traverseM (discovered_port h port_index)
          (seq 0 (NumberOfDiscoveredPorts port_attributes)) s1
          = (Ok discovered, s2) /\
        Forall2 (fun remote_port remote_port' =>
                   exists v, remote_port' = set_hct remote_port v)
          (List.filter kept discovered) (discovered_ports port)) /\
     Forall (fun remote_port =>
               (port_fcid remote_port ∉ WELL_KNOWN_FC_ADDRESSES) /\
               port_state remote_port <> Some "offline")
       (discovered_ports port)).
Proof.
  split; [|split].
  - intros n. unfold _get_remote_ports.
    by rewrite get_remote_ports_loop_filter.
  - intros a. unfold WELL_KNOWN_FC_ADDRESSES.
    rewrite !elem_of_cons, elem_of_nil. lia.
  - intros adapter_attributes port s' Hrun.
    apply get_local_port_inv in Hrun
      as (pa & port0 & wwn & remote_ports & st & table & dict & remote_ports'
          & s1 & s2 & s3 & Hpa & _ & _ & Hremote & _ & _ & _ & Hhct & ->).
    cbn zeta in Hhct. cbn [set_discovered_ports discovered_ports].
    split.
    + pose proof Hremote as Hall. unfold _get_remote_ports in Hall.
      rewrite get_remote_ports_loop_filter in Hall.
      apply bind_Ok_inv in Hall as (discovered & s2' & Hd & Hret).
      apply ret_Ok_inv in Hret as [-> ->]. simpl in Hhct |- *.
      exists pa, s1, discovered, s2'. split; [done|]. split; [done|].
      eapply Forall2_impl; [exact Hhct|].
      intros rp rp' (v & _ & ->). by exists v.
    + apply get_remote_ports_kept in Hremote.
      clear -Hhct Hremote. revert Hremote.
      induction Hhct as [|rp rp' l l' (v & _ & ->) _ IH]; intros Hremote;
        [constructor|].
      apply Forall_cons in Hremote as [Hk Hl].
      constructor; [|by apply IH].
      by apply kept_spec in Hk.
Qed.

(** C2: in a local port that [_get_local_port] returns, every remote
    port of [discovered_ports] has the [hct]
    [(local hct[0], channel, target)]: on a platform whose string holds
    "aix", [channel] is 0 and [target] is the remote port's WWN read as a
    hexadecimal number, whatever the mapping table holds; otherwise
    [(channel, target)] is the entry of the remote port's WWN in the dict
    [_mappings_to_dict] builds from the local port's mapping table, and
    [(-1, -1)] when the dict has no such entry. *)
Theorem C2_remote_port_hct (h : handle) (adapter_attributes : HBA_AdapterAttributes)
    (port_index : nat) (s s' : state world) (port : Port) :
  _get_local_port h adapter_attributes port_index s = (Ok port, s') ->
  exists table port_mappings,
    all_port_mappings port = Some table /\
    _mappings_to_dict table = Ok port_mappings /\
    Forall (fun remote_port =>
              exists channel target,
                hct remote_port = ((hct port).1.1, channel, target) /\
                if Py.contains "aix" get_platform_string
                then channel = 0 /\
                     Py.int16 (_address (port_wwn remote_port)) = Ok target
                else (channel, target) =
                       default (-1, -1)
                         (port_mappings !! _address (port_wwn remote_port)))
      (discovered_ports port).
Proof.
  intros Hrun.
  apply get_local_port_inv in Hrun
    as (pa & port0 & wwn & remote_ports & st & table & dict & remote_ports'
        & s1 & s2 & s3 & _ & _ & _ & _ & _ & _ & Hdict & Hhct & ->).
  cbn zeta in Hhct. exists table, dict.
  split; [reflexivity|]. split; [exact Hdict|].
  cbn [set_discovered_ports discovered_ports hct].
  induction Hhct as [|rp rp' l l' (v & Hv & ->) _ IH]; constructor; [|exact IH].
  unfold remote_port_hct in Hv. cbn [set_hct hct port_wwn].
  cbn [set_all_port_mappings set_statistics set_discovered_ports hct] in Hv.
  destruct (Py.contains "aix" get_platform_string).
  - destruct (Py.int16 (_address (port_wwn rp))) as [target|e]; [|discriminate].
    injection Hv as <-. by exists 0, target.
  - injection Hv as <-.
    destruct (default (-1, -1) (dict !! _address (port_wwn rp)))
      as [channel target] eqn:Hd.
    by exists channel, target.
Qed.

End RemotePorts.

(** ** Supported speeds *)

Lemma single_bit_testbit (k source : Z) :
  single_bit k ->
  Z.land k source <> 0 <->
  (exists e, 0 <= e /\ k = 2 ^ e /\ Z.testbit source e = true).
Proof.
  intros (e & He & ->). split.
  - intros Hne. exists e. split; [done|]. split; [done|].
    destruct (Z.testbit source e) eqn:Hbit; [done|]. exfalso. apply Hne.
    apply Z.bits_inj'. intros n Hn.
    rewrite Z.land_spec, Z.pow2_bits_eqb, Z.bits_0 by done.
    destruct (Z.eqb_spec e n) as [->|]; [by rewrite Hbit|done].
  - intros (e' & He' & Heq & Hbit) Hzero.
    apply Z.pow_inj_r in Heq; [|lia..]. subst e'.
    assert (Z.testbit (Z.land (2 ^ e) source) e = true) as Hset.
    { rewrite Z.land_spec, Z.pow2_bits_eqb, Z.eqb_refl by done. by rewrite Hbit. }
    rewrite Hzero, Z.bits_0 in Hset. discriminate.
Qed.

(** Subtracting a flag that is set clears its bit and leaves the other
    flags as they were. *)
Lemma land_sub_other_bit (k k' source : Z) :
  single_bit k -> single_bit k' -> k <> k' -> Z.land k source <> 0 ->
  Z.land k' (source - k) = Z.land k' source.
Proof.
  intros Hk (e' & He' & ->) Hne Hset.
  apply (single_bit_testbit k source Hk) in Hset as (e & He & -> & Hbit).
  assert (e <> e') as Hee by congruence.
  rewrite Z.sub_nocarry_ldiff.
  - apply Z.bits_inj'. intros n Hn.
    rewrite !Z.land_spec, Z.ldiff_spec, !Z.pow2_bits_eqb by done.
    destruct (Z.eqb_spec e' n) as [<-|]; [|done].
    destruct (Z.eqb_spec e e'); [done|]. by rewrite andb_true_r.
  - apply Z.bits_inj'. intros n Hn.
    rewrite Z.ldiff_spec, Z.pow2_bits_eqb, Z.bits_0 by done.
    destruct (Z.eqb_spec e n) as [<-|]; [by rewrite Hbit|done].
Qed.

Lemma single_bit_land (a b : Z) :
  single_bit a -> single_bit b ->
  Z.land a b = if decide (a = b) then a else 0.
Proof.
  intros (e & He & ->) (e' & He' & ->).
  destruct (decide (2 ^ e = 2 ^ e')) as [Heq|Hne].
  - rewrite <- Heq. apply Z.land_diag.
  - apply Z.bits_inj'. intros n Hn.
    rewrite Z.land_spec, !Z.pow2_bits_eqb, Z.bits_0 by done.
    destruct (Z.eqb_spec e n) as [<-|]; [|done].
    destruct (Z.eqb_spec e' e) as [->|]; [done|done].
Qed.

Lemma single_bit_nonzero (k : Z) : single_bit k -> k <> 0.
Proof. intros (e & He & ->). apply Z.pow_nonzero; lia. Qed.

Lemma filter_iff_elem {A} (P Q : A -> Prop) `{!forall x, Decision (P x)}
    `{!forall x, Decision (Q x)} (l : list A) :
  (forall x, x ∈ l -> P x <-> Q x) -> filter P l = filter Q l.
Proof.
  induction l as [|x l IH]; intros Hext; [done|].
  rewrite !filter_cons.
  rewrite IH by (intros y Hy; apply Hext; by right).
  destruct (decide (P x)) as [HP|HP], (decide (Q x)) as [HQ|HQ]; try done;
    exfalso; apply (Hext x) in HP || apply HP, (Hext x); done || by left.
Qed.

Section SupportedSpeeds.
Context {headers : Headers}.

(** When the keys are different single bits, the loop collects, in the
    order of the keys, the speed of every key that has its bit in the
    mask. *)
Lemma supported_speeds_loop_filter (translation : gmap Z Z) (keys : list Z)
    (source : Z) (acc : list Z) :
  NoDup keys -> Forall single_bit keys ->
  supported_speeds_loop translation keys source acc =
    acc ++ map (fun key => default 0 (translation !! key))
             (filter (fun key => Z.land key source <> 0) keys).
Proof.
  revert source acc.
  induction keys as [|key keys IH]; intros source acc Hnd Hbits.
  - simpl. by rewrite app_nil_r.
  - apply NoDup_cons in Hnd as [Hnotin Hnd].
    apply Forall_cons in Hbits as [Hkey Hbits].
    cbn [supported_speeds_loop]. rewrite filter_cons.
    destruct (Z.eqb_spec (Z.land key source) 0) as [Hz|Hnz]; cbn [negb].
    + rewrite decide_False by (intros Hc; by apply Hc).
      by apply IH.
    + rewrite decide_True by done.
      rewrite IH by done. cbn [map]. rewrite <- app_assoc. cbn [app].
      do 3 f_equal. apply filter_iff_elem. intros key' Hin.
      rewrite land_sub_other_bit; [done|done| |congruence|done].
      by eapply Forall_forall in Hbits.
Qed.

Lemma dict_of_items_lookup_NoDup {V} (items : list (Z * V)) (k : Z) (v : V) :
  NoDup items.*1 -> (k, v) ∈ items -> Py.dict_of_items items !! k = Some v.
Proof.
  induction items as [|[k' v'] items IH] using rev_ind; intros Hnd Hin.
  - by apply elem_of_nil in Hin.
  - rewrite fmap_app in Hnd. apply NoDup_app in Hnd as (Hnd & Hnotin & _).
    rewrite dict_of_items_snoc.
    apply elem_of_app in Hin as [Hin|Hin].
    + rewrite lookup_insert_ne; [by apply IH|].
      intros ->. apply (Hnotin k); [|simpl; left].
      apply list_elem_of_fmap. by exists (k, v).
    + apply list_elem_of_singleton in Hin. injection Hin as -> ->.
      apply lookup_insert_eq.
Qed.

Lemma supported_speed_keys_elem (k : Z) :
  k ∈ supported_speed_keys <-> k ∈ supported_speed_flags.*1.
Proof.
  unfold supported_speed_keys. rewrite merge_sort_Permutation.
  rewrite <- (dict_of_items_dom supported_speed_flags k).
  rewrite list_elem_of_fmap. split.
  - intros ([k' v] & -> & Hin). apply elem_of_map_to_list in Hin. by exists v.
  - intros [v Hv]. exists (k, v). split; [done|]. by apply elem_of_map_to_list.
Qed.

Lemma supported_speed_keys_NoDup : NoDup supported_speed_keys.
Proof.
  unfold supported_speed_keys. rewrite merge_sort_Permutation.
  apply NoDup_fst_map_to_list.
Qed.

Lemma supported_speed_keys_Sorted : Sorted Z.ge supported_speed_keys.
Proof.
  apply Sorted_merge_sort. intros x y. destruct (Z.le_total x y); [right|left]; lia.
Qed.

Lemma supported_speeds_loop_zero (translation : gmap Z Z) (keys : list Z)
    (acc : list Z) :
  supported_speeds_loop translation keys 0 acc = acc.
Proof.
  induction keys as [|key keys IH]; [done|].
  cbn [supported_speeds_loop]. by rewrite Z.land_0_r.
Qed.

(** The speeds of the pairs of [items] selected by their flag, read off
    the translation table. *)
Lemma map_translation_filter (P : Z -> Prop) `{!forall k, Decision (P k)}
    (items : list (Z * Z)) :
  (forall k v, (k, v) ∈ items -> supported_speeds_translation !! k = Some v) ->
  map (fun key => default 0 (supported_speeds_translation !! key))
    (filter P items.*1) = (filter (fun kv => P kv.1) items).*2.
Proof.
  induction items as [|[k v] items IH]; intros Hlook; [done|].
  cbn [fmap list_fmap]. rewrite !filter_cons. cbn [fst].
  assert (forall k' v', (k', v') ∈ items ->
            supported_speeds_translation !! k' = Some v') as Hrest.
  { intros k' v' Hin. apply Hlook. by right. }
  destruct (decide (P k)); [|by apply IH].
  cbn [map fmap list_fmap snd]. rewrite (Hlook k v) by left. cbn [default].
  f_equal. by apply IH.
Qed.

Lemma flag_in_mask (k a b : Z) :
  single_bit k -> single_bit a -> single_bit b ->
  Z.land k (Z.lor a b) <> 0 <-> (k = a \/ k = b).
Proof.
  intros Hk Ha Hb.
  rewrite Z.land_lor_distr_r, !single_bit_land by done.
  pose proof (single_bit_nonzero k Hk).
  destruct (decide (k = a)), (decide (k = b)); subst;
    rewrite ?Z.lor_diag, ?Z.lor_0_l, ?Z.lor_0_r; tauto.
Qed.

(** The translation table gives each flag value the speed of the last
    pair that has it. *)
Lemma dict_of_items_lookup_filter (items : list (Z * Z)) (k : Z) :
  Py.dict_of_items items !! k =
    snd <$> last (filter (fun kv : Z * Z => kv.1 = k) items).
Proof.
  induction items as [|[k' v'] items IH] using rev_ind; [done|].
  rewrite dict_of_items_snoc, filter_app, filter_cons, filter_nil. cbn [fst].
  destruct (decide (k' = k)) as [->|Hne].
  - by rewrite lookup_insert_eq, last_snoc.
  - by rewrite lookup_insert_ne, app_nil_r.
Qed.

Lemma supported_speeds_translation_speed (key : Z) :
  default 0 (supported_speeds_translation !! key) = speed_of_flag key.
Proof.
  unfold supported_speeds_translation, speed_of_flag.
  rewrite dict_of_items_lookup_filter. fold supported_speed_flags.
  by destruct (last _).
Qed.

(** The loop of the source is the walk of the specification. *)
Lemma supported_speeds_loop_walk (keys : list Z) (source : Z) (acc : list Z) :
  supported_speeds_loop supported_speeds_translation keys source acc =
    (fold_left speeds_step keys (source, acc)).2.
Proof.
  revert source acc. induction keys as [|key keys IH]; intros source acc; [done|].
  cbn [supported_speeds_loop fold_left]. unfold speeds_step at 2. cbn [fst snd].
  destruct (Z.eqb_spec (Z.land key source) 0) as [Hz|Hnz]; cbn [negb].
  - rewrite decide_False by (intros Hc; by apply Hc). apply IH.
  - rewrite decide_True by done.
    rewrite supported_speeds_translation_speed. apply IH.
Qed.

Lemma Sorted_gt_ge (keys : list Z) : Sorted Z.gt keys -> Sorted Z.ge keys.
Proof.
  induction 1 as [|k keys Hs IH Hhd]; constructor; [done|].
  destruct Hhd; constructor. lia.
Qed.

Lemma Sorted_gt_NoDup (keys : list Z) : Sorted Z.gt keys -> NoDup keys.
Proof.
  intros Hs. apply Sorted_StronglySorted in Hs; [|intros x y z; lia].
  induction Hs as [|k keys Hs IH Hall]; constructor; [|done].
  intros Hin. eapply Forall_forall in Hall; [|done]. lia.
Qed.

(** The descending list of the different flag values is the list of keys
    that the source walks. *)
Lemma supported_speed_keys_unique (keys : list Z) :
  Sorted Z.gt keys ->
  (forall k, k ∈ keys <-> k ∈ supported_speed_flags.*1) ->
  keys = supported_speed_keys.
Proof.
  intros Hs Hmem.
  assert (Transitive Z.ge) by (intros x y z; lia).
  assert (AntiSymm (=) Z.ge) by (intros x y; lia).
  apply (Sorted_unique Z.ge).
  - by apply Sorted_gt_ge.
  - apply supported_speed_keys_Sorted.
  - apply NoDup_Permutation;
      [by apply Sorted_gt_NoDup | apply supported_speed_keys_NoDup|].
    intros k. by rewrite Hmem, supported_speed_keys_elem.
Qed.

(** A mask that is one flag value, no higher flag sharing a bit with it:
    the loop appends the speed of this flag and nothing else, because what
    is left of the mask for the lower flags is 0. *)
Lemma supported_speeds_loop_one_flag (translation : gmap Z Z) (keys : list Z)
    (key : Z) (acc : list Z) :
  Sorted Z.ge keys -> key ∈ keys -> key <> 0 ->
  (forall k, k ∈ keys -> key < k -> Z.land k key = 0) ->
  supported_speeds_loop translation keys key acc =
    acc ++ [default 0 (translation !! key)].
Proof.
  intros Hs. apply Sorted_StronglySorted in Hs; [|intros x y z; lia].
  induction Hs as [|k keys Hs IH Hall]; intros Hin Hnz Hhigh.
  - by apply elem_of_nil in Hin.
  - cbn [supported_speeds_loop].
    destruct (decide (k = key)) as [->|Hne].
    + rewrite Z.land_diag. destruct (Z.eqb_spec key 0) as [|_]; [done|].
      cbn [negb]. by rewrite Z.sub_diag, supported_speeds_loop_zero.
    + apply elem_of_cons in Hin as [Hin|Hin]; [congruence|].
      assert (key < k) as Hlt.
      { eapply Forall_forall in Hall; [|done]. lia. }
      rewrite (Hhigh k) by (done || left). cbn [Z.eqb negb].
      apply IH; [done..|]. intros k' Hk'. apply Hhigh. by right.
Qed.

(** C7: the keys are walked from the highest to the lowest, and the
    result is the sorted output of the loop that tests each key against
    the current mask, appends its speed and subtracts it; the result is
    ascending, and empty for the mask 0.  When the nine flags are
    different single bits, the result holds the speed of exactly the
    flags set in the mask, each once, and the mask of the 4 Gbit and
    8 Gbit flags gives [4; 8].  Whatever the flag values are, the result is
    the sorted outcome of the walk in the words of the specification over
    the different flag values in descending order: a flag that meets what
    is left of the mask has its speed appended and is subtracted from the
    mask before the next flag is tested.  So a mask that is one flag value
    gives the speed of that flag alone when no higher flag shares a bit
    with it, also when lower flags do: these are not counted again. *)
Theorem C7_supported_speeds (source : Z) :
  (Sorted Z.ge supported_speed_keys /\ NoDup supported_speed_keys /\
   forall k, k ∈ supported_speed_keys <-> k ∈ supported_speed_flags.*1) /\
  translate_port_supported_speeds source =
    merge_sort Z.le
      (supported_speeds_loop supported_speeds_translation supported_speed_keys
         source []) /\
  Sorted Z.le (translate_port_supported_speeds source) /\
  translate_port_supported_speeds 0 = [] /\
  (flags_are_distinct_bits ->
   translate_port_supported_speeds source ≡ₚ
     (filter (fun kv => Z.land kv.1 source <> 0) supported_speed_flags).*2 /\
   translate_port_supported_speeds
     (Z.lor HBA_PORTSPEED_4GBIT HBA_PORTSPEED_8GBIT) = [4; 8]) /\
  (forall keys,
     Sorted Z.gt keys ->
     (forall k, k ∈ keys <-> k ∈ supported_speed_flags.*1) ->
     translate_port_supported_speeds source =
       merge_sort Z.le (speeds_walk keys source)) /\
  (forall key,
     key ∈ supported_speed_flags.*1 -> key <> 0 ->
     (forall k, k ∈ supported_speed_flags.*1 -> key < k -> Z.land k key = 0) ->
     translate_port_supported_speeds key = [speed_of_flag key]).
Proof.
  split; [|split; [|split; [|split; [|split; [|split]]]]].
  - split; [apply supported_speed_keys_Sorted|].
    split; [apply supported_speed_keys_NoDup | apply supported_speed_keys_elem].
  - reflexivity.
  - apply Sorted_merge_sort, _.
  - unfold translate_port_supported_speeds.
    by rewrite supported_speeds_loop_zero.
  - intros [Hnd Hbits].
    assert (forall mask,
              translate_port_supported_speeds mask ≡ₚ
                (filter (fun kv => Z.land kv.1 mask <> 0)
                   supported_speed_flags).*2) as Hperm.
    { intros mask. unfold translate_port_supported_speeds.
      rewrite merge_sort_Permutation.
      fold supported_speed_keys.
      rewrite supported_speeds_loop_filter.
      - cbn [app].
        transitivity
          (map (fun key => default 0 (supported_speeds_translation !! key))
             (filter (fun k => Z.land k mask <> 0) supported_speed_flags.*1)).
        + apply Permutation_map, filter_Permutation.
          apply NoDup_Permutation;
            [apply supported_speed_keys_NoDup | exact Hnd
            | apply supported_speed_keys_elem].
        + rewrite (map_translation_filter (fun k => Z.land k mask <> 0)
                     supported_speed_flags); [reflexivity|].
          intros k v Hin. by apply dict_of_items_lookup_NoDup.
      - apply supported_speed_keys_NoDup.
      - apply Forall_forall. intros k Hk.
        apply supported_speed_keys_elem in Hk.
        by eapply Forall_forall in Hbits. }
    split; [apply Hperm|].
    apply (Sorted_unique Z.le).
    + apply Sorted_merge_sort, _.
    + repeat constructor. lia.
    + rewrite Hperm. clear Hperm.
      unfold supported_speed_flags in *. cbn [fmap list_fmap fst] in Hnd, Hbits.
      repeat (apply Forall_cons in Hbits as [? Hbits]).
      repeat (apply NoDup_cons in Hnd as [? Hnd]).
      repeat match goal with
             | H : _ ∉ _ :: _ |- _ => apply not_elem_of_cons in H as [? H]
             end.
      repeat (rewrite filter_cons; cbn [fst];
              first [ rewrite decide_True by (apply flag_in_mask; [done..|tauto])
                    | rewrite decide_False
                        by (rewrite flag_in_mask by done; intuition congruence) ]).
      by rewrite filter_nil.
  - intros keys Hs Hmem.
    rewrite (supported_speed_keys_unique keys) by done.
    unfold translate_port_supported_speeds, speeds_walk.
    fold supported_speed_keys. by rewrite supported_speeds_loop_walk.
  - intros key Hin Hnz Hhigh.
    unfold translate_port_supported_speeds. fold supported_speed_keys.
    rewrite supported_speeds_loop_one_flag.
    + cbn [app]. by rewrite supported_speeds_translation_speed.
    + apply supported_speed_keys_Sorted.
    + by apply supported_speed_keys_elem.
    + done.
    + intros k Hk. apply Hhigh. by apply supported_speed_keys_elem.
Qed.

End SupportedSpeeds.

Lemma C7_supported_speeds_witness :
  translate_port_supported_speeds (headers := Example.headers) 24 = [4; 8] /\
  translate_port_supported_speeds (headers := Example.headers) 0 = [] /\
  translate_port_supported_speeds (headers := Example.headers) 292 ≡ₚ [10; 16; 40] /\
  translate_port_supported_speeds (headers := OverlapExample.headers) 7 = [2; 10] /\
  translate_port_supported_speeds (headers := OverlapExample.headers) 3 = [2].
Proof.
  destruct (C7_supported_speeds (headers := Example.headers) 292)
    as (_ & _ & _ & Hzero & Hflags & _).
  destruct Hflags as [Hperm H48].
  { split.
    - apply (bool_decide_unpack _). exact I.
    - repeat constructor;
        first [ by exists 0 | by exists 1 | by exists 2 | by exists 3
              | by exists 4 | by exists 5 | by exists 6 | by exists 7
              | by exists 8 ]. }
  destruct (C7_supported_speeds (headers := OverlapExample.headers) 7)
    as (_ & _ & _ & _ & _ & Hwalk & Hone).
  split; [exact H48|]. split; [exact Hzero|]. split; [exact Hperm|]. split.
  - rewrite (Hwalk [256; 128; 64; 32; 16; 8; 4; 3; 1]).
    + reflexivity.
    + repeat constructor; lia.
    + intros k. cbn [supported_speed_flags fmap list_fmap fst].
      cbn. rewrite !elem_of_cons, !elem_of_nil. tauto.
  - rewrite (Hone 3).
    + reflexivity.
    + apply (bool_decide_unpack _). exact I.
    + done.
    + apply (proj1 (Forall_forall (fun k => 3 < k -> Z.land k 3 = 0) _)).
      apply (bool_decide_unpack _). exact I.
Defined.

(** ** The mapping table *)

Section Mappings.
Context {headers : Headers} {host : Host} {decoder : Decoder}
  {package : Package} {world : Type} {c_api : CApi world}.
Local Open Scope M_scope.

(** The probe, case by case on the answer of the native call. *)
Lemma get_local_port_mappings_count_run (h : handle) (wwn_buffer : Z)
    (s : state world) (probe : Py.bytes) :
  probe_buffer = Ok probe ->
  _get_local_port_mappings_count h wwn_buffer s =
    match HBA_GetFcpTargetMappingV2 h wwn_buffer probe (native s) with
    | ((r, raw), w) =>
        let s1 := after_call s (GetFcpTargetMappingV2 h wwn_buffer probe) w in
        match r with
        | Ok _ => (Ok 0%nat, s1)
        | Raise e =>
            if is_RuntimeError e
            then if bool_decide (args0 e = Some HBA_STATUS_ERROR_MORE_DATA)
                 then (UNInt32_create_from_string raw, s1)
                 else (Ok 0%nat, s1)
            else (Raise e, s1)
        end
    end.
Proof.
  unfold probe_buffer, _get_local_port_mappings_count. intros Hprobe.
  destruct (_build_empty_mappings_struct 0) as [struct|e]; [|discriminate].
  cbn [rbind] in Hprobe. unfold bind at 1. unfold lift at 1.
  unfold bind at 1. unfold lift at 1. rewrite Hprobe.
  unfold bind, c_api_HBA_GetFcpTargetMappingV2, after_call.
  destruct (HBA_GetFcpTargetMappingV2 h wwn_buffer probe (native s))
    as [[[u|e] raw] w]; [done|].
  destruct (is_RuntimeError e); [|done].
  by destruct (bool_decide (args0 e = Some HBA_STATUS_ERROR_MORE_DATA)).
Qed.

(** The sized request, case by case on the answer of the native call. *)
Lemma get_local_port_mappings_run (h : handle) (wwn_buffer : Z)
    (s s1 : state world) (n : nat) (buff : Py.bytes) :
  _get_local_port_mappings_count h wwn_buffer s = (Ok n, s1) ->
  sized_buffer n = Ok buff ->
  _get_local_port_mappings h wwn_buffer s =
    match HBA_GetFcpTargetMappingV2 h wwn_buffer buff (native s1) with
    | ((r, raw), w) =>
        let s2 := after_call s1 (GetFcpTargetMappingV2 h wwn_buffer buff) w in
        match r with
        | Ok _ => (FCPTargetMappingV2_create_from_string raw, s2)
        | Raise e =>
            if is_RuntimeError e
            then if bool_decide (default 0 (args0 e) ∈ mapping_unavailable_codes
                                 /\ is_Some (args0 e))
                 then (Ok FCPTargetMappingV2_create_empty, s2)
                 else (Raise e, s2)
            else (Raise e, s2)
        end
    end.
Proof.
  unfold sized_buffer, _get_local_port_mappings. intros Hcount Hbuff.
  destruct (_build_empty_mappings_struct n) as [struct|e] eqn:Hstruct;
    [|discriminate].
  cbn [rbind] in Hbuff.
  destruct (FCPTargetMappingV2_write_to_string struct) as [init|e] eqn:Hinit;
    [|discriminate].
  cbn [rbind] in Hbuff.
  unfold bind at 1. unfold try_except. unfold bind at 1. rewrite Hcount.
  unfold bind at 1. unfold lift at 1. rewrite Hstruct.
  unfold bind at 1. unfold lift at 1. rewrite Hinit.
  unfold bind at 1. unfold lift at 1. rewrite Hbuff.
  unfold bind at 1. unfold c_api_HBA_GetFcpTargetMappingV2, after_call.
  destruct (HBA_GetFcpTargetMappingV2 h wwn_buffer buff (native s1))
    as [[[u|e] raw] w]; [done|].
  unfold raise. destruct (is_RuntimeError e); [|done].
  unfold mapping_unavailable_codes.
  destruct (args0 e) as [code|] eqn:Hcode; cbn [default].
  - repeat case_bool_decide; try done; exfalso;
      repeat match goal with
             | H : Some _ = Some _ |- _ => injection H as H
             | H : ~ (_ /\ _) |- _ => apply H; split; [|by eexists]
             | H : _ /\ _ |- _ => destruct H as [H _]
             end; set_solver.
  - repeat case_bool_decide; try done.
    match goal with H : _ /\ is_Some None |- _ => destruct H as [_ [? ?]] end.
    discriminate.
Qed.

(** C3: when the sized request fails with the status code of an illegal
    WWN, of "not supported", of "more data" or with the generic error
    code, [_get_local_port_mappings] returns the empty table of
    [create_empty] and raises nothing; when it fails with any other
    status code, the [RuntimeError] of that code reaches the caller
    unchanged. *)
Theorem C3_mapping_unavailable (h : handle) (wwn_buffer : Z)
    (s s1 : state world) (n : nat) (buff raw : Py.bytes) (code : Z) (w : world) :
  _get_local_port_mappings_count h wwn_buffer s = (Ok n, s1) ->
  sized_buffer n = Ok buff ->
  HBA_GetFcpTargetMappingV2 h wwn_buffer buff (native s1)
    = ((Raise (RuntimeError code), raw), w) ->
  let s2 := after_call s1 (GetFcpTargetMappingV2 h wwn_buffer buff) w in
  (code ∈ mapping_unavailable_codes ->
   _get_local_port_mappings h wwn_buffer s
     = (Ok FCPTargetMappingV2_create_empty, s2)) /\
  (code ∉ mapping_unavailable_codes ->
   _get_local_port_mappings h wwn_buffer s = (Raise (RuntimeError code), s2)).
Proof.
  intros Hcount Hbuff Hcall s2.
  rewrite (get_local_port_mappings_run h wwn_buffer s s1 n buff Hcount Hbuff).
  rewrite Hcall. cbn [is_RuntimeError args0 default]. fold s2.
  split; intros Hcode.
  - rewrite bool_decide_eq_true_2; [done|]. split; [done|by eexists].
  - rewrite bool_decide_eq_false_2; [done|]. by intros [? _].
Qed.

(** C4: when the zero-capacity probe is answered "more data", the count
    is read from the buffer the probe left, and the fetch makes exactly
    two native calls: the probe, on a zero-filled buffer of the size of a
    table without rows, and one sized request, on the serialization of an
    empty skeleton of exactly that count of rows. *)
Theorem C4_two_phase_fetch (h : handle) (wwn_buffer : Z) (s : state world)
    (probe raw buff : Py.bytes) (w1 : world) (n : nat) :
  probe_buffer = Ok probe ->
  HBA_GetFcpTargetMappingV2 h wwn_buffer probe (native s)
    = ((Raise (RuntimeError HBA_STATUS_ERROR_MORE_DATA), raw), w1) ->
  UNInt32_create_from_string raw = Ok n ->
  sized_buffer n = Ok buff ->
  _get_local_port_mappings_count h wwn_buffer s
    = (Ok n, after_call s (GetFcpTargetMappingV2 h wwn_buffer probe) w1) /\
  (exists zero,
     _build_empty_mappings_struct 0 = Ok zero /\ entry zero = [] /\
     probe = repeat x00 (FCPTargetMappingV2_sizeof zero)) /\
  (exists skeleton init,
     _build_empty_mappings_struct n = Ok skeleton /\
     NumberOfEntries skeleton = n /\ length (entry skeleton) = n /\
     FCPTargetMappingV2_write_to_string skeleton = Ok init /\
     buff = init ++ repeat x00 (FCPTargetMappingV2_sizeof skeleton - length init)) /\
  calls (_get_local_port_mappings h wwn_buffer s).2 =
    calls s ++ [GetFcpTargetMappingV2 h wwn_buffer probe;
                GetFcpTargetMappingV2 h wwn_buffer buff].
Proof.
  intros Hprobe Hcall Hn Hbuff.
  assert (_get_local_port_mappings_count h wwn_buffer s
          = (Ok n, after_call s (GetFcpTargetMappingV2 h wwn_buffer probe) w1))
    as Hcount.
  { rewrite (get_local_port_mappings_count_run h wwn_buffer s probe Hprobe).
    rewrite Hcall. cbn [is_RuntimeError args0].
    rewrite bool_decide_eq_true_2 by done. by rewrite Hn. }
  split; [exact Hcount|]. split; [|split].
  - unfold probe_buffer in Hprobe.
    destruct (_build_empty_mappings_struct 0) as [zero|e] eqn:Hzero;
      [|discriminate].
    exists zero. split; [done|]. split.
    + unfold _build_empty_mappings_struct in Hzero.
      destruct (FcpScsiEntryV2_create_from_string _); [|discriminate].
      by injection Hzero as <-.
    + cbn [rbind] in Hprobe. unfold c_buffer in Hprobe.
      rewrite repeat_length, Nat.leb_refl, Nat.sub_diag in Hprobe.
      injection Hprobe as <-. by rewrite app_nil_r.
  - unfold sized_buffer in Hbuff.
    destruct (_build_empty_mappings_struct n) as [skeleton|e] eqn:Hsk;
      [|discriminate].
    cbn [rbind] in Hbuff.
    destruct (FCPTargetMappingV2_write_to_string skeleton) as [init|e] eqn:Hinit;
      [|discriminate].
    cbn [rbind] in Hbuff. unfold c_buffer in Hbuff.
    destruct (length init <=? FCPTargetMappingV2_sizeof skeleton)%nat;
      [|discriminate].
    injection Hbuff as <-. exists skeleton, init.
    unfold _build_empty_mappings_struct in Hsk.
    destruct (FcpScsiEntryV2_create_from_string _); [|discriminate].
    injection Hsk as <-. cbn [NumberOfEntries entry].
    by rewrite repeat_length.
  - rewrite (get_local_port_mappings_run h wwn_buffer s _ n buff Hcount Hbuff).
    destruct (HBA_GetFcpTargetMappingV2 h wwn_buffer buff _) as [[r raw'] w2].
    cbn zeta.
    assert (forall A (x : result A * state world) c w,
              x.2 = after_call (after_call s (GetFcpTargetMappingV2 h wwn_buffer
                                                probe) w1) c w ->
              calls x.2 = calls s ++ [GetFcpTargetMappingV2 h wwn_buffer probe; c])
      as Hcalls.
    { intros A x c w ->. cbn [after_call calls].
      by rewrite <- app_assoc. }
    destruct r as [u|e]; [by eapply Hcalls|].
    destruct (is_RuntimeError e); [|by eapply Hcalls].
    case_bool_decide; by eapply Hcalls.
Qed.

(** C10: when the probe succeeds, or fails with a [RuntimeError] whose
    code is not "more data", the probe raises nothing and counts 0 rows,
    and the sized request is made all the same, on the buffer of a table
    without rows: the fetch makes the same two native calls. *)
Theorem C10_sized_request_always_issued (h : handle) (wwn_buffer : Z)
    (s : state world) (probe raw buff0 : Py.bytes) (r : result unit) (w1 : world) :
  probe_buffer = Ok probe ->
  HBA_GetFcpTargetMappingV2 h wwn_buffer probe (native s) = ((r, raw), w1) ->
  match r with
  | Ok _ => True
  | Raise e =>
      is_RuntimeError e = true /\ args0 e <> Some HBA_STATUS_ERROR_MORE_DATA
  end ->
  sized_buffer 0 = Ok buff0 ->
  let s1 := after_call s (GetFcpTargetMappingV2 h wwn_buffer probe) w1 in
  _get_local_port_mappings_count h wwn_buffer s = (Ok 0%nat, s1) /\
  calls (_get_local_port_mappings h wwn_buffer s).2 =
    calls s ++ [GetFcpTargetMappingV2 h wwn_buffer probe;
                GetFcpTargetMappingV2 h wwn_buffer buff0] /\
  native (_get_local_port_mappings h wwn_buffer s).2 =
    (HBA_GetFcpTargetMappingV2 h wwn_buffer buff0 w1).2.
Proof.
  intros Hprobe Hcall Hr Hbuff s1.
  assert (_get_local_port_mappings_count h wwn_buffer s = (Ok 0%nat, s1))
    as Hcount.
  { rewrite (get_local_port_mappings_count_run h wwn_buffer s probe Hprobe).
    rewrite Hcall. destruct r as [u|e]; [done|]. destruct Hr as [-> Hne].
    by rewrite bool_decide_eq_false_2. }
  split; [exact Hcount|].
  rewrite (get_local_port_mappings_run h wwn_buffer s _ 0%nat buff0 Hcount Hbuff).
  cbn [s1 after_call native].
  destruct (HBA_GetFcpTargetMappingV2 h wwn_buffer buff0 w1) as [[r2 raw2] w2].
  cbn zeta. unfold s1, after_call.
  destruct r2 as [u|e]; [by cbn; rewrite <- app_assoc|].
  destruct (is_RuntimeError e); [|by cbn; rewrite <- app_assoc].
  case_bool_decide; by cbn; rewrite <- app_assoc.
Qed.

End Mappings.

(** ** The adapter walk *)

Section Walk.
Context {headers : Headers} {host : Host} {decoder : Decoder}
  {package : Package} {world : Type} {c_api : CApi world}.
Local Open Scope M_scope.

Lemma g_seq_assoc (g1 g2 g3 : G world) (s : state world) :
  g_seq (g_seq g1 g2) g3 s = g_seq g1 (g_seq g2 g3) s.
Proof.
  unfold g_seq.
  destruct (g1 s) as [[ys [u|e]] s1]; [|done].
  destruct (g2 s1) as [[zs [u'|e]] s2]; [|done].
  destruct (g3 s2) as [[ws r] s3]. by rewrite app_assoc.
Qed.

Lemma g_seq_ext (g1 g2 g2' : G world) (s : state world) :
  (forall s', g2 s' = g2' s') -> g_seq g1 g2 s = g_seq g1 g2' s.
Proof.
  intros Hext. unfold g_seq.
  destruct (g1 s) as [[ys [u|e]] s1]; [|done]. by rewrite Hext.
Qed.

Lemma g_seq_bind {A} (m : M world A) (k : A -> G world) (g : G world)
    (s : state world) :
  g_seq (g_bind m k) g s = g_bind m (fun a => g_seq (k a) g) s.
Proof.
  unfold g_seq, g_bind. by destruct (m s) as [[a|e] s1].
Qed.

(** The loop over adapters runs its indices one after the other. *)
Lemma iter_adapters_loop_app (pre post : list nat) (body : Py.bytes -> G world)
    (s : state world) :
  _iter_adapters_loop (pre ++ post) body s =
    g_seq (_iter_adapters_loop pre body) (_iter_adapters_loop post body) s.
Proof.
  revert s. induction pre as [|i pre IH]; intros s.
  - cbn [app _iter_adapters_loop]. unfold g_seq, g_return.
    by destruct (_iter_adapters_loop post body s) as [[zs r] s'].
  - cbn [app _iter_adapters_loop]. rewrite g_seq_bind. unfold g_bind.
    destruct (native_call (GetAdapterName i) (HBA_GetAdapterName i) s)
      as [[name|e] s1]; [|done].
    rewrite (g_seq_ext _ _ _ s1 IH).
    by rewrite <- g_seq_assoc.
Qed.

(** C9: when fetching the attributes of an adapter raises
    [NotImplementedError], that adapter yields no port and ends without
    an error, its handle closed, and the walk goes on with the next
    adapter: the scan yields the ports of the adapters before it, then
    all that the remaining adapters yield. *)
Theorem C9_unsupported_adapter_skipped (pre post : list nat) (adapter_index : nat)
    (s0 s s1 s2 s3 s4 : state world) (ys : list Port) (adapter_name : Py.bytes)
    (h : handle) :
  _iter_adapters_loop pre _iter_ports_adapter s0 = ((ys, Ok tt), s) ->
  native_call (GetAdapterName adapter_index) (HBA_GetAdapterName adapter_index) s
    = (Ok adapter_name, s1) ->
  native_call (OpenAdapter adapter_name) (HBA_OpenAdapter adapter_name) s1
    = (Ok h, s2) ->
  _get_adapter_attributes h s2 = (Raise NotImplementedError, s3) ->
  native_call (CloseAdapter h) (HBA_CloseAdapter h) s3 = (Ok tt, s4) ->
  _iter_ports_adapter adapter_name s1 = (([], Ok tt), s4) /\
  _iter_adapters_loop (adapter_index :: post) _iter_ports_adapter s =
    _iter_adapters_loop post _iter_ports_adapter s4 /\
  _iter_adapters_loop (pre ++ adapter_index :: post) _iter_ports_adapter s0 =
    (let '((zs, r), s') := _iter_adapters_loop post _iter_ports_adapter s4 in
     ((ys ++ zs, r), s')).
Proof.
  intros Hpre Hname Hopen Hattrs Hclose.
  assert (_iter_ports_adapter adapter_name s1 = (([], Ok tt), s4)) as Hskip.
  { unfold _iter_ports_adapter, hbaapi_adapter, g_bind. rewrite Hopen.
    unfold g_finally. rewrite Hattrs. cbn [is_NotImplementedError].
    unfold g_return. by rewrite Hclose. }
  assert (_iter_adapters_loop (adapter_index :: post) _iter_ports_adapter s =
          _iter_adapters_loop post _iter_ports_adapter s4) as Hnext.
  { cbn [_iter_adapters_loop]. unfold g_bind. rewrite Hname.
    unfold g_seq. rewrite Hskip.
    by destruct (_iter_adapters_loop post _iter_ports_adapter s4)
      as [[zs r] s']. }
  split; [exact Hskip|]. split; [exact Hnext|].
  rewrite iter_adapters_loop_app. unfold g_seq. rewrite Hpre.
  by rewrite Hnext.
Qed.

End Walk.

(** The theorems about the generator are run on the host of [Example]. *)
Section OnExample.
Import Example.

Lemma C1_discovered_ports_filtered_witness :
  exists port s',
    _get_local_port 1 Example.adapter_attributes 0 Example.start = (Ok port, s') /\
    map port_fcid (discovered_ports port) = [0x010200] /\
    Forall (fun remote_port =>
              (port_fcid remote_port ∉ WELL_KNOWN_FC_ADDRESSES) /\
              port_state remote_port <> Some "offline")
      (discovered_ports port).
Proof.
  destruct (_get_local_port 1 Example.adapter_attributes 0 Example.start)
    as [[port|e] s'] eqn:Hrun; [|by vm_compute in Hrun].
  exists port, s'. split; [reflexivity|]. split.
  - vm_compute in Hrun. by injection Hrun as <- <-.
  - by apply (C1_discovered_ports_filtered 1 0%nat Example.start)
      with (adapter_attributes := Example.adapter_attributes) (s' := s').
Defined.

Lemma C2_remote_port_hct_witness :
  exists port s',
    _get_local_port 1 Example.adapter_attributes 0 Example.start = (Ok port, s') /\
    hct port = (3, -1, -1) /\
    map hct (discovered_ports port) = [(3, 0, 3)] /\
    exists table port_mappings,
      all_port_mappings port = Some table /\
      _mappings_to_dict table = Ok port_mappings /\
      Forall (fun remote_port =>
                exists channel target,
                  hct remote_port = ((hct port).1.1, channel, target) /\
                  (channel, target) =
                    default (-1, -1)
                      (port_mappings !! _address (port_wwn remote_port)))
        (discovered_ports port).
Proof.
  destruct (_get_local_port 1 Example.adapter_attributes 0 Example.start)
    as [[port|e] s'] eqn:Hrun; [|by vm_compute in Hrun].
  exists port, s'. split; [reflexivity|].
  pose proof (C2_remote_port_hct 1 Example.adapter_attributes 0%nat
                Example.start s' port Hrun) as Hhct.
  vm_compute in Hrun. injection Hrun as <- <-.
  split; [reflexivity|]. split; [reflexivity|]. exact Hhct.
Defined.

Lemma C3_mapping_unavailable_witness :
  _get_local_port_mappings 2 5 Example.start =
    (Ok FCPTargetMappingV2_create_empty,
     after_call (after_call Example.start
                   (GetFcpTargetMappingV2 2 5 [x00; x00; x00; x00]) 1%nat)
       (GetFcpTargetMappingV2 2 5 [x00; x00; x00; x00]) 2%nat) /\
  _get_local_port_mappings 3 5 Example.start =
    (Raise (RuntimeError 3),
     after_call (after_call Example.start
                   (GetFcpTargetMappingV2 3 5 [x00; x00; x00; x00]) 1%nat)
       (GetFcpTargetMappingV2 3 5 [x00; x00; x00; x00]) 2%nat).
Proof.
  split.
  - apply (C3_mapping_unavailable 2 5 Example.start _ 0%nat
             [x00; x00; x00; x00] [x00; x00; x00; x00] 5 2%nat);
      [reflexivity | reflexivity | reflexivity |].
    apply (bool_decide_unpack _). exact I.
  - apply (C3_mapping_unavailable 3 5 Example.start _ 0%nat
             [x00; x00; x00; x00] [x00; x00; x00; x00] 3 2%nat);
      [reflexivity | reflexivity | reflexivity |].
    apply (bool_decide_unpack _). exact I.
Defined.

Lemma C4_two_phase_fetch_witness :
  _get_local_port_mappings_count 1 5 Example.start =
    (Ok 1%nat,
     after_call Example.start (GetFcpTargetMappingV2 1 5 [x00; x00; x00; x00])
       1%nat) /\
  calls (_get_local_port_mappings 1 5 Example.start).2 =
    [GetFcpTargetMappingV2 1 5 [x00; x00; x00; x00];
     GetFcpTargetMappingV2 1 5
       [x01; x00; x00; x00; x00; x00; x00; x00; x00; x00; x00; x00; x00; x00]].
Proof.
  destruct (C4_two_phase_fetch 1 5 Example.start [x00; x00; x00; x00]
              [x01; x00; x00; x00]
              [x01; x00; x00; x00; x00; x00; x00; x00; x00; x00; x00; x00; x00;
               x00] 1%nat 1%nat)
    as (Hcount & _ & _ & Hcalls); try reflexivity.
  split; [exact Hcount | exact Hcalls].
Defined.

Lemma C10_sized_request_always_issued_witness :
  calls (_get_local_port_mappings 2 5 Example.start).2 =
    [GetFcpTargetMappingV2 2 5 [x00; x00; x00; x00];
     GetFcpTargetMappingV2 2 5 [x00; x00; x00; x00]] /\
  _get_local_port_mappings_count 3 5 Example.start =
    (Ok 0%nat,
     after_call Example.start (GetFcpTargetMappingV2 3 5 [x00; x00; x00; x00])
       1%nat) /\
  calls (_get_local_port_mappings 3 5 Example.start).2 =
    [GetFcpTargetMappingV2 3 5 [x00; x00; x00; x00];
     GetFcpTargetMappingV2 3 5 [x00; x00; x00; x00]].
Proof.
  destruct (C10_sized_request_always_issued 2 5 Example.start
              [x00; x00; x00; x00] [x00; x00; x00; x00] [x00; x00; x00; x00]
              (Ok tt) 1%nat)
    as (_ & Hcalls2 & _); [reflexivity | reflexivity | exact I | reflexivity |].
  destruct (C10_sized_request_always_issued 3 5 Example.start
              [x00; x00; x00; x00] [x00; x00; x00; x00] [x00; x00; x00; x00]
              (Raise (RuntimeError 2)) 1%nat)
    as (Hcount3 & Hcalls3 & _);
    [reflexivity | reflexivity | split; [reflexivity | discriminate]
    | reflexivity |].
  split; [exact Hcalls2|]. split; [exact Hcount3 | exact Hcalls3].
Defined.

Lemma C9_unsupported_adapter_skipped_witness :
  _iter_ports_adapter [x00] (after_call Example.start (GetAdapterName 0) O)
    = (([], Ok tt),
       after_call
         (after_call
            (after_call (after_call Example.start (GetAdapterName 0) O)
               (OpenAdapter [x00]) O)
            (GetAdapterAttributes 0) O)
         (CloseAdapter 0) O) /\
  (exists local_port s',
     _iter_adapters_loop [0; 1]%nat _iter_ports_adapter Example.start
       = (([local_port], Ok tt), s') /\
     port_wwn local_port = {| _address := "10000000c9000001" |}).
Proof.
  destruct (C9_unsupported_adapter_skipped [] [1%nat] 0%nat Example.start
              Example.start
              (after_call Example.start (GetAdapterName 0) O)
              (after_call (after_call Example.start (GetAdapterName 0) O)
                 (OpenAdapter [x00]) O)
              (after_call
                 (after_call (after_call Example.start (GetAdapterName 0) O)
                    (OpenAdapter [x00]) O)
                 (GetAdapterAttributes 0) O)
              (after_call
                 (after_call
                    (after_call (after_call Example.start (GetAdapterName 0) O)
                       (OpenAdapter [x00]) O)
                    (GetAdapterAttributes 0) O)
                 (CloseAdapter 0) O)
              [] [x00] 0)
    as (Hskip & _ & Hwalk); try reflexivity.
  split; [exact Hskip|].
  cbn [app] in Hwalk. rewrite Hwalk.
  destruct (_iter_adapters_loop [1%nat] _iter_ports_adapter _)
    as [[zs r] s'] eqn:Hrest.
  vm_compute in Hrest. injection Hrest as <- <- <-.
  eexists _, _. split; reflexivity.
Defined.

(** The same port on AIX: the channel is 0 and the target is the WWN of
    the remote port read as a number, not the target 3 of the table. *)
Lemma get_local_port_on_aix :
  exists port s',
    _get_local_port (host := Example.aix_host) 1 Example.adapter_attributes 0
      Example.start = (Ok port, s') /\
    map hct (discovered_ports port) = [(3, 0, 0x50000000c900002a)].
Proof.
  destruct (_get_local_port (host := Example.aix_host) 1
              Example.adapter_attributes 0 Example.start)
    as [[port|e] s'] eqn:Hrun; [|by vm_compute in Hrun].
  exists port, s'. split; [reflexivity|].
  vm_compute in Hrun. by injection Hrun as <- <-.
Qed.

(** The whole scan of the example host: the adapter without attribute
    reporting is passed over, the port of the other adapter is yielded
    without its mapping table, and every handle is closed. *)
Lemma iter_ports_on_example :
  exists local_port s',
    iter_ports Example.start = (([local_port], Ok tt), s') /\
    all_port_mappings local_port = None /\
    map hct (discovered_ports local_port) = [(3, 0, 3)] /\
    List.filter (fun c => match c with
                          | OpenAdapter _ | CloseAdapter _
                          | LoadLibrary | FreeLibrary => true
                          | _ => false
                          end) (calls s')
      = [LoadLibrary; OpenAdapter [x00]; CloseAdapter 0; OpenAdapter [x01];
         CloseAdapter 1; FreeLibrary].
Proof.
  destruct (iter_ports Example.start) as [[ports r] s'] eqn:Hrun.
  vm_compute in Hrun. injection Hrun as <- <- <-.
  eexists _, _. repeat split.
Qed.

End OnExample.

(** * Further properties *)

(** ** World wide names and enumerated attributes *)

Lemma translate_wwn_eight_bytes_witness :
  translate_wwn (host := Example.host) (Some Example.remote_wwn)
    = Ok {| _address := "50000000c900002a" |} /\
  Py.int16 "50000000c900002a" = Ok 0x50000000c900002a.
Proof.
  destruct (translate_wwn_eight_bytes (host := Example.host) Example.remote_wwn)
    as (Hwwn & _ & _ & Hint); [reflexivity|].
  split; [exact Hwwn | exact Hint].
Defined.

Lemma translate_wwn_Some {host : Host} (source : Py.bytes) :
  translate_wwn (Some source) = Ok {| _address := wwn_address source |}.
Proof. reflexivity. Qed.

Lemma hexlify_inj (a b : Py.bytes) : Py.hexlify a = Py.hexlify b -> a = b.
Proof.
  intros Heq. apply (f_equal Py.unhexlify) in Heq.
  rewrite !unhexlify_hexlify in Heq. by injection Heq.
Qed.

(** Different raw WWNs never translate to the same [WWN]: on Python 3
    for all byte arrays, on Python 2 for all non-empty ones (the empty
    array shares the address of eight zero bytes there). *)
Theorem translate_wwn_injective {host : Host} (a b : Py.bytes) :
  PY3 = true \/ (a <> [] /\ b <> []) ->
  translate_wwn (Some a) = translate_wwn (Some b) -> a = b.
Proof.
  intros Hcase. rewrite !translate_wwn_Some. unfold wwn_address.
  intros [= Heq]. apply hexlify_inj in Heq.
  destruct Hcase as [Hpy|[Ha Hb]]; [by rewrite Hpy in Heq|].
  destruct PY3; [done|].
  by rewrite !bool_decide_eq_false_2 in Heq.
Qed.

Lemma translate_wwn_injective_witness :
  translate_wwn (host := Example.host) (Some Example.remote_wwn) <>
  translate_wwn (host := Example.host) (Some Example.local_wwn).
Proof.
  intros Heq.
  apply (translate_wwn_injective (host := Example.host)) in Heq;
    [discriminate Heq | left; reflexivity].
Defined.

Lemma dict_of_items_lookup_Some {V} (items : list (Z * V)) (k : Z) (v : V) :
  Py.dict_of_items items !! k = Some v -> (k, v) ∈ items.
Proof.
  induction items as [|[k' v'] items IH] using rev_ind.
  - intros Hl. unfold Py.dict_of_items in Hl. simpl in Hl.
    by rewrite lookup_empty in Hl.
  - rewrite dict_of_items_snoc. intros Hl.
    apply lookup_insert_Some in Hl as [[-> ->]|[_ Hl]].
    + apply elem_of_app. right. by left.
    + apply elem_of_app. left. by apply IH.
Qed.

(** [translate_port_speed] only ever answers one of ten speeds, 0
    included, whatever the code and whatever the constants of the header;
    and when the eleven codes of the header are different, each code gives
    its own speed. *)
Theorem translate_port_speed_values {headers : Headers} (source : Z) :
  translate_port_speed source ∈ port_speed_values /\
  (NoDup port_speed_codes ->
   translate_port_speed HBA_PORTSPEED_UNKNOWN = 0 /\
   translate_port_speed HBA_PORTSPEED_1GBIT = 1 /\
   translate_port_speed HBA_PORTSPEED_2GBIT = 2 /\
   translate_port_speed HBA_PORTSPEED_10GBIT = 10 /\
   translate_port_speed HBA_PORTSPEED_4GBIT = 4 /\
   translate_port_speed HBA_PORTSPEED_8GBIT = 8 /\
   translate_port_speed HBA_PORTSPEED_16GBIT = 16 /\
   translate_port_speed HBA_PORTSPEED_32GBIT = 32 /\
   translate_port_speed HBA_PORTSPEED_20GBIT = 20 /\
   translate_port_speed HBA_PORTSPEED_40GBIT = 40).
Proof.
  unfold translate_port_speed.
  match goal with |- context [Py.dict_of_items ?l] => set (items := l) end.
  split.
  - destruct (Py.dict_of_items items !! source) as [v|] eqn:Hl; cbn [default].
    + apply dict_of_items_lookup_Some in Hl.
      apply (list_elem_of_fmap_2 snd) in Hl. cbn [snd] in Hl.
      revert Hl. cbv [items fmap list_fmap snd port_speed_values].
      rewrite !elem_of_cons, !elem_of_nil. tauto.
    + by left.
  - intros Hnd. change port_speed_codes with (items.*1) in Hnd.
    repeat split;
      (erewrite dict_of_items_lookup_NoDup;
       [reflexivity | exact Hnd | cbv [items]; rewrite !elem_of_cons; tauto]).
Qed.

Lemma translate_port_speed_values_witness :
  translate_port_speed (headers := Example.headers) 16 = 8 /\
  translate_port_speed (headers := Example.headers) 4 = 10.
Proof.
  destruct (translate_port_speed_values (headers := Example.headers) 0)
    as (_ & Hcodes).
  destruct Hcodes as (_ & _ & _ & H10 & _ & H8 & _).
  { apply (bool_decide_unpack _). exact I. }
  split; [exact H8 | exact H10].
Defined.

(** When the eight state codes of the header are different, each is
    translated to its name: the "unknown" code to [None], not to an error,
    and the loopback code to the name the module spells ['lookback']. *)
Theorem translate_port_state_names {headers : Headers} :
  NoDup port_state_codes ->
  translate_port_state HBA_PORTSTATE_UNKNOWN = Ok None /\
  translate_port_state HBA_PORTSTATE_ONLINE = Ok (Some "online") /\
  translate_port_state HBA_PORTSTATE_OFFLINE = Ok (Some "offline") /\
  translate_port_state HBA_PORTSTATE_BYPASSED = Ok (Some "bypassed") /\
  translate_port_state HBA_PORTSTATE_DIAGNOSTICS = Ok (Some "diagnostics") /\
  translate_port_state HBA_PORTSTATE_LINKDOWN = Ok (Some "link down") /\
  translate_port_state HBA_PORTSTATE_ERROR = Ok (Some "error") /\
  translate_port_state HBA_PORTSTATE_LOOPBACK = Ok (Some "lookback").
Proof.
  intros Hnd. unfold translate_port_state.
  match goal with |- context [Py.dict_of_items ?l] => set (items := l) end.
  change port_state_codes with (items.*1) in Hnd.
  repeat split;
    (erewrite dict_of_items_lookup_NoDup;
     [reflexivity | exact Hnd | cbv [items]; rewrite !elem_of_cons; tauto]).
Qed.

Lemma translate_port_state_names_witness :
  translate_port_state (headers := Example.headers) 1 = Ok None /\
  translate_port_state (headers := Example.headers) 8 = Ok (Some "lookback").
Proof.
  destruct (translate_port_state_names (headers := Example.headers))
    as (Hunknown & _ & _ & _ & _ & _ & _ & Hloop).
  { apply (bool_decide_unpack _). exact I. }
  split; [exact Hunknown | exact Hloop].
Defined.

(** ** Supported speeds, whatever the flags *)

Section SupportedSpeedsBounds.
Context {headers : Headers}.

(** The loop appends the speeds of some of the keys, in their order. *)
Lemma supported_speeds_loop_sublist (translation : gmap Z Z) (keys : list Z)
    (source : Z) (acc : list Z) :
  exists picked,
    sublist picked keys /\
    supported_speeds_loop translation keys source acc =
      acc ++ map (fun key => default 0 (translation !! key)) picked.
Proof.
  revert source acc. induction keys as [|key keys IH]; intros source acc.
  - exists []. split; [constructor|]. simpl. by rewrite app_nil_r.
  - cbn [supported_speeds_loop].
    destruct (negb (Z.land key source =? 0)).
    + destruct (IH (source - key) (acc ++ [default 0 (translation !! key)]))
        as (picked & Hsub & ->).
      exists (key :: picked). split; [by constructor|].
      by rewrite <- app_assoc.
    + destruct (IH source acc) as (picked & Hsub & ->).
      exists picked. split; [by constructor|done].
Qed.

Lemma supported_speed_of_key (key : Z) :
  key ∈ supported_speed_keys ->
  (key, default 0 (supported_speeds_translation !! key)) ∈ supported_speed_flags.
Proof.
  intros Hkey. apply supported_speed_keys_elem in Hkey.
  apply dict_of_items_dom in Hkey as [v Hv].
  change (Py.dict_of_items supported_speed_flags)
    with supported_speeds_translation in Hv.
  rewrite Hv. cbn [default]. by apply dict_of_items_lookup_Some.
Qed.

(** Whatever the values of the nine flags and whatever the mask, negative
    ones included, [translate_port_supported_speeds] lists each speed at
    most once, lists only speeds of its table, and so lists at most nine. *)
Theorem translate_port_supported_speeds_bounds (source : Z) :
  NoDup (translate_port_supported_speeds source) /\
  (forall v, v ∈ translate_port_supported_speeds source ->
             v ∈ supported_speed_values) /\
  (length (translate_port_supported_speeds source) <= 9)%nat.
Proof.
  unfold translate_port_supported_speeds. fold supported_speed_keys.
  destruct (supported_speeds_loop_sublist supported_speeds_translation
              supported_speed_keys source []) as (picked & Hsub & ->).
  cbn [app].
  set (speed := fun key => default 0 (supported_speeds_translation !! key)).
  assert (forall key, key ∈ picked -> (key, speed key) ∈ supported_speed_flags)
    as Hflag.
  { intros key Hkey. apply supported_speed_of_key.
    by eapply elem_of_sublist. }
  assert (NoDup (map speed picked)) as Hnd.
  { apply NoDup_fmap_2_strong.
    - intros k k' Hk Hk' Heq.
      pose proof (Hflag k Hk) as H1. pose proof (Hflag k' Hk') as H2.
      rewrite Heq in H1. revert H1 H2. generalize (speed k'). intros v.
      unfold supported_speed_flags. rewrite !elem_of_cons, !elem_of_nil.
      intros H1 H2.
      repeat match goal with
             | H : _ \/ _ |- _ => destruct H as [H|H]
             | H : (_, _) = (_, _) |- _ => injection H as ? ?
             | H : False |- _ => destruct H
             end; subst; try done; try lia.
    - eapply sublist_NoDup; [apply supported_speed_keys_NoDup | exact Hsub]. }
  assert (forall v, v ∈ map speed picked -> v ∈ supported_speed_values) as Hin.
  { intros v Hv. apply list_elem_of_fmap in Hv as (key & -> & Hkey).
    apply Hflag in Hkey. apply (list_elem_of_fmap_2 snd) in Hkey.
    exact Hkey. }
  split; [by rewrite merge_sort_Permutation|].
  split; [intros v; rewrite merge_sort_Permutation; apply Hin|].
  rewrite merge_sort_Permutation.
  change 9%nat with (length supported_speed_values).
  apply submseteq_length, NoDup_submseteq; [exact Hnd | exact Hin].
Qed.

End SupportedSpeedsBounds.

(** ** Normalized ports *)

Lemma lstrip_spec (c : byte) (b : Py.bytes) :
  exists n, b = repeat c n ++ Py.lstrip c b /\ head (Py.lstrip c b) <> Some c.
Proof.
  induction b as [|x b IH].
  - by exists 0%nat.
  - cbn [Py.lstrip]. destruct (Byte.eqb x c) eqn:Hx.
    + apply Byte.byte_dec_bl in Hx as ->.
      destruct IH as (n & Hb & Hhead). exists (S n). split; [|done].
      cbn [repeat app]. by rewrite <- Hb.
    + exists 0%nat. split; [done|]. cbn [head]. intros [= ->].
      by apply Byte.eqb_false in Hx.
Qed.

(** [strip] removes the given byte from both ends and nothing else. *)
Lemma strip_spec (c : byte) (b : Py.bytes) :
  (exists n m, b = repeat c n ++ Py.strip c b ++ repeat c m) /\
  head (Py.strip c b) <> Some c /\ last (Py.strip c b) <> Some c.
Proof.
  unfold Py.strip.
  destruct (lstrip_spec c b) as (n & Hb & Hhead).
  destruct (lstrip_spec c (rev (Py.lstrip c b))) as (m & Hr & Hlast).
  set (b1 := Py.lstrip c b) in *. set (b2 := Py.lstrip c (rev b1)) in *.
  assert (b1 = rev b2 ++ repeat c m) as Hb1.
  { rewrite <- (rev_involutive b1), Hr, rev_app_distr.
    f_equal. clear. induction m as [|m IH]; [done|].
    cbn [repeat rev]. rewrite IH. clear.
    induction m as [|m IH]; [done|]. cbn [repeat app]. by rewrite IH. }
  split; [exists n, m; by rewrite <- Hb1|]. split.
  - destruct (rev b2) as [|x l] eqn:Hrev; [done|].
    rewrite Hb1 in Hhead. exact Hhead.
  - destruct b2 as [|x l]; [done|].
    cbn [rev]. rewrite last_snoc. exact Hlast.
Qed.

Section PortObject.
Context {headers : Headers} {host : Host}.

(** [get_port_object] succeeds exactly when a node WWN is there (of the
    adapter or else of the port), the port type is in [HBA_PORTTYPE], the
    port state is one of the eight known codes, and the fabric name is
    there. *)
Theorem get_port_object_succeeds_iff
    (adapter_attributes : option HBA_AdapterAttributes)
    (port_attributes : HBA_PortAttributes) :
  (exists port, get_port_object adapter_attributes port_attributes = Ok port) <->
  (is_Some (Py.or_seq (adapter_attributes ≫= aa_NodeWWN)
              (pa_NodeWWN port_attributes)) /\
   is_Some (HBA_PORTTYPE !! pretty (PortType port_attributes)) /\
   PortState port_attributes ∈ port_state_codes /\
   is_Some (FabricName port_attributes)).
Proof.
  unfold get_port_object.
  destruct (Py.or_seq _ _) as [node|]; cbn [translate_wwn rbind];
    [|split; [intros [? [=]] | intros [[? [=]] _]]].
  rewrite translate_port_type_lookup.
  destruct (HBA_PORTTYPE !! _) as [ty|]; cbn [rbind];
    [|split; [intros [? [=]] | intros (_ & [? [=]] & _)]].
  destruct (translate_port_state (PortState port_attributes)) as [st|e] eqn:Hst;
    cbn [rbind].
  - assert (PortState port_attributes ∈ port_state_codes) as Hin.
    { destruct (decide (PortState port_attributes ∈ port_state_codes)) as [|Hn];
        [done|].
      apply translate_port_state_KeyError in Hn. congruence. }
    destruct (FabricName port_attributes) as [fabric|]; cbn [translate_wwn rbind].
    + split; [intros _|intros _; by eexists].
      split; [by eexists|]. split; [by eexists|]. split; [done|by eexists].
    + split; [intros [? [=]] | intros (_ & _ & _ & [? [=]])].
  - split; [intros [? [=]]|]. intros (_ & _ & Hin & _). exfalso.
    assert (e = KeyError) as ->.
    { unfold translate_port_state in Hst. destruct (_ !! _); congruence. }
    by apply translate_port_state_KeyError in Hst.
Qed.

(** A remote port (built without adapter attributes) has its [port_fcid]
    and WWN from the port record, every adapter-scope text empty, no
    [hct] yet and nothing attached; and its device name is the native
    field without the NUL bytes at either end. *)
Theorem get_port_object_remote (port_attributes : HBA_PortAttributes) (port : Port) :
  get_port_object None port_attributes = Ok port ->
  port_fcid port = PortFcId port_attributes /\
  port_wwn port = {| _address := wwn_address (PortWWN port_attributes) |} /\
  Some (node_wwn port) = (fun w => {| _address := wwn_address w |})
                           <$> pa_NodeWWN port_attributes /\
  [driver_name port; driver_version port; manufacturer port; serial_number port;
   model port; model_description port; hardware_version port;
   firmware_version port; option_rom_version port] = repeat [] 9 /\
  hct port = (-1, -1, -1) /\ discovered_ports port = [] /\
  all_port_mappings port = None /\
  exists name n m,
    os_device_name port = Some name /\
    OSDeviceName port_attributes = repeat x00 n ++ name ++ repeat x00 m /\
    head name <> Some x00 /\ last name <> Some x00.
Proof.
  unfold get_port_object. cbn [mbind option_bind Py.or_seq].
  destruct (pa_NodeWWN port_attributes) as [node|] eqn:Hnode;
    cbn [translate_wwn rbind]; [|discriminate].
  destruct (translate_port_type _) as [ty|]; cbn [rbind]; [|discriminate].
  destruct (translate_port_state _) as [st|]; cbn [rbind]; [|discriminate].
  destruct (FabricName port_attributes) as [fabric|];
    cbn [translate_wwn rbind]; [|discriminate].
  intros [= <-]. cbn.
  repeat split.
  destruct (strip_spec x00 (OSDeviceName port_attributes))
    as ((n & m & Hseg) & Hhead & Hlast).
  by exists (Py.strip x00 (OSDeviceName port_attributes)), n, m.
Qed.

End PortObject.

Lemma get_port_object_remote_witness :
  exists port,
    get_port_object (headers := Example.headers) (host := Example.host) None
      (Example.port_attributes Example.remote_wwn 0x010200 2
         [x00; x53; x00; x33; x00; x00] 0) = Ok port /\
    os_device_name port = Some [x53; x00; x33] /\
    driver_name port = [] /\ port_fcid port = 0x010200.
Proof.
  destruct (get_port_object (headers := Example.headers) (host := Example.host)
              None
              (Example.port_attributes Example.remote_wwn 0x010200 2
                 [x00; x53; x00; x33; x00; x00] 0)) as [port|e] eqn:Hport;
    [|discriminate Hport].
  exists port. split; [reflexivity|].
  destruct (get_port_object_remote (headers := Example.headers)
              (host := Example.host) _ port Hport)
    as (Hfcid & _ & _ & Htexts & _).
  injection Htexts as Hdriver _.
  injection Hport as <-.
  split; [reflexivity|]. split; [reflexivity | exact Hfcid].
Defined.

(** ** The host number of a local port *)

Lemma take_while_Forall {A} (p : A -> bool) (l : list A) :
  Forall (fun x => p x = true) (take_while p l).
Proof.
  induction l as [|x l IH]; [constructor|]. cbn [take_while].
  destruct (p x) eqn:Hp; by constructor.
Qed.

Lemma take_while_app {A} (p : A -> bool) (l1 l2 : list A) :
  Forall (fun x => p x = true) l1 -> (head l2 ≫= fun x => Some (p x)) <> Some true ->
  take_while p (l1 ++ l2) = l1.
Proof.
  intros Hall Hstop. induction Hall as [|x l1 Hx _ IH].
  - destruct l2 as [|y l2]; [done|]. cbn in Hstop |- *.
    destruct (p y); [done|done].
  - cbn [app take_while]. by rewrite Hx, IH.
Qed.

Lemma int10_from_nonneg (digits : Py.bytes) (acc : Z) :
  Forall (fun d => is_digit d = true) digits -> 0 <= acc ->
  0 <= fold_left (fun acc d => 10 * acc + (Z.of_N (Byte.to_N d) - 48)) digits acc.
Proof.
  intros Hall. revert acc. induction Hall as [|d digits Hd _ IH]; intros acc Hacc;
    [done|].
  cbn [fold_left]. apply IH. unfold is_digit in Hd.
  apply andb_true_iff in Hd as [Hlo _]. apply N.leb_le in Hlo. lia.
Qed.

Lemma search_host_digits (b digits : Py.bytes) :
  search_host b = Some digits -> Forall (fun d => is_digit d = true) digits.
Proof.
  unfold search_host, trailing_digits.
  assert (forall l, Forall (fun d => is_digit d = true) (rev (take_while is_digit l)))
    as Hrev.
  { intros l. apply Forall_forall. intros d Hd.
    apply list_elem_of_In, in_rev, list_elem_of_In in Hd.
    revert d Hd. apply Forall_forall, take_while_Forall. }
  destruct (rev (take_while is_digit (rev b))) as [|d l] eqn:Hd.
  - destruct (rev b) as [|x before]; [discriminate|].
    destruct x; try discriminate.
    destruct (rev (take_while is_digit (rev (rev before)))) as [|d l] eqn:Hd';
      [discriminate|].
    intros [= <-]. rewrite <- Hd'. apply Hrev.
  - intros [= <-]. rewrite <- Hd. apply Hrev.
Qed.

Lemma populate_local_port_hct_host (port : Port) :
  exists host_number,
    _populate_local_port_hct port = set_hct port (host_number, -1, -1) /\
    (host_number = -1 \/ 0 <= host_number).
Proof.
  unfold _populate_local_port_hct.
  destruct (os_device_name port) as [name|]; [|exists (-1); auto].
  destruct (search_host (Py.strip x3a name)) as [digits|] eqn:Hs;
    [|exists (-1); auto].
  exists (int10 digits). split; [done|]. right.
  apply int10_from_nonneg; [|done]. by eapply search_host_digits.
Qed.

(** [_populate_local_port_hct] changes the [hct] and nothing else; the
    channel and the target it writes are -1, and the host is -1 or a
    natural number. *)
Theorem populate_local_port_hct_shape (port : Port) :
  exists host_number,
    _populate_local_port_hct port = set_hct port (host_number, -1, -1) /\
    (host_number = -1 \/ 0 <= host_number).
Proof. apply populate_local_port_hct_host. Qed.

Lemma lstrip_id (c : byte) (b : Py.bytes) :
  head b <> Some c -> Py.lstrip c b = b.
Proof.
  destruct b as [|x b]; [done|]. cbn. intros Hne.
  destruct (Byte.eqb x c) eqn:Hx; [|done].
  apply Byte.byte_dec_bl in Hx as ->. done.
Qed.

Lemma lstrip_repeat_app (c : byte) (n : nat) (b : Py.bytes) :
  Py.lstrip c (repeat c n ++ b) = Py.lstrip c b.
Proof.
  induction n as [|n IH]; [done|]. cbn [repeat app Py.lstrip].
  by rewrite Byte.byte_dec_lb.
Qed.

(** A device name that is a text not ending in a digit and not starting
    with a colon, then decimal digits, then any number of colons, gives the
    host number those digits write. *)
Theorem populate_local_port_hct_digits (port : Port)
    (prefix digits : Py.bytes) (colons : nat) :
  os_device_name port = Some (prefix ++ digits ++ repeat x3a colons) ->
  digits <> [] -> Forall (fun d => is_digit d = true) digits ->
  head prefix <> Some x3a ->
  (forall x, last prefix = Some x -> is_digit x = false) ->
  hct (_populate_local_port_hct port) = (int10 digits, -1, -1).
Proof.
  intros Hname Hne Hdigits Hhead Hlast.
  unfold _populate_local_port_hct. rewrite Hname.
  assert (Py.strip x3a (prefix ++ digits ++ repeat x3a colons) = prefix ++ digits)
    as ->.
  { unfold Py.strip.
    rewrite (lstrip_id x3a (prefix ++ digits ++ repeat x3a colons)).
    - rewrite !rev_app_distr, rev_repeat, <- app_assoc, lstrip_repeat_app.
      rewrite lstrip_id; [by rewrite <- rev_app_distr, rev_involutive|].
      destruct digits as [|d digits] using rev_ind; [done|].
      rewrite rev_app_distr. cbn. intros [= ->].
      apply Forall_app in Hdigits as [_ Hd]. by inversion Hd.
    - destruct prefix as [|x prefix]; [|exact Hhead].
      destruct digits as [|d digits]; [done|]. cbn. intros [= ->].
      by inversion Hdigits. }
  assert (search_host (prefix ++ digits) = Some digits) as ->.
  { unfold search_host, trailing_digits. rewrite rev_app_distr.
    rewrite take_while_app.
    - rewrite rev_involutive. by destruct digits.
    - apply Forall_forall. intros d Hd.
      apply list_elem_of_In, in_rev, list_elem_of_In in Hd.
      by eapply Forall_forall in Hdigits.
    - destruct prefix as [|x prefix] using rev_ind; [done|].
      rewrite rev_app_distr. cbn. rewrite (Hlast x); [done|].
      apply last_snoc. }
  reflexivity.
Qed.

Lemma populate_local_port_hct_digits_witness :
  hct (_populate_local_port_hct example_port) = (3, -1, -1).
Proof.
  apply (populate_local_port_hct_digits example_port [x53; x63; x73; x69] [x33]
           1%nat); [reflexivity | discriminate | | discriminate |].
  - repeat constructor.
  - intros x [= <-]. reflexivity.
Defined.

(** ** Statistics of a local port *)

Lemma merge_statistics_loop_inv (hba_port_stats hba_fc4_stats : option native_statistics)
    (names : list string) (port_statistics merged : PortStatistics) :
  _merge_statistics_loop hba_port_stats hba_fc4_stats names port_statistics
    = Ok merged ->
  forall name, name ∈ names ->
    exists v, counter_source hba_port_stats hba_fc4_stats name = Ok v /\
              merged !! name = Some v.
Proof.
  revert port_statistics.
  induction names as [|n names IH]; intros port_statistics Hrun name Hin.
  - by apply elem_of_nil in Hin.
  - rewrite merge_statistics_loop_step in Hrun.
    destruct (counter_source hba_port_stats hba_fc4_stats n) as [v|e] eqn:Hv;
      [|discriminate].
    destruct (decide (name ∈ names)) as [Hn|Hn]; [by eapply IH|].
    apply elem_of_cons in Hin as [->|Hin]; [|done].
    exists v. split; [done|].
    destruct (merge_statistics_loop_ok hba_port_stats hba_fc4_stats names
                (<[n := v]> port_statistics)) as (merged' & Hm & _ & Hout).
    { intros name Hname. destruct (IH _ Hrun name Hname) as (v' & Hv' & _).
      by exists v'. }
    rewrite Hrun in Hm. injection Hm as <-.
    rewrite (Hout n Hn). apply lookup_insert_eq.
Qed.

Section LocalPortStatistics.
Context {headers : Headers} {host : Host} {decoder : Decoder}
  {package : Package} {world : Type} {c_api : CApi world}.

(** When [HBA_GetPortStatistics] raises, no other native call is made: a
    [RuntimeError] (a [NotImplementedError] too) gives the statistics
    [PortStatistics()] starts with, untouched, and any other exception
    reaches the caller. *)
Theorem get_local_port_statistics_unsupported (h : handle) (port_index : nat)
    (wwn_buffer : Z) (s : state world) (e : exn) (w : world) :
  HBA_GetPortStatistics h port_index (native s) = (Raise e, w) ->
  _get_local_port_statistics h port_index wwn_buffer s =
    (if is_RuntimeError e then Ok PortStatistics_new else Raise e,
     after_call s (GetPortStatistics h port_index) w).
Proof.
  intros Hcall. unfold _get_local_port_statistics, native_call at 1.
  rewrite Hcall. unfold after_call. by destruct (is_RuntimeError e).
Qed.

(** When the link-level statistics are read and [HBA_GetFC4Statistics]
    raises a [RuntimeError] or a [NotImplementedError], the error is
    swallowed: the result is the merge of the link-level record alone, so
    every [fcp_] counter of a result is -1 and every other counter is the
    field of the link-level record under its mangled name. *)
Theorem get_local_port_statistics_without_fc4 (h : handle) (port_index : nat)
    (wwn_buffer : Z) (s : state world) (raw : Py.bytes) (w1 w2 : world)
    (link : native_statistics) (e : exn) :
  HBA_GetPortStatistics h port_index (native s) = (Ok raw, w1) ->
  PortStatistics_create_from_string raw = Ok link ->
  HBA_GetFC4Statistics h wwn_buffer 2 w1 = (Raise e, w2) ->
  is_RuntimeError e = true ->
  _get_local_port_statistics h port_index wwn_buffer s =
    (_merge_statistics PortStatistics_new (Some link) None,
     after_call (after_call s (GetPortStatistics h port_index) w1)
       (GetFC4Statistics h wwn_buffer 2) w2) /\
  forall merged,
    _merge_statistics PortStatistics_new (Some link) None = Ok merged ->
    forall name, name ∈ FC_PORT_STATISTICS ->
      merged !! name =
        if Py.startswith name "fcp_" then Some (-1)
        else link !! hba_port_stat_name name.
Proof.
  intros Hcall Hlink Hfc4 He. split.
  - unfold _get_local_port_statistics, native_call at 1. rewrite Hcall.
    unfold bind at 1. unfold lift at 1. rewrite Hlink.
    unfold bind at 1. unfold try_except. unfold bind at 1.
    unfold native_call. cbn [native]. rewrite Hfc4.
    unfold after_call. cbn [calls].
    destruct (is_NotImplementedError e); [done|]. by rewrite He.
  - intros merged Hm name Hname.
    destruct (merge_statistics_loop_inv _ _ _ _ _ Hm name Hname)
      as (v & Hv & ->).
    unfold counter_source in Hv.
    destruct (Py.startswith name "fcp_"); [congruence|].
    unfold getattr in Hv. destruct (link !! _); congruence.
Qed.

End LocalPortStatistics.

Lemma get_local_port_statistics_unsupported_witness :
  _get_local_port_statistics (decoder := Example.decoder) (package := Example.package)
    (c_api := Example.c_api) 1 0 5 Example.start
  = (Ok ∅, after_call Example.start (GetPortStatistics 1 0) O).
Proof.
  apply (get_local_port_statistics_unsupported (decoder := Example.decoder)
           (package := Example.package) (c_api := Example.c_api)
           1 0%nat 5 Example.start (RuntimeError 2) O).
  reflexivity.
Defined.

Lemma get_local_port_statistics_without_fc4_witness :
  exists merged s',
    _get_local_port_statistics (decoder := StatisticsExample.decoder)
      (package := Example.package) (c_api := StatisticsExample.c_api)
      1 0 5 Example.start = (Ok merged, s') /\
    calls s' = [GetPortStatistics 1 0; GetFC4Statistics 1 5 2] /\
    merged !! "fcp_input_requests" = Some (-1) /\
    merged !! "invalid_crc_count" = Some 3.
Proof.
  destruct (get_local_port_statistics_without_fc4 (decoder := StatisticsExample.decoder)
              (package := Example.package) (c_api := StatisticsExample.c_api)
              1 0%nat 5 Example.start [] O O Example.link_statistics
              NotImplementedError)
    as (Hrun & Hcounters); try reflexivity.
  destruct (_merge_statistics (package := Example.package) ∅
              (Some Example.link_statistics) None) as [merged|e] eqn:Hm;
    [|by vm_compute in Hm].
  change (@PortStatistics_new Example.package) with (∅ : gmap string Z)
    in Hrun, Hcounters.
  rewrite Hm in Hrun.
  eexists merged, _. split; [exact Hrun|]. split; [reflexivity|].
  split; (rewrite (Hcounters merged Hm);
          [reflexivity | apply list_elem_of_In; simpl; tauto]).
Defined.

(** ** The mapping dict and the mapping rows *)

Lemma fold_insert_lookup {E V} (key : E -> string) (val : E -> V)
    (l : list E) (acc : gmap string V) (a : string) :
  fold_left (fun m e => <[key e := val e]> m) l acc !! a =
    match last (filter (fun e => key e = a) l) with
    | Some e => Some (val e)
    | None => acc !! a
    end.
Proof.
  revert acc. induction l as [|e l IH]; intros acc; [done|].
  cbn [fold_left]. rewrite IH, filter_cons.
  destruct (decide (key e = a)) as [<-|Hne].
  - rewrite last_cons. destruct (last (filter _ l)); [done|].
    apply lookup_insert_eq.
  - destruct (last (filter _ l)); [done|]. by apply lookup_insert_ne.
Qed.

Section MappingDict.
Context {headers : Headers} {host : Host} {decoder : Decoder}
  {package : Package} {world : Type} {c_api : CApi world}.

(** When the target number of every row that is read can be computed, the
    loop of [_mappings_to_dict] is a fold of inserts over those rows. *)
Lemma mappings_to_dict_loop_fold (target : HBA_FcpScsiEntryV2 -> Z)
    (entries : list HBA_FcpScsiEntryV2) (acc : gmap string (Z * Z)) :
  (forall e, e ∈ mapped_entries entries -> get_target_number e = Ok (target e)) ->
  _mappings_to_dict_loop entries acc =
    Ok (fold_left
          (fun m e => <[wwn_address (FcId_PortWWN (FcId e))
                        := (ScsiBusNumber (ScsiId e), target e)]> m)
          (mapped_entries entries) acc).
Proof.
  revert acc. induction entries as [|e entries IH]; intros acc Htarget; [done|].
  cbn [_mappings_to_dict_loop mapped_entries List.filter] in *.
  destruct (PortWWN_eq_empty_str (FcId_PortWWN (FcId e))); cbn [negb] in *.
  - by apply IH.
  - rewrite translate_wwn_Some. cbn [rbind _address].
    rewrite (Htarget e) by left. cbn [rbind fold_left].
    apply IH. intros e' He'. apply Htarget. by right.
Qed.

Lemma mappings_to_dict_lookup (mappings : HBA_FCPTargetMappingV2) :
  Py.contains "solaris" get_platform_string
    || Py.contains "aix" get_platform_string = false ->
  exists port_mappings,
    _mappings_to_dict mappings = Ok port_mappings /\
    forall a,
      port_mappings !! a =
        (fun e => (ScsiBusNumber (ScsiId e), ScsiTargetNumber (ScsiId e)))
          <$> last (filter (fun e => wwn_address (FcId_PortWWN (FcId e)) = a)
                      (mapped_entries (entry mappings))).
Proof.
  intros Hplatform. unfold _mappings_to_dict.
  rewrite (mappings_to_dict_loop_fold (fun e => ScsiTargetNumber (ScsiId e))).
  - eexists. split; [reflexivity|]. intros a.
    rewrite fold_insert_lookup, lookup_empty. by destruct (last _).
  - intros e _. unfold get_target_number. by rewrite Hplatform.
Qed.

(** On a platform that is neither Solaris nor AIX, [_mappings_to_dict]
    never raises, and the dict gives for an address the bus and the SCSI
    target number of the last row of the table with that address, among
    the rows whose WWN is not empty; an address of no row has no entry. *)
Theorem mappings_to_dict_last_row (mappings : HBA_FCPTargetMappingV2) :
  Py.contains "solaris" get_platform_string
    || Py.contains "aix" get_platform_string = false ->
  exists port_mappings,
    _mappings_to_dict mappings = Ok port_mappings /\
    forall a,
      port_mappings !! a =
        (fun e => (ScsiBusNumber (ScsiId e), ScsiTargetNumber (ScsiId e)))
          <$> last (filter (fun e => wwn_address (FcId_PortWWN (FcId e)) = a)
                      (mapped_entries (entry mappings))).
Proof. apply mappings_to_dict_lookup. Qed.

(** On Solaris and AIX the target of a row is its WWN read as a
    big-endian number, whatever its SCSI target number says, provided the
    rows that are read have a WWN that is not empty; on Python 3 a row
    that is read with an empty WWN makes [_mappings_to_dict] raise
    [ValueError]. *)
Theorem mappings_to_dict_target_from_wwn (mappings : HBA_FCPTargetMappingV2) :
  Py.contains "solaris" get_platform_string
    || Py.contains "aix" get_platform_string = true ->
  (Forall (fun e => FcId_PortWWN (FcId e) <> []) (mapped_entries (entry mappings)) ->
   exists port_mappings,
     _mappings_to_dict mappings = Ok port_mappings /\
     forall a,
       port_mappings !! a =
         (fun e => (ScsiBusNumber (ScsiId e), big_endian (FcId_PortWWN (FcId e))))
           <$> last (filter (fun e => Py.hexlify (FcId_PortWWN (FcId e)) = a)
                       (mapped_entries (entry mappings)))) /\
  (PY3 = true ->
   Exists (fun e => FcId_PortWWN (FcId e) = []) (mapped_entries (entry mappings)) ->
   _mappings_to_dict mappings = Raise ValueError).
Proof.
  intros Hplatform.
  assert (forall w, w <> [] -> wwn_address w = Py.hexlify w) as Haddr.
  { intros w Hw. unfold wwn_address. destruct PY3; [done|].
    by rewrite bool_decide_eq_false_2. }
  assert (forall w, w <> [] -> Py.int16 (Py.hexlify w) = Ok (big_endian w))
    as Hint.
  { intros w Hw. unfold Py.int16, big_endian. rewrite <- int16_from_hexlify.
    by destruct w. }
  split.
  - intros Hne. unfold _mappings_to_dict.
    rewrite (mappings_to_dict_loop_fold
               (fun e => big_endian (FcId_PortWWN (FcId e)))).
    + eexists. split; [reflexivity|]. intros a.
      rewrite fold_insert_lookup, lookup_empty.
      rewrite (filter_iff_elem
                 (fun e => wwn_address (FcId_PortWWN (FcId e)) = a)
                 (fun e => Py.hexlify (FcId_PortWWN (FcId e)) = a)).
      * by destruct (last _).
      * intros e He. rewrite Haddr; [done|].
        by eapply Forall_forall in Hne.
    + intros e He. unfold get_target_number. rewrite Hplatform.
      rewrite translate_wwn_Some. cbn [rbind _address].
      eapply Forall_forall in Hne; [|exact He].
      by rewrite Haddr, Hint.
  - intros Hpy Hex. unfold _mappings_to_dict. generalize (∅ : gmap string (Z * Z)).
    induction (entry mappings) as [|e entries IH]; intros acc.
    + by apply Exists_nil in Hex.
    + cbn [_mappings_to_dict_loop mapped_entries List.filter] in *.
      destruct (PortWWN_eq_empty_str (FcId_PortWWN (FcId e))); cbn [negb] in *;
        [by apply IH|].
      rewrite translate_wwn_Some. cbn [rbind _address].
      unfold get_target_number. rewrite Hplatform, translate_wwn_Some.
      cbn [rbind _address].
      destruct (FcId_PortWWN (FcId e)) as [|b w] eqn:Hw.
      * unfold wwn_address. by rewrite Hpy.
      * rewrite Haddr, Hint by done. cbn [rbind].
        apply IH. apply Exists_cons in Hex as [Hex|Hex]; [congruence|done].
Qed.

End MappingDict.

Lemma mappings_to_dict_last_row_witness :
  exists port_mappings,
    _mappings_to_dict (host := Example.host) (decoder := Example.decoder)
      example_table = Ok port_mappings /\
    port_mappings !! "50000000c900002a" = Some (1, 7) /\
    port_mappings !! "10000000c9000001" = Some (0, 4) /\
    port_mappings !! "0000000000000000" = None.
Proof.
  destruct (mappings_to_dict_last_row (host := Example.host)
              (decoder := Example.decoder) example_table)
    as (port_mappings & Hdict & Hlookup); [reflexivity|].
  exists port_mappings. split; [exact Hdict|].
  rewrite !Hlookup. repeat split.
Defined.

Lemma mappings_to_dict_target_from_wwn_witness :
  exists port_mappings,
    _mappings_to_dict (host := Example.aix_host) (decoder := Example.decoder)
      example_table = Ok port_mappings /\
    port_mappings !! "50000000c900002a" = Some (1, 0x50000000c900002a).
Proof.
  destruct (mappings_to_dict_target_from_wwn (host := Example.aix_host)
              (decoder := Example.decoder) example_table)
    as (Hok & _); [reflexivity|].
  destruct Hok as (port_mappings & Hdict & Hlookup).
  { repeat constructor; discriminate. }
  exists port_mappings. split; [exact Hdict|].
  rewrite Hlookup. reflexivity.
Defined.

Lemma append_cons (x : ascii) (s t : string) :
  String.append (String x s) t = String x (String.append s t).
Proof. reflexivity. Qed.

Lemma append_nil_r (s : string) : String.append s "" = s.
Proof.
  induction s as [|x s IH]; [reflexivity|]. by rewrite append_cons, IH.
Qed.

Lemma append_snoc (s t : string) (c : ascii) :
  String.append (String.append s (String c "")) t = String.append s (String c t).
Proof.
  induction s as [|x s IH]; [reflexivity|]. by rewrite !append_cons, IH.
Qed.

Lemma split_from_head (sep : ascii) (cur s : string) :
  head (Py.split_from sep cur s) = Some (String.append cur (first_word sep s)).
Proof.
  revert cur. induction s as [|c s IH]; intros cur; cbn [Py.split_from first_word].
  - cbn [head]. by rewrite append_nil_r.
  - destruct (Ascii.eqb c sep).
    + cbn [head]. by rewrite append_nil_r.
    + by rewrite IH, append_snoc.
Qed.

Lemma split_head (s : string) (sep : ascii) :
  default "" (head (Py.split s sep)) = first_word sep s.
Proof. unfold Py.split. by rewrite split_from_head. Qed.

Lemma first_word_eq (sep : ascii) (w s : string) :
  Py.exists_string (Ascii.eqb sep) w = false ->
  first_word sep s = w <->
  (s = w \/ Py.startswith s (String.append w (String sep "")) = true).
Proof.
  revert s. induction w as [|a w IH]; intros s Hw.
  - change (String.append "" (String sep "")) with (String sep "").
    destruct s as [|c s]; cbn [first_word Py.startswith].
    + split; [by left|done].
    + destruct (Ascii.eqb_spec c sep) as [->|Hc].
      * rewrite Ascii.eqb_refl. split; [by right|done].
      * destruct (Ascii.eqb_spec sep c) as [->|_]; [done|].
        split; [done|]. by intros [|].
  - cbn [Py.exists_string] in Hw. apply orb_false_iff in Hw as [Ha Hw].
    rewrite append_cons.
    destruct s as [|c s]; cbn [first_word Py.startswith].
    + split; [done|]. by intros [|].
    + destruct (Ascii.eqb_spec c sep) as [->|Hc].
      * rewrite Ascii.eqb_sym, Ha. split; [done|].
        intros [[= -> _]|]; [|done]. by rewrite Ascii.eqb_refl in Ha.
      * split.
        -- intros [= -> Hfw]. apply (IH s Hw) in Hfw as [->|Hs]; [by left|].
           right. by rewrite Ascii.eqb_refl.
        -- intros [[= -> ->]|Hs].
           ++ f_equal. apply (IH w Hw). by left.
           ++ apply andb_true_iff in Hs as [Hac Hs].
              apply Ascii.eqb_eq in Hac as ->. f_equal.
              apply (IH s Hw). by right.
Qed.

Section Availability.
Context {host : Host}.

(** [is_available] answers [True] exactly when the native entry point
    resolves and the platform string is "windows", "solaris" or "aix",
    alone or followed by a dash; a platform that merely contains one of
    these words is refused.  An [OSError] of the resolution gives
    [False], never an error, and on any other platform the answer is
    [False] whatever the resolution would do. *)
Theorem is_available_spec (get_function : get_function_outcome) :
  (is_available get_function = Ok true <->
   (get_function = Resolved /\
    exists family, family ∈ ["windows"; "solaris"; "aix"] /\
      (get_platform_string = family \/
       Py.startswith get_platform_string (String.append family "-") = true))) /\
  is_available RaisesOSError = Ok false /\
  (first_word "-" get_platform_string ∉ ["windows"; "solaris"; "aix"] ->
   is_available get_function = Ok false).
Proof.
  unfold is_available. rewrite split_head.
  assert (first_word "-" get_platform_string ∈ ["windows"; "solaris"; "aix"] <->
          exists family, family ∈ ["windows"; "solaris"; "aix"] /\
            (get_platform_string = family \/
             Py.startswith get_platform_string (String.append family "-") = true))
    as Hfamily.
  { split.
    - intros Hin. exists (first_word "-" get_platform_string).
      split; [done|]. apply first_word_eq; [|done].
      rewrite !elem_of_cons, elem_of_nil in Hin.
      destruct Hin as [->|[->|[->|[]]]]; reflexivity.
    - intros (family & Hin & Hs).
      apply first_word_eq in Hs; [by rewrite Hs|].
      rewrite !elem_of_cons, elem_of_nil in Hin.
      destruct Hin as [->|[->|[->|[]]]]; reflexivity. }
  rewrite <- Hfamily.
  split; [|split].
  - case_bool_decide; cbn [negb].
    + destruct get_function; split; try done; try (by intros [[=] _]).
    + split; [done|]. by intros [_ ?].
  - by case_bool_decide.
  - intros Hn. by rewrite bool_decide_eq_false_2.
Qed.

End Availability.

Lemma is_available_spec_witness :
  is_available (host := Example.host) Resolved = Ok true /\
  is_available (host := {| PY3 := true; get_platform_string := "linux-ubuntu-x64" |})
    Resolved = Ok false /\
  is_available (host := {| PY3 := true; get_platform_string := "aixtra-1" |})
    Resolved = Ok false.
Proof.
  destruct (is_available_spec (host := Example.host) Resolved) as ([_ Htrue] & _).
  destruct (is_available_spec
              (host := {| PY3 := true; get_platform_string := "linux-ubuntu-x64" |})
              Resolved) as (_ & _ & Hlinux).
  destruct (is_available_spec
              (host := {| PY3 := true; get_platform_string := "aixtra-1" |})
              Resolved) as (_ & _ & Haixtra).
  split; [|split].
  - apply Htrue. split; [reflexivity|]. exists "windows".
    split; [by left | by right].
  - apply Hlinux. apply (bool_decide_unpack _). exact I.
  - apply Haixtra. apply (bool_decide_unpack _). exact I.
Defined.

(** ** The rows of [iter_port_mappings] *)

Section MappingRows.
Context {headers : Headers} {host : Host} {decoder : Decoder}
  {package : Package} {world : Type} {c_api : CApi world}.

Lemma iter_port_mappings_rows_map (host_wwn : WWN)
    (entries : list HBA_FcpScsiEntryV2) :
  iter_port_mappings_rows host_wwn entries =
    Ok (map (fun e => (first_word "000" (ScsiOSDeviceName (ScsiId e)), host_wwn,
                        {| _address := wwn_address (FcId_PortWWN (FcId e)) |},
                        ScsiOSLun (ScsiId e)))
          (mapped_entries entries)).
Proof.
  induction entries as [|e entries IH]; [done|].
  cbn [iter_port_mappings_rows mapped_entries List.filter].
  destruct (PortWWN_eq_empty_str (FcId_PortWWN (FcId e))); cbn [negb]; [done|].
  rewrite translate_wwn_Some. cbn [rbind]. fold (mapped_entries entries).
  rewrite IH. cbn [rbind map]. by rewrite split_head.
Qed.

(** The addresses that have an entry in the dict of a table are those of
    the rows that are read, whatever the platform. *)
Lemma mappings_to_dict_loop_keys (entries : list HBA_FcpScsiEntryV2)
    (acc port_mappings : gmap string (Z * Z)) (a : string) :
  _mappings_to_dict_loop entries acc = Ok port_mappings ->
  is_Some (port_mappings !! a) <->
  (is_Some (acc !! a) \/
   exists e, e ∈ mapped_entries entries /\
             wwn_address (FcId_PortWWN (FcId e)) = a).
Proof.
  revert acc. induction entries as [|e entries IH]; intros acc.
  - cbn. intros [= ->]. split; [by left|].
    intros [|(e & He & _)]; [done|]. by apply elem_of_nil in He.
  - cbn [_mappings_to_dict_loop mapped_entries List.filter].
    destruct (PortWWN_eq_empty_str (FcId_PortWWN (FcId e))); cbn [negb].
    + apply IH.
    + rewrite translate_wwn_Some. cbn [rbind _address].
      destruct (get_target_number e) as [target|]; cbn [rbind]; [|discriminate].
      intros Hrun. rewrite (IH _ Hrun), lookup_insert_is_Some.
      fold (mapped_entries entries). split.
      * intros [[<-|[_ Hacc]]|(e' & He' & Ha)].
        -- right. exists e. split; [by left|done].
        -- by left.
        -- right. exists e'. split; [by right|done].
      * intros [Hacc|(e' & He' & Ha)].
        -- destruct (decide (wwn_address (FcId_PortWWN (FcId e)) = a));
             left; [by left|by right].
        -- apply elem_of_cons in He' as [->|He'].
           ++ left. by left.
           ++ right. by exists e'.
Qed.

(** For a local port that carries its mapping table, the rows of
    [iter_port_mappings] never fail: there is one row for each row of the
    table whose WWN is not empty, in the order of the table, with the
    WWN of the local port as host, the device name cut at its first NUL
    and the WWN of the peer; and the peers of these rows are exactly the
    addresses that [_mappings_to_dict] gives an entry. *)
Theorem iter_port_mappings_rows_spec (local_port : Port)
    (mappings : HBA_FCPTargetMappingV2) :
  all_port_mappings local_port = Some mappings ->
  iter_port_mappings_of_port local_port =
    Ok (map (fun e => (first_word "000" (ScsiOSDeviceName (ScsiId e)),
                        port_wwn local_port,
                        {| _address := wwn_address (FcId_PortWWN (FcId e)) |},
                        ScsiOSLun (ScsiId e)))
          (mapped_entries (entry mappings))) /\
  forall port_mappings rows,
    _mappings_to_dict mappings = Ok port_mappings ->
    iter_port_mappings_of_port local_port = Ok rows ->
    forall a, is_Some (port_mappings !! a) <->
              a ∈ map (fun row : mapping_row => _address row.1.2) rows.
Proof.
  intros Htable. unfold iter_port_mappings_of_port. rewrite Htable.
  rewrite iter_port_mappings_rows_map. split; [done|].
  intros port_mappings rows Hdict [= <-] a.
  rewrite (mappings_to_dict_loop_keys _ _ _ a Hdict), lookup_empty.
  rewrite map_map. cbn [fst snd _address]. rewrite list_elem_of_fmap.
  split.
  - intros [[? [=]]|(e & He & <-)]. by exists e.
  - intros (e & -> & He). right. by exists e.
Qed.

End MappingRows.

Lemma iter_port_mappings_rows_spec_witness :
  iter_port_mappings_of_port (host := Example.host) (decoder := Example.decoder)
    (set_all_port_mappings example_port (Some example_table)) =
    Ok [("d0", {| _address := "10000000c9000001" |},
         {| _address := "50000000c900002a" |}, 0);
        ("d1", {| _address := "10000000c9000001" |},
         {| _address := "10000000c9000001" |}, 1);
        ("d2", {| _address := "10000000c9000001" |},
         {| _address := "50000000c900002a" |}, 2)].
Proof.
  destruct (iter_port_mappings_rows_spec (host := Example.host)
              (decoder := Example.decoder)
              (set_all_port_mappings example_port (Some example_table))
              example_table) as (Hrows & _); [reflexivity|].
  exact Hrows.
Defined.

(** ** The native calls of a local port *)

Section RemoteTrace.
Context {headers : Headers} {host : Host} {decoder : Decoder}
  {package : Package} {world : Type} {c_api : CApi world}.

Lemma discovered_port_calls (h : handle) (port_index i : nat) (s : state world) :
  calls (discovered_port h port_index i s).2 =
    calls s ++ [GetDiscoveredPortAttributes h port_index i].
Proof.
  unfold discovered_port, _get_remote_port_attributes, bind, native_call, lift.
  destruct (HBA_GetDiscoveredPortAttributes h port_index i (native s))
    as [[raw|e] w]; [|done].
  by destruct (PortAttributes_create_from_string raw).
Qed.

Lemma get_remote_ports_loop_calls (h : handle) (port_index first count : nat)
    (remote_ports : list Port) (s : state world) :
  exists fetched,
    (fetched <= count)%nat /\
    calls (_get_remote_ports_loop h port_index (seq first count) remote_ports s).2 =
      calls s ++ map (GetDiscoveredPortAttributes h port_index) (seq first fetched) /\
    match (_get_remote_ports_loop h port_index (seq first count) remote_ports s).1 with
    | Ok ports =>
        fetched = count /\ (length ports <= length remote_ports + count)%nat
    | Raise e =>
        (0 < fetched)%nat /\
        exists failed ports s1,
          fetched = S failed /\
          traverseM (discovered_port h port_index) (seq first failed) s =
            (Ok ports, s1) /\
          discovered_port h port_index (first + failed) s1 =
            (Raise e,
             (_get_remote_ports_loop h port_index (seq first count)
                remote_ports s).2)
    end.
Proof.
  revert first remote_ports s.
  induction count as [|count IH]; intros first remote_ports s.
  - exists 0%nat. cbn. rewrite app_nil_r. repeat split; lia.
  - cbn [seq]. rewrite get_remote_ports_loop_step.
    pose proof (discovered_port_calls h port_index first s) as Hcalls.
    destruct (discovered_port h port_index first s) as [[remote_port|e] s1]
      eqn:Hfirst.
    + destruct (IH (S first)
                  (if kept remote_port then remote_ports ++ [remote_port]
                   else remote_ports) s1) as (fetched & Hle & Htrace & Hres).
      exists (S fetched). split; [lia|]. split.
      * rewrite Htrace. cbn [snd] in Hcalls. rewrite Hcalls.
        cbn [seq map]. by rewrite <- app_assoc.
      * destruct (_get_remote_ports_loop _ _ _ _ s1).1 as [ports|e].
        -- destruct Hres as [-> Hlen]. split; [done|].
           destruct (kept remote_port); rewrite ?length_app in Hlen;
             cbn [length] in Hlen; lia.
        -- destruct Hres as (_ & failed & ports & s2 & -> & Hbefore & Hfailed).
           split; [lia|].
           exists (S failed), (remote_port :: ports), s2.
           split; [done|]. split.
           ++ cbn [seq traverseM]. unfold bind. rewrite Hfirst, Hbefore. done.
           ++ by rewrite Nat.add_succ_r.
    + exists 1%nat. split; [lia|]. split; [exact Hcalls|]. cbn [fst snd].
      split; [lia|]. exists 0%nat, [], s.
      split; [done|]. split; [done|]. by rewrite Nat.add_0_r.
Qed.

(** [_get_remote_ports] asks for the discovered ports by index, from 0
    upwards and each once, and for nothing else; when it succeeds it has
    asked for all of them and returns no more ports than there are
    indices; when it fails it stopped at the first index that failed: every
    index before it gave a port, the error is the one this index raised,
    and the state returned is the one its fetch left, so nothing was asked
    after it. *)
Theorem get_remote_ports_calls (h : handle) (port_index n : nat)
    (s : state world) :
  exists fetched,
    (fetched <= n)%nat /\
    calls (_get_remote_ports h port_index n s).2 =
      calls s ++ map (GetDiscoveredPortAttributes h port_index) (seq 0 fetched) /\
    match (_get_remote_ports h port_index n s).1 with
    | Ok ports => fetched = n /\ (length ports <= n)%nat
    | Raise e =>
        (0 < fetched)%nat /\
        exists failed ports s1,
          fetched = S failed /\
          traverseM (discovered_port h port_index) (seq 0 failed) s =
            (Ok ports, s1) /\
          discovered_port h port_index failed s1 =
            (Raise e, (_get_remote_ports h port_index n s).2)
    end.
Proof.
  unfold _get_remote_ports.
  destruct (get_remote_ports_loop_calls h port_index 0 n [] s)
    as (fetched & Hle & Htrace & Hres).
  exists fetched. split; [done|]. split; [done|].
  by destruct (_get_remote_ports_loop _ _ _ _ s).1.
Qed.

End RemoteTrace.

(** ** What a computation adds to the trace *)

Section EmitsLaws.
Context {world : Type}.

Lemma emits_ret (P : call -> bool) {A} (a : A) : emits P (ret (world := world) a).
Proof. intros s. exists []. by rewrite app_nil_r. Qed.

Lemma emits_raise (P : call -> bool) {A} (e : exn) :
  emits P (raise (world := world) (A := A) e).
Proof. intros s. exists []. by rewrite app_nil_r. Qed.

Lemma emits_lift (P : call -> bool) {A} (r : result A) :
  emits P (lift (world := world) r).
Proof. intros s. exists []. by rewrite app_nil_r. Qed.

Lemma emits_native_call (P : call -> bool) {A} (c : call)
    (f : world -> result A * world) :
  P c = true -> emits P (native_call c f).
Proof.
  intros Hc s. exists [c]. unfold native_call.
  destruct (f (native s)) as [r w]. cbn. by rewrite Hc.
Qed.

Lemma emits_bind (P : call -> bool) {A B} (m : M world A) (k : A -> M world B) :
  emits P m -> (forall a, emits P (k a)) -> emits P (bind m k).
Proof.
  intros Hm Hk s. unfold bind. destruct (Hm s) as (l1 & Hl1 & HP1).
  destruct (m s) as [[a|e] s1]; [|by exists l1].
  destruct (Hk a s1) as (l2 & Hl2 & HP2). exists (l1 ++ l2).
  cbn [snd] in Hl1. rewrite Hl2, Hl1, <- app_assoc, forallb_app, HP1, HP2. done.
Qed.

Lemma emits_try_except (P : call -> bool) {A} (m : M world A)
    (handler : exn -> M world A) :
  emits P m -> (forall e, emits P (handler e)) -> emits P (try_except m handler).
Proof.
  intros Hm Hh s. unfold try_except. destruct (Hm s) as (l1 & Hl1 & HP1).
  destruct (m s) as [[a|e] s1]; [by exists l1|].
  destruct (Hh e s1) as (l2 & Hl2 & HP2). exists (l1 ++ l2).
  cbn [snd] in Hl1. rewrite Hl2, Hl1, <- app_assoc, forallb_app, HP1, HP2. done.
Qed.

Lemma emits_weaken (P Q : call -> bool) {A} (m : M world A) :
  (forall c, P c = true -> Q c = true) -> emits P m -> emits Q m.
Proof.
  intros HPQ Hm s. destruct (Hm s) as (l & Hl & HP). exists l. split; [done|].
  apply forallb_forall. intros c Hc. apply HPQ.
  by eapply forallb_forall in HP.
Qed.

Lemma emitsG_return (P : call -> bool) : emitsG P (g_return (world := world)).
Proof. intros s. exists []. by rewrite app_nil_r. Qed.

Lemma emitsG_yield (P : call -> bool) (p : Port) :
  emitsG P (g_yield (world := world) p).
Proof. intros s. exists []. by rewrite app_nil_r. Qed.

Lemma emitsG_bind (P : call -> bool) {A} (m : M world A) (k : A -> G world) :
  emits P m -> (forall a, emitsG P (k a)) -> emitsG P (g_bind m k).
Proof.
  intros Hm Hk s. unfold g_bind. destruct (Hm s) as (l1 & Hl1 & HP1).
  destruct (m s) as [[a|e] s1]; [|by exists l1].
  destruct (Hk a s1) as (l2 & Hl2 & HP2). exists (l1 ++ l2).
  cbn [snd] in Hl1. rewrite Hl2, Hl1, <- app_assoc, forallb_app, HP1, HP2. done.
Qed.

Lemma emitsG_seq (P : call -> bool) (g1 g2 : G world) :
  emitsG P g1 -> emitsG P g2 -> emitsG P (g_seq g1 g2).
Proof.
  intros H1 H2 s. unfold g_seq. destruct (H1 s) as (l1 & Hl1 & HP1).
  destruct (g1 s) as [[ys [u|e]] s1]; [|by exists l1].
  destruct (H2 s1) as (l2 & Hl2 & HP2). exists (l1 ++ l2).
  destruct (g2 s1) as [[zs r] s2]. cbn [snd] in *.
  rewrite Hl2, Hl1, <- app_assoc, forallb_app, HP1, HP2. done.
Qed.

Lemma emitsG_finally (P : call -> bool) (g : G world) (f : M world unit) :
  emitsG P g -> emits P f -> emitsG P (g_finally g f).
Proof.
  intros Hg Hf s. unfold g_finally. destruct (Hg s) as (l1 & Hl1 & HP1).
  destruct (g s) as [[ys r] s1]. destruct (Hf s1) as (l2 & Hl2 & HP2).
  exists (l1 ++ l2). cbn [snd] in Hl1.
  destruct (f s1) as [[u|e] s2]; cbn [snd] in *;
    rewrite Hl2, Hl1, <- app_assoc, forallb_app, HP1, HP2; done.
Qed.

Lemma emitsG_weaken (P Q : call -> bool) (g : G world) :
  (forall c, P c = true -> Q c = true) -> emitsG P g -> emitsG Q g.
Proof.
  intros HPQ Hg s. destruct (Hg s) as (l & Hl & HP). exists l. split; [done|].
  apply forallb_forall. intros c Hc. apply HPQ.
  by eapply forallb_forall in HP.
Qed.

End EmitsLaws.

Section QueriesOnly.
Context {headers : Headers} {host : Host} {decoder : Decoder}
  {package : Package} {world : Type} {c_api : CApi world}.

(** A query made on the handle itself. *)
Lemma query_on_handle (h : handle) (c : call) :
  is_query_of h c = true <->
  c ∈ [GetAdapterAttributes h] \/
  (exists i, c = GetAdapterPortAttributes h i) \/
  (exists i j, c = GetDiscoveredPortAttributes h i j) \/
  (exists i, c = GetPortStatistics h i) \/
  (exists wwn fc4type, c = GetFC4Statistics h wwn fc4type) \/
  (exists wwn buff, c = GetFcpTargetMappingV2 h wwn buff).
Proof.
  rewrite list_elem_of_singleton.
  destruct c; cbn [is_query_of]; rewrite ?bool_decide_eq_true;
    (split; [try done; intros ->; eauto 10|]);
    intros [?|[[??]|[(?&?&?)|[[??]|[(?&?&?)|(?&?&?)]]]]]; congruence.
Qed.

Ltac query_call :=
  apply emits_native_call; cbn [is_query_of]; by apply bool_decide_eq_true_2.

Lemma get_adapter_attributes_queries (h : handle) :
  emits (is_query_of h) (_get_adapter_attributes h).
Proof.
  apply emits_bind; [query_call|]. intros. apply emits_lift.
Qed.

Lemma get_remote_ports_loop_queries (h : handle) (port_index : nat)
    (indices : list nat) (remote_ports : list Port) :
  emits (is_query_of h) (_get_remote_ports_loop h port_index indices remote_ports).
Proof.
  revert remote_ports. induction indices as [|i indices IH]; intros remote_ports.
  - apply emits_ret.
  - cbn [_get_remote_ports_loop].
    apply emits_bind.
    { apply emits_bind; [query_call|]. intros. apply emits_lift. }
    intros attrs. apply emits_bind; [apply emits_lift|]. intros remote_port.
    destruct (bool_decide _); [apply IH|]. destruct (bool_decide _); apply IH.
Qed.

Lemma get_local_port_statistics_queries (h : handle) (port_index : nat)
    (wwn_buffer : Z) :
  emits (is_query_of h) (_get_local_port_statistics h port_index wwn_buffer).
Proof.
  intros s. unfold _get_local_port_statistics.
  destruct (emits_native_call (is_query_of h) (GetPortStatistics h port_index)
              (HBA_GetPortStatistics h port_index)
              (bool_decide_eq_true_2 _ eq_refl) s)
    as (l1 & Hl1 & HP1).
  destruct (native_call _ _ s) as [[buff|e] s1]; cbn [snd] in Hl1.
  - match goal with
    | |- context [?m s1] =>
        assert (emits (is_query_of h) m) as Hrest
    end.
    { apply emits_bind; [apply emits_lift|]. intros stats.
      apply emits_bind; [|intros; apply emits_lift].
      apply emits_try_except.
      - apply emits_bind; [query_call|]. intros raw.
        apply emits_bind; [apply emits_lift|]. intros. apply emits_ret.
      - intros e. destruct (is_NotImplementedError e); [apply emits_ret|].
        destruct (is_RuntimeError e); [apply emits_ret | apply emits_raise]. }
    destruct (Hrest s1) as (l2 & Hl2 & HP2). exists (l1 ++ l2).
    rewrite Hl2, Hl1, <- app_assoc, forallb_app, HP1, HP2. done.
  - exists l1. by destruct (is_RuntimeError e).
Qed.

Lemma mapping_call_queries (h : handle) (wwn_buffer : Z) (buff : Py.bytes) :
  emits (is_query_of h) (c_api_HBA_GetFcpTargetMappingV2 h wwn_buffer buff).
Proof.
  intros s. unfold c_api_HBA_GetFcpTargetMappingV2.
  destruct (HBA_GetFcpTargetMappingV2 h wwn_buffer buff (native s)) as [[r raw] w].
  exists [GetFcpTargetMappingV2 h wwn_buffer buff]. split; [done|].
  cbn [forallb is_query_of]. by rewrite bool_decide_eq_true_2.
Qed.

Lemma get_local_port_mappings_queries (h : handle) (wwn_buffer : Z) :
  emits (is_query_of h) (_get_local_port_mappings h wwn_buffer).
Proof.
  unfold _get_local_port_mappings.
  apply emits_bind.
  - apply emits_try_except.
    + apply emits_bind.
      { unfold _get_local_port_mappings_count.
        apply emits_bind; [apply emits_lift|]. intros struct.
        apply emits_bind; [apply emits_lift|]. intros buff.
        apply emits_bind; [apply mapping_call_queries|]. intros [[u|e] raw];
          [apply emits_ret|].
        destruct (is_RuntimeError e); [|apply emits_raise].
        destruct (bool_decide _); [apply emits_lift | apply emits_ret]. }
      intros n. apply emits_bind; [apply emits_lift|]. intros struct.
      apply emits_bind; [apply emits_lift|]. intros init.
      apply emits_bind; [apply emits_lift|]. intros buff.
      apply emits_bind; [apply mapping_call_queries|]. intros [[u|e] raw];
        [apply emits_ret | apply emits_raise].
    + intros e. destruct (is_RuntimeError e); [|apply emits_raise].
      repeat (destruct (bool_decide _); [apply emits_ret|]). apply emits_raise.
  - intros [raw|mappings]; [apply emits_lift | apply emits_ret].
Qed.

(** All that [_get_local_port] does to the native library is ask about
    the adapter it was given. *)
Lemma get_local_port_queries (h : handle)
    (adapter_attributes : HBA_AdapterAttributes) (port_index : nat) :
  emits (is_query_of h) (_get_local_port h adapter_attributes port_index).
Proof.
  unfold _get_local_port.
  apply emits_bind.
  { apply emits_bind; [query_call|]. intros. apply emits_lift. }
  intros pa. apply emits_bind; [apply emits_lift|]. intros port.
  apply emits_bind; [apply emits_lift|]. intros wwn.
  apply emits_bind; [apply get_remote_ports_loop_queries|]. intros remote_ports.
  apply emits_bind; [apply get_local_port_statistics_queries|]. intros stats.
  apply emits_bind; [apply get_local_port_mappings_queries|]. intros table.
  apply emits_bind; [apply emits_lift|]. intros dict.
  apply emits_bind; [apply emits_lift|]. intros. apply emits_ret.
Qed.

Lemma iter_ports_of_adapter_queries (h : handle)
    (adapter_attributes : HBA_AdapterAttributes) (indices : list nat) :
  emitsG (is_query_of h) (_iter_ports_of_adapter h adapter_attributes indices).
Proof.
  induction indices as [|i indices IH]; [apply emitsG_return|].
  cbn [_iter_ports_of_adapter].
  apply emitsG_bind; [apply get_local_port_queries|]. intros local_port.
  apply emitsG_seq; [apply emitsG_yield | exact IH].
Qed.

End QueriesOnly.

(** ** Handles and the library *)

Section Brackets.
Context {headers : Headers} {host : Host} {decoder : Decoder}
  {package : Package} {world : Type} {c_api : CApi world}.

Lemma native_call_run {A} (c : call) (f : world -> result A * world)
    (s : state world) :
  native_call c f s = ((f (native s)).1, after_call s c (f (native s)).2).
Proof. unfold native_call, after_call. by destruct (f (native s)). Qed.

Lemma native_call_calls {A} (c : call) (f : world -> result A * world)
    (s : state world) :
  calls (native_call c f s).2 = calls s ++ [c].
Proof. by rewrite native_call_run. Qed.

Lemma g_finally_calls (g : G world) (f : M world unit) (s : state world)
    (c : call) (before : list call) :
  calls (g s).2 = before ->
  (forall s1, calls (f s1).2 = calls s1 ++ [c]) ->
  calls (g_finally g f s).2 = before ++ [c].
Proof.
  intros Hg Hf. unfold g_finally. destruct (g s) as [[ys r] s1].
  specialize (Hf s1). destruct (f s1) as [[u|e] s2]; cbn [snd] in *; by subst.
Qed.

Lemma is_query_adapter_call (h : handle) (c : call) :
  is_query_of h c = true -> is_adapter_call c = true.
Proof. by destruct c. Qed.

(** The walk over the ports of an open adapter, its attributes fetched
    first, only asks about that adapter. *)
Lemma adapter_body_queries (h : handle) :
  emitsG (is_query_of h)
    (fun s =>
       match _get_adapter_attributes h s with
       | (Raise e, s') =>
           if is_NotImplementedError e then g_return s' else (([], Raise e), s')
       | (Ok adapter_attributes, s') =>
           _iter_ports_of_adapter h adapter_attributes
             (seq 0 (NumberOfPorts adapter_attributes)) s'
       end).
Proof.
  intros s. destruct (get_adapter_attributes_queries h s) as (l1 & Hl1 & HP1).
  destruct (_get_adapter_attributes h s) as [[aa|e] s1]; cbn [snd] in Hl1.
  - destruct (iter_ports_of_adapter_queries h aa (seq 0 (NumberOfPorts aa)) s1)
      as (l2 & Hl2 & HP2).
    exists (l1 ++ l2).
    rewrite Hl2, Hl1, <- app_assoc, forallb_app, HP1, HP2. done.
  - exists l1. by destruct (is_NotImplementedError e).
Qed.

(** An adapter is opened first and closed last, on every way out: when
    [HBA_OpenAdapter] raises, nothing else is called and nothing is
    yielded; when it returns a handle, every call that follows is one of
    the six queries made on this very handle, and the last call closes
    that handle, also when the walk over its ports ended with an
    exception. *)
Theorem iter_ports_adapter_bracket (adapter_name : Py.bytes) (s : state world) :
  match HBA_OpenAdapter adapter_name (native s) with
  | (Raise e, w) =>
      _iter_ports_adapter adapter_name s =
        (([], Raise e), after_call s (OpenAdapter adapter_name) w)
  | (Ok h, w) =>
      exists queries,
        calls (_iter_ports_adapter adapter_name s).2 =
          calls s ++ OpenAdapter adapter_name :: queries ++ [CloseAdapter h] /\
        forallb (is_query_of h) queries = true
  end.
Proof.
  unfold _iter_ports_adapter, hbaapi_adapter, g_bind.
  rewrite (native_call_run (OpenAdapter adapter_name)).
  destruct (HBA_OpenAdapter adapter_name (native s)) as [[h|e] w]; [|done].
  cbn [fst snd].
  destruct (adapter_body_queries h (after_call s (OpenAdapter adapter_name) w))
    as (queries & Hq & HP).
  exists queries. split; [|exact HP].
  erewrite g_finally_calls; [|exact Hq|intros; apply native_call_calls].
  cbn [after_call calls]. by rewrite <- !app_assoc.
Qed.

Lemma iter_ports_adapter_calls (adapter_name : Py.bytes) :
  emitsG is_adapter_call (_iter_ports_adapter adapter_name).
Proof.
  unfold _iter_ports_adapter, hbaapi_adapter.
  apply emitsG_bind; [by apply emits_native_call|]. intros h.
  apply emitsG_finally; [|by apply emits_native_call].
  eapply emitsG_weaken; [apply (is_query_adapter_call h)|].
  apply adapter_body_queries.
Qed.

Lemma iter_adapters_calls :
  emitsG is_adapter_call (_iter_adapters _iter_ports_adapter).
Proof.
  unfold _iter_adapters.
  apply emitsG_bind; [by apply emits_native_call|]. intros n.
  induction (seq 0 n) as [|i indices IH]; [apply emitsG_return|].
  cbn [_iter_adapters_loop].
  apply emitsG_bind; [by apply emits_native_call|]. intros name.
  apply emitsG_seq; [apply iter_ports_adapter_calls | exact IH].
Qed.

(** The library is loaded first and freed last: when [HBA_LoadLibrary]
    raises, the scan yields nothing and makes no other call, not even
    [HBA_FreeLibrary]; when it returns, every other call of the scan lies
    between it and one final [HBA_FreeLibrary], however the scan ends. *)
Theorem iter_ports_library_bracket (s : state world) :
  match HBA_LoadLibrary (native s) with
  | (Raise e, w) => _iter_ports s = (([], Raise e), after_call s LoadLibrary w)
  | (Ok _, w) =>
      exists between,
        calls (_iter_ports s).2 =
          calls s ++ LoadLibrary :: between ++ [FreeLibrary] /\
        forallb is_adapter_call between = true
  end.
Proof.
  unfold _iter_ports, hbaapi_library, g_bind.
  rewrite (native_call_run LoadLibrary).
  destruct (HBA_LoadLibrary (native s)) as [[u|e] w]; [|done].
  cbn [fst snd].
  destruct (iter_adapters_calls (after_call s LoadLibrary w))
    as (between & Hb & HP).
  exists between. split; [|exact HP].
  erewrite g_finally_calls; [|exact Hb|intros; apply native_call_calls].
  cbn [after_call calls]. by rewrite <- !app_assoc.
Qed.

(** An exception of the attribute fetch other than [NotImplementedError]
    ends the whole scan: the adapter is closed, the exception reaches the
    consumer, and the adapters after it are never named nor opened. *)
Theorem adapter_error_aborts_scan (adapter_index : nat) (post : list nat)
    (s s1 s2 s3 s4 : state world) (adapter_name : Py.bytes) (h : handle)
    (e : exn) :
  native_call (GetAdapterName adapter_index) (HBA_GetAdapterName adapter_index) s
    = (Ok adapter_name, s1) ->
  native_call (OpenAdapter adapter_name) (HBA_OpenAdapter adapter_name) s1
    = (Ok h, s2) ->
  _get_adapter_attributes h s2 = (Raise e, s3) ->
  is_NotImplementedError e = false ->
  native_call (CloseAdapter h) (HBA_CloseAdapter h) s3 = (Ok tt, s4) ->
  _iter_adapters_loop (adapter_index :: post) _iter_ports_adapter s =
    (([], Raise e), s4).
Proof.
  intros Hname Hopen Hattrs He Hclose.
  cbn [_iter_adapters_loop]. unfold g_bind. rewrite Hname.
  unfold g_seq, _iter_ports_adapter, hbaapi_adapter, g_bind. rewrite Hopen.
  unfold g_finally. rewrite Hattrs, He. by rewrite Hclose.
Qed.

End Brackets.

Lemma adapter_error_aborts_scan_witness :
  _iter_adapters_loop (c_api := FailingExample.c_api) [0; 1]%nat
    (_iter_ports_adapter (headers := Example.headers) (host := Example.host)
       (decoder := Example.decoder) (package := Example.package)
       (c_api := FailingExample.c_api)) Example.start
  = (([], Raise (RuntimeError 1)),
     {| native := O;
        calls := [GetAdapterName 0; OpenAdapter [x00]; GetAdapterAttributes 0;
                  CloseAdapter 0] |}).
Proof.
  apply (adapter_error_aborts_scan (headers := Example.headers)
           (host := Example.host) (decoder := Example.decoder)
           (package := Example.package) (c_api := FailingExample.c_api)
           0%nat [1%nat] Example.start
           {| native := O; calls := [GetAdapterName 0] |}
           {| native := O; calls := [GetAdapterName 0; OpenAdapter [x00]] |}
           {| native := O;
              calls := [GetAdapterName 0; OpenAdapter [x00];
                        GetAdapterAttributes 0] |}
           _ [x00] 0 (RuntimeError 1)); reflexivity.
Defined.

(** ** What a scan yields *)

Section ScanInvariants.
Context {headers : Headers} {host : Host} {decoder : Decoder}
  {package : Package} {world : Type} {c_api : CApi world}.
Local Open Scope M_scope.

Lemma get_port_object_fresh (adapter_attributes : option HBA_AdapterAttributes)
    (port_attributes : HBA_PortAttributes) (port : Port) :
  get_port_object adapter_attributes port_attributes = Ok port ->
  hct port = (-1, -1, -1) /\ discovered_ports port = [] /\
  all_port_mappings port = None.
Proof.
  unfold get_port_object.
  destruct (translate_wwn _) as [node|]; cbn [rbind]; [|discriminate].
  destruct (translate_wwn _) as [pwwn|]; cbn [rbind]; [|discriminate].
  destruct (translate_port_type _) as [ty|]; cbn [rbind]; [|discriminate].
  destruct (translate_port_state _) as [st|]; cbn [rbind]; [|discriminate].
  destruct (translate_wwn _) as [fabric|]; cbn [rbind]; [|discriminate].
  by intros [= <-].
Qed.

Lemma traverseM_Ok_Forall {A B} (f : A -> M world B) (l : list A)
    (s s' : state world) (ys : list B) :
  traverseM f l s = (Ok ys, s') ->
  Forall (fun y => exists x s0 s1, f x s0 = (Ok y, s1)) ys.
Proof.
  revert s s' ys. induction l as [|x l IH]; intros s s' ys; cbn [traverseM].
  - intros [= <- _]. constructor.
  - intros Hrun. invert_run Hrun. injection Hrun as <-.
    constructor; [by eexists _, _, _|]. by eapply IH.
Qed.

Lemma get_remote_ports_fresh (h : handle) (port_index n : nat)
    (s s' : state world) (ports : list Port) :
  _get_remote_ports h port_index n s = (Ok ports, s') ->
  Forall (fun p => kept p = true /\ hct p = (-1, -1, -1) /\
                   discovered_ports p = [] /\ all_port_mappings p = None) ports.
Proof.
  unfold _get_remote_ports. rewrite get_remote_ports_loop_filter.
  intros Hrun. invert_run Hrun. injection Hrun as <-. cbn [app].
  match goal with
  | H : traverseM _ _ _ = _ |- _ => apply traverseM_Ok_Forall in H; rename H into Hall
  end.
  apply Forall_forall. intros p Hp.
  apply list_elem_of_In, filter_In in Hp as [Hp Hk]. split; [done|].
  apply list_elem_of_In in Hp. eapply Forall_forall in Hall; [|exact Hp].
  destruct Hall as (i & s0 & s1 & Hrun). unfold discovered_port in Hrun.
  invert_run Hrun. by eapply get_port_object_fresh.
Qed.

(** A local port that [_get_local_port] returns is as [scanned_port_ok]
    says. *)
Lemma get_local_port_ok (h : handle) (adapter_attributes : HBA_AdapterAttributes)
    (port_index : nat) (s s' : state world) (port : Port) :
  _get_local_port h adapter_attributes port_index s = (Ok port, s') ->
  scanned_port_ok port.
Proof.
  intros Hrun.
  apply get_local_port_inv in Hrun
    as (pa & port0 & wwn & remote_ports & st & table & dict & remote_ports'
        & s1 & s2 & s3 & _ & _ & _ & Hremote & _ & _ & _ & Hhct & ->).
  cbn zeta in Hhct. apply get_remote_ports_fresh in Hremote.
  destruct (populate_local_port_hct_host port0) as (host_number & Hpop & Hhost).
  rewrite Hpop in Hhct |- *. exists host_number.
  cbn [set_discovered_ports set_all_port_mappings set_statistics set_hct hct
         all_port_mappings discovered_ports].
  split; [done|]. split; [done|]. split; [by eexists|].
  revert Hremote. induction Hhct as [|rp rp' l l' (v & Hv & ->) _ IH];
    intros Hremote; [constructor|].
  apply Forall_cons in Hremote as [(Hk & _ & Hd & Hm) Hrest].
  constructor; [|by apply IH].
  unfold remote_port_hct in Hv.
  cbn [set_discovered_ports set_all_port_mappings set_statistics set_hct hct]
    in Hv.
  destruct (if Py.contains "aix" get_platform_string then _ else _)
    as [ct|]; cbn [rbind] in Hv; [|discriminate].
  injection Hv as <-. unfold kept in *. by destruct rp.
Qed.

Lemma iter_ports_of_adapter_yields (h : handle)
    (adapter_attributes : HBA_AdapterAttributes) (indices : list nat) :
  yields_only scanned_port_ok (_iter_ports_of_adapter h adapter_attributes indices).
Proof.
  induction indices as [|i indices IH]; intros s; [constructor|].
  cbn [_iter_ports_of_adapter]. unfold g_bind.
  destruct (_get_local_port h adapter_attributes i s) as [[port|e] s1] eqn:Hport;
    [|constructor].
  unfold g_seq, g_yield. specialize (IH s1).
  destruct (_iter_ports_of_adapter h adapter_attributes indices s1)
    as [[zs r] s2]. cbn [fst] in *.
  constructor; [by eapply get_local_port_ok | exact IH].
Qed.

Lemma iter_ports_adapter_yields (adapter_name : Py.bytes) :
  yields_only scanned_port_ok (_iter_ports_adapter adapter_name).
Proof.
  intros s. unfold _iter_ports_adapter, hbaapi_adapter, g_bind.
  destruct (native_call _ _ s) as [[h|e] s1]; [|constructor].
  unfold g_finally.
  destruct (_get_adapter_attributes h s1) as [[aa|e] s2].
  - pose proof (iter_ports_of_adapter_yields h aa (seq 0 (NumberOfPorts aa)) s2)
      as Hys.
    destruct (_iter_ports_of_adapter h aa _ s2) as [[ys r] s3].
    by destruct (native_call _ _ s3) as [[u|e] s4].
  - destruct (is_NotImplementedError e); unfold g_return;
      by destruct (native_call _ _ s2) as [[u|e'] s4].
Qed.

Lemma iter_adapters_loop_yields (indices : list nat) :
  yields_only scanned_port_ok (_iter_adapters_loop indices _iter_ports_adapter).
Proof.
  induction indices as [|i indices IH]; intros s; [constructor|].
  cbn [_iter_adapters_loop]. unfold g_bind.
  destruct (native_call _ _ s) as [[name|e] s1]; [|constructor].
  unfold g_seq. pose proof (iter_ports_adapter_yields name s1) as Hys.
  destruct (_iter_ports_adapter name s1) as [[ys [u|e]] s2]; [|exact Hys].
  specialize (IH s2).
  destruct (_iter_adapters_loop indices _iter_ports_adapter s2) as [[zs r] s3].
  cbn [fst] in *. by apply Forall_app.
Qed.

(** Every local port a scan yields, however the scan ends, has the host
    number of its device name (or -1) with channel and target -1; no
    discovered port of it has a well-known address or is offline, each
    carries the host number of the local port and is itself never
    expanded.  [_iter_ports] yields every port with its mapping table
    attached, so [iter_ports] always finds the table it removes; what
    [iter_ports] yields are the same ports without the table, after the
    same native calls and with the same ending. *)
Theorem scan_yields_well_formed_ports (s : state world) :
  Forall scanned_port_ok (_iter_ports s).1.1 /\
  Forall2 (fun with_table without =>
             all_port_mappings without = None /\
             is_Some (all_port_mappings with_table) /\
             without = set_all_port_mappings with_table None)
    (_iter_ports s).1.1 (iter_ports s).1.1 /\
  (iter_ports s).1.2 = (_iter_ports s).1.2 /\
  (iter_ports s).2 = (_iter_ports s).2.
Proof.
  assert (Forall scanned_port_ok (_iter_ports s).1.1) as Hok.
  { unfold _iter_ports, hbaapi_library, g_bind.
    destruct (native_call _ _ s) as [[u|e] s1]; [|constructor].
    unfold g_finally, _iter_adapters, g_bind.
    destruct (native_call _ _ s1) as [[n|e] s2].
    - pose proof (iter_adapters_loop_yields (seq 0 n) s2) as Hys.
      destruct (_iter_adapters_loop _ _ s2) as [[ys r] s3].
      by destruct (native_call _ _ s3) as [[u'|e] s4].
    - by destruct (native_call _ _ s2) as [[u'|e'] s4]. }
  split; [exact Hok|]. unfold iter_ports.
  destruct (_iter_ports s) as [[ports r] s']. cbn [fst snd] in *.
  split; [|done].
  induction Hok as [|port ports (hn & _ & _ & Htable & _) _ IH]; constructor;
    [|exact IH].
  by destruct port.
Qed.

End ScanInvariants.

(** ** From the native table to the remote ports *)

Section EndToEnd.
Context {headers : Headers} {host : Host} {decoder : Decoder}
  {package : Package} {world : Type} {c_api : CApi world}.

(** On a platform that is neither Solaris nor AIX, the [hct] of every
    discovered port of a returned local port is read off the mapping
    table attached to that local port: the bus and the SCSI target number
    of the last row with the remote port's WWN among the rows that are
    not empty, and [(-1, -1)] when the table has no such row; the host is
    that of the local port. *)
Theorem remote_port_hct_from_table (h : handle)
    (adapter_attributes : HBA_AdapterAttributes) (port_index : nat)
    (s s' : state world) (port : Port) :
  Py.contains "solaris" get_platform_string
    || Py.contains "aix" get_platform_string = false ->
  _get_local_port h adapter_attributes port_index s = (Ok port, s') ->
  exists table,
    all_port_mappings port = Some table /\
    Forall (fun remote_port =>
              hct remote_port =
                match last (filter (fun e => wwn_address (FcId_PortWWN (FcId e))
                                             = _address (port_wwn remote_port))
                              (mapped_entries (entry table))) with
                | Some e => ((hct port).1.1, ScsiBusNumber (ScsiId e),
                             ScsiTargetNumber (ScsiId e))
                | None => ((hct port).1.1, -1, -1)
                end)
      (discovered_ports port).
Proof.
  intros Hplatform Hrun.
  apply get_local_port_inv in Hrun
    as (pa & port0 & wwn & remote_ports & st & table & dict & remote_ports'
        & s1 & s2 & s3 & _ & _ & _ & _ & _ & _ & Hdict & Hhct & ->).
  cbn zeta in Hhct. exists table. split; [reflexivity|].
  destruct (mappings_to_dict_lookup table Hplatform) as (dict' & Hdict' & Hlookup).
  rewrite Hdict in Hdict'. injection Hdict' as <-.
  apply orb_false_iff in Hplatform as [_ Haix].
  cbn [set_discovered_ports discovered_ports hct].
  induction Hhct as [|rp rp' l l' (v & Hv & ->) _ IH]; constructor; [|exact IH].
  unfold remote_port_hct in Hv. rewrite Haix in Hv. cbn [rbind] in Hv.
  injection Hv as <-.
  cbn [set_all_port_mappings set_statistics set_discovered_ports hct].
  rewrite Hlookup. cbn [set_hct hct port_wwn].
  by destruct (last _).
Qed.

(** When the probe is answered "more data" and the sized request
    succeeds, the table returned is decoded from what the sized request
    left in its buffer, after exactly these two calls; a decoding failure
    is the failure of the fetch. *)
Theorem get_local_port_mappings_fetched (h : handle) (wwn_buffer : Z)
    (s : state world) (probe raw1 buff raw2 : Py.bytes) (w1 w2 : world)
    (n : nat) (u : unit) :
  probe_buffer = Ok probe ->
  HBA_GetFcpTargetMappingV2 h wwn_buffer probe (native s)
    = ((Raise (RuntimeError HBA_STATUS_ERROR_MORE_DATA), raw1), w1) ->
  UNInt32_create_from_string raw1 = Ok n ->
  sized_buffer n = Ok buff ->
  HBA_GetFcpTargetMappingV2 h wwn_buffer buff w1 = ((Ok u, raw2), w2) ->
  _get_local_port_mappings h wwn_buffer s =
    (FCPTargetMappingV2_create_from_string raw2,
     after_call (after_call s (GetFcpTargetMappingV2 h wwn_buffer probe) w1)
       (GetFcpTargetMappingV2 h wwn_buffer buff) w2).
Proof.
  intros Hprobe Hcall1 Hn Hbuff Hcall2.
  assert (_get_local_port_mappings_count h wwn_buffer s
          = (Ok n, after_call s (GetFcpTargetMappingV2 h wwn_buffer probe) w1))
    as Hcount.
  { rewrite (get_local_port_mappings_count_run h wwn_buffer s probe Hprobe).
    rewrite Hcall1. cbn [is_RuntimeError args0].
    rewrite bool_decide_eq_true_2 by done. by rewrite Hn. }
  rewrite (get_local_port_mappings_run h wwn_buffer s _ n buff Hcount Hbuff).
  cbn [after_call native]. by rewrite Hcall2.
Qed.

End EndToEnd.

Section FurtherOnExample.
Import Example.

Lemma remote_port_hct_from_table_witness :
  exists port s',
    _get_local_port 1 Example.adapter_attributes 0 Example.start = (Ok port, s') /\
    map hct (discovered_ports port) = [(3, 0, 3)] /\
    exists table,
      all_port_mappings port = Some table /\
      Forall (fun remote_port =>
                hct remote_port =
                  match last (filter (fun e => wwn_address (FcId_PortWWN (FcId e))
                                               = _address (port_wwn remote_port))
                                (mapped_entries (entry table))) with
                  | Some e => ((hct port).1.1, ScsiBusNumber (ScsiId e),
                               ScsiTargetNumber (ScsiId e))
                  | None => ((hct port).1.1, -1, -1)
                  end)
        (discovered_ports port).
Proof.
  destruct (_get_local_port 1 Example.adapter_attributes 0 Example.start)
    as [[port|e] s'] eqn:Hrun; [|by vm_compute in Hrun].
  exists port, s'. split; [reflexivity|].
  pose proof (remote_port_hct_from_table 1 Example.adapter_attributes 0%nat
                Example.start s' port eq_refl Hrun) as Htable.
  vm_compute in Hrun. injection Hrun as <- <-.
  split; [reflexivity | exact Htable].
Defined.

Lemma get_local_port_mappings_fetched_witness :
  exists table s',
    _get_local_port_mappings 1 5 Example.start = (Ok table, s') /\
    NumberOfEntries table = 1%nat /\
    map (fun e => ScsiTargetNumber (ScsiId e)) (entry table) = [3].
Proof.
  pose proof (get_local_port_mappings_fetched 1 5 Example.start
                [x00; x00; x00; x00] [x01; x00; x00; x00]
                [x01; x00; x00; x00; x00; x00; x00; x00; x00; x00; x00; x00; x00;
                 x00] Example.native_table 1%nat 2%nat 1%nat tt
                eq_refl eq_refl eq_refl eq_refl eq_refl) as Hrun.
  eexists _, _. split; [exact Hrun|]. split; reflexivity.
Defined.

End FurtherOnExample.
